(** * Recovery engine of the orchestrator: go/logic/topology_recovery.go

    A shallow embedding of the recovery engine and the properties of its
    executors, its dispatcher and its hook-command substitution.

    Conventions of the embedding.
    - A Go pointer [*inst.Instance] or [*inst.InstanceKey] is an [option];
      [nil] is [None].  Reading a field through a nil pointer is a run-time
      panic, which the executors below report as the outcome [Panicked].
    - A Go [error] is an [option Error]; [nil] is [None].
    - Calls that leave the process (package [inst], [os], [kv], [orcraft],
      the recovery tables) are answered by a [World], and every such call is
      appended to a trace, in program order.
    - [AuditTopologyRecovery], [inst.AuditOperation] and [log.*] only write
      log lines; every caller in this file discards what they return, so
      they are left out of the embedding. *)

From Stdlib Require Import String Ascii List ZArith Bool Lia DecimalString.
Import ListNotations.

Local Open Scope string_scope.
Local Open Scope list_scope.

(** ** Strings: the parts of Go's [strings] and [fmt] that the file uses *)

Module GoStrings.

(** [strings.Replace(s, old, new, -1)] for a non-empty [old]: every
    non-overlapping occurrence of [old], scanning from the left, becomes
    [new].  [skip] counts the bytes of a matched occurrence still to drop. *)
Fixpoint replaceFrom (old new : string) (skip : nat) (s : string) : string :=
  match s with
  | EmptyString => EmptyString
  | String c t =>
      match skip with
      | S k => replaceFrom old new k t
      | O =>
          if prefix old s
          then new ++ replaceFrom old new (String.length old - 1) t
          else String c (replaceFrom old new 0 t)
      end
  end.

(** With an empty [old], Go inserts [new] in front of the string and after
    every character. *)
Fixpoint intersperse (new s : string) : string :=
  match s with
  | EmptyString => EmptyString
  | String c t => String c (new ++ intersperse new t)
  end.

Definition Replace (s old new : string) : string :=
  match old with
  | EmptyString => new ++ intersperse new s
  | String _ _ => replaceFrom old new 0 s
  end.

(** [fmt.Sprintf("%d", n)] *)
Definition Sprintf_d (n : Z) : string := NilZero.string_of_int (Z.to_int n).

(** [fmt.Sprint(b)] for a bool *)
Definition Sprint_bool (b : bool) : string := if b then "true" else "false".

(** [strings.Join(l, sep)] *)
Fixpoint Join (l : list string) (sep : string) : string :=
  match l with
  | [] => ""
  | [x] => x
  | x :: rest => x ++ sep ++ Join rest sep
  end.


End GoStrings.

(** ** Data model *)

(** A Go [error], by its message.  Messages that the source builds with
    [%+v] renderings of structs are kept up to their fixed text. *)
Definition Error := string.

(** [inst.InstanceKey] *)
Record InstanceKey := mkKey {
  Hostname : string;
  Port : Z
}.

Definition key_eqb (a b : InstanceKey) : bool :=
  String.eqb (Hostname a) (Hostname b) && Z.eqb (Port a) (Port b).

(** Modelled from the spec: [InstanceKey.Equals] is declared in package
    [inst]; a key is a host and port pair and is the identity of a node.  A
    nil argument equals no key. *)
Definition Equals (this : InstanceKey) (other : option InstanceKey) : bool :=
  match other with
  | None => false
  | Some k => key_eqb this k
  end.

(** Modelled from the spec: [InstanceKey.DisplayString] of package [inst],
    the host and port of the key. *)
Definition DisplayString (k : InstanceKey) : string :=
  Hostname k ++ ":" ++ GoStrings.Sprintf_d (Port k).

(** [inst.InstanceKeyMap] is a Go map used as a set of keys.  It is kept as
    the list of its distinct keys; the order of the list stands for the
    iteration order of the map, which Go leaves unspecified. *)
Definition InstanceKeyMap := list InstanceKey.

Definition HasKey (m : InstanceKeyMap) (k : InstanceKey) : bool :=
  existsb (key_eqb k) m.

Definition AddKey (m : InstanceKeyMap) (k : InstanceKey) : InstanceKeyMap :=
  if HasKey m k then m else m ++ [k].

Definition AddKeys (m : InstanceKeyMap) (ks : list InstanceKey) : InstanceKeyMap :=
  fold_left AddKey ks m.

Definition ToCommaDelimitedList (m : InstanceKeyMap) : string :=
  GoStrings.Join (map DisplayString m) ",".

(** [inst.BinlogCoordinates] *)
Record BinlogCoordinates := mkCoordinates {
  LogFile : string;
  LogPos : Z
}.

Definition coordinates_eqb (a b : BinlogCoordinates) : bool :=
  String.eqb (LogFile a) (LogFile b) && Z.eqb (LogPos a) (LogPos b).

(** [inst.CandidatePromotionRule] *)
Inductive CandidatePromotionRule :=
| MustPromoteRule
| PreferPromoteRule
| NeutralPromoteRule
| PreferNotPromoteRule
| MustNotPromoteRule.

(** [inst.Instance], with the fields this file reads.  The results of the
    argument-free methods of [inst.Instance] that the file calls
    ([SQLThreadUpToDate], [ReplicaRunning], [IsBinlogServer],
    [HasReasonableMaintenanceReplicationLag]) are fields of the snapshot. *)
Record Instance := mkInstance {
  Key : InstanceKey;
  MasterKey : InstanceKey;
  InstanceAlias : string;
  ClusterName : string;
  DataCenter : string;
  Region : string;
  PhysicalEnvironment : string;
  PromotionRule : CandidatePromotionRule;
  IsCandidate : bool;
  ReadOnly : bool;
  LogBinEnabled : bool;
  LogSlaveUpdatesEnabled : bool;
  IsLastCheckValid : bool;
  HasReplicationFilters : bool;
  HasReplicationCredentials : bool;
  AllowTLS : bool;
  IsDowntimed : bool;
  CountSlaveHosts : nat;
  ExecBinlogCoordinates : BinlogCoordinates;
  SelfBinlogCoordinates : BinlogCoordinates;
  SQLThreadUpToDate : bool;
  ReplicaRunning : bool;
  IsBinlogServer : bool;
  HasReasonableMaintenanceReplicationLag : bool
}.

(** [inst.AnalysisCode] is a Go string type; its constants are declared in
    package [inst] and carry their own names. *)
Definition AnalysisCode := string.

Module Analysis.
Definition NoProblem : AnalysisCode := "NoProblem".
Definition DeadMaster : AnalysisCode := "DeadMaster".
Definition DeadMasterAndSlaves : AnalysisCode := "DeadMasterAndSlaves".
Definition DeadMasterAndSomeSlaves : AnalysisCode := "DeadMasterAndSomeSlaves".
Definition UnreachableMaster : AnalysisCode := "UnreachableMaster".
Definition UnreachableMasterWithLaggingReplicas : AnalysisCode :=
  "UnreachableMasterWithLaggingReplicas".
Definition AllMasterSlavesNotReplicating : AnalysisCode := "AllMasterSlavesNotReplicating".
Definition AllMasterSlavesNotReplicatingOrDead : AnalysisCode :=
  "AllMasterSlavesNotReplicatingOrDead".
Definition DeadCoMaster : AnalysisCode := "DeadCoMaster".
Definition DeadCoMasterAndSomeSlaves : AnalysisCode := "DeadCoMasterAndSomeSlaves".
Definition DeadIntermediateMaster : AnalysisCode := "DeadIntermediateMaster".
Definition DeadIntermediateMasterWithSingleSlaveFailingToConnect : AnalysisCode :=
  "DeadIntermediateMasterWithSingleSlaveFailingToConnect".
Definition DeadIntermediateMasterAndSomeSlaves : AnalysisCode :=
  "DeadIntermediateMasterAndSomeSlaves".
Definition DeadIntermediateMasterAndSlaves : AnalysisCode := "DeadIntermediateMasterAndSlaves".
Definition AllIntermediateMasterSlavesFailingToConnectOrDead : AnalysisCode :=
  "AllIntermediateMasterSlavesFailingToConnectOrDead".
Definition FirstTierSlaveFailingToConnectToMaster : AnalysisCode :=
  "FirstTierSlaveFailingToConnectToMaster".
End Analysis.

(** Command hints of the operator-driven paths (package [inst]). *)
Definition ForceMasterFailoverCommandHint : string := "force-master-failover".
Definition ForceMasterTakeoverCommandHint : string := "force-master-takeover".
Definition GracefulMasterTakeoverCommandHint : string := "graceful-master-takeover".

(** [inst.ClusterInfo] *)
Record ClusterInfo := mkClusterInfo {
  CI_ClusterName : string;
  ClusterAlias : string;
  ClusterDomain : string;
  HasAutomatedMasterRecovery : bool;
  HasAutomatedIntermediateMasterRecovery : bool
}.

(** [inst.ReplicationAnalysis] *)
Record ReplicationAnalysis := mkAnalysis {
  AnalyzedInstanceKey : InstanceKey;
  AnalyzedInstanceMasterKey : InstanceKey;
  ClusterDetails : ClusterInfo;
  AnalyzedInstanceDataCenter : string;
  AnalyzedInstanceRegion : string;
  AnalyzedInstancePhysicalEnvironment : string;
  Analysis_ : AnalysisCode;
  Description : string;
  CommandHint : string;
  CountReplicas : Z;
  SlaveHosts : InstanceKeyMap;
  IsDowntimed_ : bool;
  SkippableDueToDowntime : bool;
  OracleGTIDImmediateTopology : bool;
  MariaDBGTIDImmediateTopology : bool;
  BinlogServerImmediateTopology : bool;
  IsActionableRecovery : bool
}.

Inductive RecoveryType :=
| NoRecoveryType
| MasterRecovery
| CoMasterRecovery
| IntermediateMasterRecovery.

Inductive MasterRecoveryType :=
| NotMasterRecovery
| MasterRecoveryGTID
| MasterRecoveryPseudoGTID
| MasterRecoveryBinlogServer.

(** The closures that the executors hand to [AddPostponedFunction], by the
    values they capture. *)
Inductive PostponedFunction :=
| MoveBinlogServer (binlogServerReplica promotedBinlogServer promotedReplica : Instance)
| DetachLostReplicas (lostReplicas : list Instance)
| RelocateReplicasBelow (promotedReplica candidateInstance : Instance)
| DetachPromotedMasterHost (promotedReplica : Instance)
| RegroupPostponed (label : string).

(** [TopologyRecovery]; the embedded [inst.PostponedFunctionsContainer] is
    the list [Postponed], in the order of the calls to
    [AddPostponedFunction]. *)
Record TopologyRecovery := mkRecovery {
  Postponed : list PostponedFunction;
  Id : Z;
  UID : string;
  AnalysisEntry : ReplicationAnalysis;
  SuccessorKey : option InstanceKey;
  SuccessorAlias : string;
  IsActive : bool;
  IsSuccessful : bool;
  LostReplicas : InstanceKeyMap;
  ParticipatingInstanceKeys : InstanceKeyMap;
  AllErrors : list string;
  RecoveryStartTimestamp : Z;
  RecoveryEndTimestamp : option Z;
  Type_ : RecoveryType;
  RecoveryType_ : MasterRecoveryType
}.

(** The configuration knobs of [config.Config] that the file reads, and
    [process.ThisHostname]. *)
Record Config := mkConfig {
  PreFailoverProcesses : list string;
  PreGracefulTakeoverProcesses : list string;
  OnFailureDetectionProcesses : list string;
  PostFailoverProcesses : list string;
  PostUnsuccessfulFailoverProcesses : list string;
  PostMasterFailoverProcesses : list string;
  PostIntermediateMasterFailoverProcesses : list string;
  PostGracefulTakeoverProcesses : list string;
  PreventCrossDataCenterMasterFailover : bool;
  PreventCrossRegionMasterFailover : bool;
  DetachLostReplicasAfterMasterFailover : bool;
  MasterFailoverDetachReplicaMasterHost : bool;
  ApplyMySQLPromotionAfterMasterFailover : bool;
  FailMasterPromotionIfSQLThreadNotUpToDate : bool;
  DelayMasterPromotionIfSQLThreadNotUpToDate : bool;
  CoMasterRecoveryMustPromoteOtherCoMaster : bool;
  ReasonableMaintenanceReplicationLagSeconds : Z;
  RecoveryPeriodBlockSeconds : Z;
  ThisHostname : string
}.

(** Field updates of a [TopologyRecovery] (Go assigns through the pointer). *)
Definition set_Postponed (r : TopologyRecovery) (v : list PostponedFunction) :=
  mkRecovery v (Id r) (UID r) (AnalysisEntry r) (SuccessorKey r) (SuccessorAlias r)
    (IsActive r) (IsSuccessful r) (LostReplicas r) (ParticipatingInstanceKeys r)
    (AllErrors r) (RecoveryStartTimestamp r) (RecoveryEndTimestamp r) (Type_ r)
    (RecoveryType_ r).

Definition set_Successor (r : TopologyRecovery) (k : option InstanceKey) (alias : string) :=
  mkRecovery (Postponed r) (Id r) (UID r) (AnalysisEntry r) k alias
    (IsActive r) (IsSuccessful r) (LostReplicas r) (ParticipatingInstanceKeys r)
    (AllErrors r) (RecoveryStartTimestamp r) (RecoveryEndTimestamp r) (Type_ r)
    (RecoveryType_ r).

Definition set_IsSuccessful (r : TopologyRecovery) (b : bool) :=
  mkRecovery (Postponed r) (Id r) (UID r) (AnalysisEntry r) (SuccessorKey r)
    (SuccessorAlias r) (IsActive r) b (LostReplicas r) (ParticipatingInstanceKeys r)
    (AllErrors r) (RecoveryStartTimestamp r) (RecoveryEndTimestamp r) (Type_ r)
    (RecoveryType_ r).

Definition set_LostReplicas (r : TopologyRecovery) (m : InstanceKeyMap) :=
  mkRecovery (Postponed r) (Id r) (UID r) (AnalysisEntry r) (SuccessorKey r)
    (SuccessorAlias r) (IsActive r) (IsSuccessful r) m (ParticipatingInstanceKeys r)
    (AllErrors r) (RecoveryStartTimestamp r) (RecoveryEndTimestamp r) (Type_ r)
    (RecoveryType_ r).

Definition set_Participating (r : TopologyRecovery) (m : InstanceKeyMap) :=
  mkRecovery (Postponed r) (Id r) (UID r) (AnalysisEntry r) (SuccessorKey r)
    (SuccessorAlias r) (IsActive r) (IsSuccessful r) (LostReplicas r) m
    (AllErrors r) (RecoveryStartTimestamp r) (RecoveryEndTimestamp r) (Type_ r)
    (RecoveryType_ r).

Definition set_AllErrors (r : TopologyRecovery) (l : list string) :=
  mkRecovery (Postponed r) (Id r) (UID r) (AnalysisEntry r) (SuccessorKey r)
    (SuccessorAlias r) (IsActive r) (IsSuccessful r) (LostReplicas r)
    (ParticipatingInstanceKeys r) l (RecoveryStartTimestamp r)
    (RecoveryEndTimestamp r) (Type_ r) (RecoveryType_ r).

Definition set_Type (r : TopologyRecovery) (t : RecoveryType) :=
  mkRecovery (Postponed r) (Id r) (UID r) (AnalysisEntry r) (SuccessorKey r)
    (SuccessorAlias r) (IsActive r) (IsSuccessful r) (LostReplicas r)
    (ParticipatingInstanceKeys r) (AllErrors r) (RecoveryStartTimestamp r)
    (RecoveryEndTimestamp r) t (RecoveryType_ r).

Definition set_RecoveryType (r : TopologyRecovery) (t : MasterRecoveryType) :=
  mkRecovery (Postponed r) (Id r) (UID r) (AnalysisEntry r) (SuccessorKey r)
    (SuccessorAlias r) (IsActive r) (IsSuccessful r) (LostReplicas r)
    (ParticipatingInstanceKeys r) (AllErrors r) (RecoveryStartTimestamp r)
    (RecoveryEndTimestamp r) (Type_ r) t.

Definition set_Resolved (r : TopologyRecovery) (ended : Z) :=
  mkRecovery (Postponed r) (Id r) (UID r) (AnalysisEntry r) (SuccessorKey r)
    (SuccessorAlias r) false (IsSuccessful r) (LostReplicas r)
    (ParticipatingInstanceKeys r) (AllErrors r) (RecoveryStartTimestamp r)
    (Some ended) (Type_ r) (RecoveryType_ r).

(** [NewTopologyRecovery]: [uid] is the token of [util.PrettyUniqueToken]. *)
Definition NewTopologyRecovery (uid : string) (replicationAnalysis : ReplicationAnalysis)
  : TopologyRecovery :=
  mkRecovery [] 0 uid replicationAnalysis None "" false false [] [] [] 0 None
    NoRecoveryType NotMasterRecovery.

(** [AddError]: a non-nil error is appended to [AllErrors]. *)
Definition AddError (r : TopologyRecovery) (err : option Error) : TopologyRecovery :=
  match err with
  | Some e => set_AllErrors r (AllErrors r ++ [e])
  | None => r
  end.

(** [AddErrors] *)
Definition AddErrors (r : TopologyRecovery) (errs : list Error) : TopologyRecovery :=
  fold_left (fun acc e => AddError acc (Some e)) errs r.

(** [AddPostponedFunction] of the embedded container. *)
Definition AddPostponedFunction (r : TopologyRecovery) (f : PostponedFunction)
  : TopologyRecovery :=
  set_Postponed r (Postponed r ++ [f]).

(** ** Hook commands *)

(** [replaceCommandPlaceholders] *)
Definition replaceCommandPlaceholders (cfg : Config) (command : string)
    (topologyRecovery : TopologyRecovery) : string :=
  let analysisEntry := AnalysisEntry topologyRecovery in
  let command := GoStrings.Replace command "{failureType}" (Analysis_ analysisEntry) in
  let command := GoStrings.Replace command "{failureDescription}" (Description analysisEntry) in
  let command := GoStrings.Replace command "{command}" (CommandHint analysisEntry) in
  let command := GoStrings.Replace command "{failedHost}"
                   (Hostname (AnalyzedInstanceKey analysisEntry)) in
  let command := GoStrings.Replace command "{failedPort}"
                   (GoStrings.Sprintf_d (Port (AnalyzedInstanceKey analysisEntry))) in
  let command := GoStrings.Replace command "{failureCluster}"
                   (CI_ClusterName (ClusterDetails analysisEntry)) in
  let command := GoStrings.Replace command "{failureClusterAlias}"
                   (ClusterAlias (ClusterDetails analysisEntry)) in
  let command := GoStrings.Replace command "{failureClusterDomain}"
                   (ClusterDomain (ClusterDetails analysisEntry)) in
  let command := GoStrings.Replace command "{countSlaves}"
                   (GoStrings.Sprintf_d (CountReplicas analysisEntry)) in
  let command := GoStrings.Replace command "{countReplicas}"
                   (GoStrings.Sprintf_d (CountReplicas analysisEntry)) in
  let command := GoStrings.Replace command "{isDowntimed}"
                   (GoStrings.Sprint_bool (IsDowntimed_ analysisEntry)) in
  let command := GoStrings.Replace command "{autoMasterRecovery}"
                   (GoStrings.Sprint_bool
                      (HasAutomatedMasterRecovery (ClusterDetails analysisEntry))) in
  let command := GoStrings.Replace command "{autoIntermediateMasterRecovery}"
                   (GoStrings.Sprint_bool
                      (HasAutomatedIntermediateMasterRecovery (ClusterDetails analysisEntry))) in
  let command := GoStrings.Replace command "{orchestratorHost}" (ThisHostname cfg) in
  let command := GoStrings.Replace command "{recoveryUID}" (UID topologyRecovery) in
  let command := GoStrings.Replace command "{isSuccessful}"
                   (GoStrings.Sprint_bool
                      (match SuccessorKey topologyRecovery with Some _ => true | None => false end)) in
  let command :=
    match SuccessorKey topologyRecovery with
    | Some successorKey =>
        let command := GoStrings.Replace command "{successorHost}" (Hostname successorKey) in
        let command := GoStrings.Replace command "{successorPort}"
                         (GoStrings.Sprintf_d (Port successorKey)) in
        GoStrings.Replace command "{successorAlias}" (SuccessorAlias topologyRecovery)
    | None => command
    end in
  let command := GoStrings.Replace command "{lostSlaves}"
                   (ToCommaDelimitedList (LostReplicas topologyRecovery)) in
  let command := GoStrings.Replace command "{lostReplicas}"
                   (ToCommaDelimitedList (LostReplicas topologyRecovery)) in
  let command := GoStrings.Replace command "{countLostReplicas}"
                   (GoStrings.Sprintf_d (Z.of_nat (List.length (LostReplicas topologyRecovery)))) in
  let command := GoStrings.Replace command "{slaveHosts}"
                   (ToCommaDelimitedList (SlaveHosts analysisEntry)) in
  let command := GoStrings.Replace command "{replicaHosts}"
                   (ToCommaDelimitedList (SlaveHosts analysisEntry)) in
  command.

(** ** The world outside the engine *)

(** Calls of package [inst] that return an instance and an error. *)
Inductive InstOp :=
| StopSlave (k : InstanceKey)
| StartSlaveUntilMasterCoordinates (k : InstanceKey) (c : BinlogCoordinates)
| ResetSlave (k : InstanceKey)
| FlushBinaryLogsTo (k : InstanceKey) (logFile : string)
| FlushBinaryLogs (k : InstanceKey) (count : Z)
| PurgeBinaryLogsToLatest (k : InstanceKey) (force : bool)
| SkipToNextBinaryLog (k : InstanceKey)
| Repoint (k masterKey : InstanceKey)
| GetCandidateReplicaOfBinlogServerTopology (k : InstanceKey)
| DetachReplicaMasterHost (k : InstanceKey)
| TakeMaster (k : InstanceKey) (allowTakingCoMaster : bool)
| WaitForSQLThreadUpToDate (k : InstanceKey)
| ResetSlaveOperation (k : InstanceKey)
| SetReadOnly (k : InstanceKey) (readOnly : bool)
| GetInstanceMaster (i : Instance)
| WaitForExecBinlogCoordinatesToReach (k : InstanceKey) (c : BinlogCoordinates)
| ChangeMasterTo (k masterKey : InstanceKey) (c : BinlogCoordinates) (gtidForce : bool)
| ChangeMasterCredentials (k : InstanceKey) (user password : string)
| EnableMasterSSL (k : InstanceKey).

(** Calls of package [inst] that return a list of instances and an error. *)
Inductive ReadOp :=
| ReadReplicaInstances (k : InstanceKey)
| ReadBinlogServerReplicaInstances (k : InstanceKey)
| ReadReplicaInstancesIncludingBinlogServerSubReplicas (k : InstanceKey)
| ReadClusterCandidateInstances (clusterName : string)
| ReadClusterNeutralPromotionRuleInstances (clusterName : string)
| ReadClusterMaster (clusterName : string)
| ReadClusterWriteableMaster (clusterName : string).

(** The regroup entry points of the rewirer. *)
Inductive RegroupOp :=
| RegroupReplicasGTID (k : InstanceKey)
| RegroupReplicasPseudoGTIDIncludingSubReplicasOfBinlogServers (k : InstanceKey)
| RegroupReplicas (k : InstanceKey)
| RegroupReplicasBinlogServers (k : InstanceKey).

(** What a regroup hands back.  [rg_probes] lists the instances on which
    the rewirer called the [postponeAllMatchOperations] callback it was
    given, and [rg_postponed] the work it added to the container it was
    given. *)
Record RegroupResult := mkRegroup {
  rg_lost : list Instance;
  rg_cannotReplicate : list Instance;
  rg_promoted : option Instance;
  rg_err : option Error;
  rg_probes : list (option Instance);
  rg_postponed : list string
}.

(** What [inst.RelocateReplicas] hands back. *)
Record RelocateResult := mkRelocate {
  rl_replicas : list Instance;
  rl_other : option Instance;
  rl_err : option Error;
  rl_errs : list Error
}.

Definition KVPair := (string * string)%type.

(** Calls whose result the file never looks at. *)
Inductive Effect :=
| BeginDowntime (k : InstanceKey)
| EndDowntime (k : InstanceKey)
| AcknowledgeInstanceFailureDetection (k : InstanceKey)
| PutKVPair (p : KVPair)
| PublishPutKeyValue (p : KVPair)
| PublishAsyncSnapshot
| PublishRegisterFailureDetection (a : ReplicationAnalysis)
| DistributePairs (ps : list KVPair)
| SetClusterAlias (code alias : string)
| ReplaceAliasClusterName (before after : string)
| SetGeneralAttribute (name value : string)
| CounterInc (name : string)
| GoSetReadOnly (k : InstanceKey) (readOnly : bool)
| GoEmergentlyReadTopologyInstance (k : InstanceKey)
| GoEmergentlyReadTopologyInstanceReplicas (k : InstanceKey)
| GoEmergentlyRestartReplicationOnTopologyInstanceReplicas (k : InstanceKey)
| PostponedByRewirer (label : string).

(** One entry of the trace: a call that left the engine, with the answer
    it got. *)
Inductive Call :=
| CInst (op : InstOp) (answer : option Instance * option Error)
| CRead (op : ReadOp) (answer : list Instance * option Error)
| CRegroup (op : RegroupOp) (answer : RegroupResult)
| CRelocateReplicas (k other : InstanceKey) (answer : RelocateResult)
| CReadInstance (k : InstanceKey) (answer : option Instance * bool * option Error)
| CEffect (e : Effect)
| CHookBatch (description : string) (count : nat)
| CCommandRun (description command : string) (answer : option Error)
| CAttemptFailureDetectionRegistration (a : ReplicationAnalysis)
    (answer : bool * option Error)
| CIsRecoveryDisabled (answer : bool * option Error)
| CWriteRecovery (r : TopologyRecovery)
| CPublishWriteRecovery (r : TopologyRecovery)
| CWriteResolveRecovery (r : TopologyRecovery)
| CPublishResolveRecovery (r : TopologyRecovery)
| CReadClusterInfo (clusterName : string) (answer : option ClusterInfo * option Error)
| CGetReplicationAnalysis (clusterName : string)
    (answer : list ReplicationAnalysis * option Error)
| CReadReplicationCredentials (k : InstanceKey) (answer : string * string * option Error).

Definition Trace := list Call.

(** The answers of everything outside the file.  Every answer may depend
    on the trace so far, so that the same call can be answered differently
    at different moments.  The last fields are the pure helpers of other
    packages that the file calls. *)
Record World := mkWorld {
  instOp : Trace -> InstOp -> option Instance * option Error;
  neverReturns : Trace -> InstOp -> bool;
  readOp : Trace -> ReadOp -> list Instance * option Error;
  regroupOp : Trace -> RegroupOp -> RegroupResult;
  relocateReplicas : Trace -> InstanceKey -> InstanceKey -> RelocateResult;
  readInstance : Trace -> InstanceKey -> option Instance * bool * option Error;
  commandRun : Trace -> string -> option Error;
  attemptFailureDetectionRegistration : Trace -> ReplicationAnalysis -> bool * option Error;
  isRecoveryDisabled : Trace -> bool * option Error;
  readClusterInfo : Trace -> string -> option ClusterInfo * option Error;
  getReplicationAnalysis : Trace -> string -> list ReplicationAnalysis * option Error;
  readReplicationCredentials : Trace -> InstanceKey -> string * string * option Error;
  publishCommandFails : Trace -> option Error;
  writeFails : Trace -> option Error;
  isRaftEnabled : bool;
  isLeader : Trace -> bool;
  isInEmergencyOperationGracefulPeriod : Trace -> InstanceKey -> bool;
  prettyUniqueToken : Trace -> string;
  now : Trace -> Z;
  SmallerThan : BinlogCoordinates -> BinlogCoordinates -> bool;
  CanReplicateFrom : Instance -> Instance -> bool;
  IsBannedFromBeingCandidateReplica : Instance -> bool;
  GetClusterMasterKVPairs : string -> InstanceKey -> list KVPair;
  sortReverseByCountReplicas : list Instance -> list Instance;
  keyIsValid : InstanceKey -> bool
}.

(** ** Running the engine *)

(** The state threaded through a run: the trace of calls, and the recovery
    table behind [AttemptRecoveryRegistration] and [resolveRecovery]. *)
Record St := mkSt {
  trace : Trace;
  store : list TopologyRecovery
}.

(** A run ends by returning, by a nil dereference, or never (a remote call
    that does not come back). *)
Inductive Outcome (A : Type) :=
| Panicked
| Blocked
| Returned (a : A) (s : St).

Arguments Panicked {A}.
Arguments Blocked {A}.
Arguments Returned {A} a s.

Definition M (A : Type) := St -> Outcome A.

Definition ret {A} (a : A) : M A := fun s => Returned a s.

Definition bind {A B} (m : M A) (f : A -> M B) : M B :=
  fun s =>
    match m s with
    | Panicked => Panicked
    | Blocked => Blocked
    | Returned a s' => f a s'
    end.

Declare Scope engine_scope.
Delimit Scope engine_scope with engine.
Notation "x <- m ;; k" := (bind m (fun x => k))
  (at level 61, m at next level, right associativity) : engine_scope.
Notation "' p <- m ;; k" := (bind m (fun x => match x with p => k end))
  (at level 61, p pattern, m at next level, right associativity) : engine_scope.
Notation "m ;;; k" := (bind m (fun _ => k))
  (at level 61, right associativity) : engine_scope.
Local Open Scope engine_scope.

Definition panic {A} : M A := fun _ => Panicked.

(** Reading a field through a pointer. *)
Definition deref {A} (p : option A) : M A :=
  match p with
  | Some a => ret a
  | None => panic
  end.

Definition emit (c : Call) : M unit :=
  fun s => Returned tt (mkSt (trace s ++ [c]) (store s)).

Definition getTrace : M Trace := fun s => Returned (trace s) s.
Definition getStore : M (list TopologyRecovery) := fun s => Returned (store s) s.
Definition putStore (l : list TopologyRecovery) : M unit :=
  fun s => Returned tt (mkSt (trace s) l).

Definition isNil {A} (p : option A) : bool :=
  match p with None => true | Some _ => false end.

Definition isSome {A} (p : option A) : bool := negb (isNil p).

Section Engine.

Variable cfg : Config.
Variable w : World.

(** *** Calls into the world *)

(** A call that is answered by [answer] and logged as [entry answer]. *)
Definition call {A} (answer : World -> Trace -> A) (entry : A -> Call) : M A :=
  fun s =>
    let a := answer w (trace s) in
    Returned a (mkSt (trace s ++ [entry a]) (store s)).

Definition inst_ (op : InstOp) : M (option Instance * option Error) :=
  fun s =>
    if neverReturns w (trace s) op then Blocked
    else call (fun w t => instOp w t op) (CInst op) s.

Definition read_ (op : ReadOp) : M (list Instance * option Error) :=
  call (fun w t => readOp w t op) (CRead op).

Definition regroup_ (op : RegroupOp) : M RegroupResult :=
  call (fun w t => regroupOp w t op) (CRegroup op).

Definition RelocateReplicas_ (k other : InstanceKey) : M RelocateResult :=
  call (fun w t => relocateReplicas w t k other) (CRelocateReplicas k other).

Definition ReadInstance_ (k : InstanceKey) : M (option Instance * bool * option Error) :=
  call (fun w t => readInstance w t k) (CReadInstance k).

Definition effect_ (e : Effect) : M unit := emit (CEffect e).

Definition CommandRun_ (description command : string) : M (option Error) :=
  call (fun w t => commandRun w t command) (CCommandRun description command).

Definition ask {A} (f : World -> Trace -> A) : M A :=
  fun s => Returned (f w (trace s)) s.

(** Modelled from the spec: [InstanceKey.StringCode] of package [inst],
    the string code of the host and port pair. *)
Definition StringCode (k : InstanceKey) : string := DisplayString k.

(** *** Hooks *)

(** The loop of [executeProcesses]; [err] is the first error met so far. *)
Fixpoint runProcesses (processes : list string) (description : string)
    (topologyRecovery : TopologyRecovery) (failOnError : bool) (err : option Error)
  : M (option Error) :=
  match processes with
  | [] => ret err
  | command :: rest =>
      let command := replaceCommandPlaceholders cfg command topologyRecovery in
      cmdErr <- CommandRun_ description command ;;
      match cmdErr with
      | None => runProcesses rest description topologyRecovery failOnError err
      | Some e =>
          let err := match err with None => Some e | Some _ => err end in
          if failOnError then ret err
          else runProcesses rest description topologyRecovery failOnError err
      end
  end.

(** [executeProcesses].  The trace gets one [CHookBatch] entry for the
    batch (the source audits the batch before it runs anything), then one
    [CCommandRun] per command that is run. *)
Definition executeProcesses (processes : list string) (description : string)
    (topologyRecovery : TopologyRecovery) (failOnError : bool) : M (option Error) :=
  emit (CHookBatch description (List.length processes)) ;;;
  match processes with
  | [] => ret None
  | _ => runProcesses processes description topologyRecovery failOnError None
  end.

(** *** The recovery table *)

Definition failedKeyOf (r : TopologyRecovery) : InstanceKey :=
  AnalyzedInstanceKey (AnalysisEntry r).

Definition hasActiveRecovery (table : list TopologyRecovery) (k : InstanceKey) : bool :=
  existsb (fun r => IsActive r && key_eqb (failedKeyOf r) k) table.

Definition hasRecentRecovery (table : list TopologyRecovery) (k : InstanceKey) (at_ : Z)
  : bool :=
  existsb (fun r =>
             negb (IsActive r) && key_eqb (failedKeyOf r) k &&
             match RecoveryEndTimestamp r with
             | Some ended => Z.ltb (at_ - ended) (RecoveryPeriodBlockSeconds cfg)
             | None => false
             end) table.

Definition registeredRecovery (uid : string) (id started : Z) (a : ReplicationAnalysis)
  : TopologyRecovery :=
  mkRecovery [] id uid a None "" true false [] [] [] started None
    NoRecoveryType NotMasterRecovery.

(** Modelled from the spec: [AttemptRecoveryRegistration] is not part of
    this file (it lives with the recovery tables).  Section 4.1 of the
    specification: [registerAttempt(analysis, failIfActive, failIfRecent)]
    tests that there is no active record for the failed key (when
    [failIfActive]) and no recent completed record within the configured
    cooldown (when [failIfRecent]); if either check fails it returns nil,
    which is not an error; otherwise it persists a new record with a
    generated UID and the start timestamp, and returns it.  Under
    consensus the registration is also published to the log. *)
Definition AttemptRecoveryRegistration (analysisEntry : ReplicationAnalysis)
    (failIfActive failIfRecent : bool) : M (option TopologyRecovery * option Error) :=
  table <- getStore ;;
  at_ <- ask now ;;
  let k := AnalyzedInstanceKey analysisEntry in
  if failIfActive && hasActiveRecovery table k then ret (None, None)
  else if failIfRecent && hasRecentRecovery table k at_ then ret (None, None)
  else
    uid <- ask prettyUniqueToken ;;
    let r := registeredRecovery uid (Z.of_nat (List.length table) + 1) at_ analysisEntry in
    putStore (table ++ [r]) ;;;
    emit (CWriteRecovery r) ;;;
    (if isRaftEnabled w then emit (CPublishWriteRecovery r) else ret tt) ;;;
    ret (Some r, None).

(** Modelled from the spec: the table side of [writeResolveRecovery] (and
    of the [resolve-recovery] command when it is applied): the record of
    the same UID takes the successor, the success flag, the lost replicas,
    the participating keys and the errors of the resolved recovery, gets
    its end timestamp, and gives up the active slot. *)
Definition resolveInTable (r : TopologyRecovery) (ended : Z) (table : list TopologyRecovery)
  : list TopologyRecovery :=
  map (fun x => if String.eqb (UID x) (UID r) then set_Resolved r ended else x) table.

(** [resolveRecovery] *)
Definition resolveRecovery (topologyRecovery : TopologyRecovery)
    (successorInstance : option Instance) : M (option Error * TopologyRecovery) :=
  let topologyRecovery :=
    match successorInstance with
    | Some i =>
        set_IsSuccessful (set_Successor topologyRecovery (Some (Key i)) (InstanceAlias i)) true
    | None => topologyRecovery
    end in
  table <- getStore ;;
  at_ <- ask now ;;
  putStore (resolveInTable topologyRecovery at_ table) ;;;
  if isRaftEnabled w then
    emit (CPublishResolveRecovery topologyRecovery) ;;;
    err <- ask publishCommandFails ;;
    ret (err, topologyRecovery)
  else
    emit (CWriteResolveRecovery topologyRecovery) ;;;
    err <- ask writeFails ;;
    ret (err, topologyRecovery).

(** *** Postponed functions *)

(** [for _, replica := range lostReplicas { inst.DetachReplicaMasterHost(&replica.Key) }] *)
Fixpoint detachAll (replicas : list Instance) : M unit :=
  match replicas with
  | [] => ret tt
  | r :: rest => inst_ (DetachReplicaMasterHost (Key r)) ;;; detachAll rest
  end.

(** The body of each postponed closure. *)
Definition runPostponed (f : PostponedFunction) : M (option Error) :=
  match f with
  | MoveBinlogServer binlogServerReplica promotedBinlogServer promotedReplica =>
      '(stopped, err) <- inst_ (StopSlave (Key binlogServerReplica)) ;;
      match err with
      | Some e => ret (Some e)
      | None =>
          binlogServerReplica <- deref stopped ;;
          if SmallerThan w (ExecBinlogCoordinates binlogServerReplica)
               (ExecBinlogCoordinates promotedBinlogServer)
          then
            '(started, err) <- inst_ (StartSlaveUntilMasterCoordinates
                                        (Key binlogServerReplica)
                                        (ExecBinlogCoordinates promotedBinlogServer)) ;;
            match err with
            | Some e => ret (Some e)
            | None =>
                binlogServerReplica <- deref started ;;
                '(_, err) <- inst_ (Repoint (Key binlogServerReplica) (Key promotedReplica)) ;;
                ret err
            end
          else
            '(_, err) <- inst_ (Repoint (Key binlogServerReplica) (Key promotedReplica)) ;;
            ret err
      end
  | DetachLostReplicas lostReplicas =>
      detachAll lostReplicas ;;; ret None
  | RelocateReplicasBelow promotedReplica candidateInstance =>
      r <- RelocateReplicas_ (Key promotedReplica) (Key candidateInstance) ;;
      ret (rl_err r)
  | DetachPromotedMasterHost promotedReplica =>
      inst_ (DetachReplicaMasterHost (Key promotedReplica)) ;;; ret None
  | RegroupPostponed label =>
      effect_ (PostponedByRewirer label) ;;; ret None
  end.

(** Modelled from the spec: [Wait] of [inst.PostponedFunctionsContainer]
    is declared in package [inst]; section 4.5 of the specification has the
    container drained sequentially, in the order of the additions, at the
    end of the dispatch. *)
Fixpoint Wait (fs : list PostponedFunction) : M unit :=
  match fs with
  | [] => ret tt
  | f :: rest => runPostponed f ;;; Wait rest
  end.

(** *** Candidate selection *)

(** [MasterFailoverGeographicConstraintSatisfied] *)
Definition MasterFailoverGeographicConstraintSatisfied (analysisEntry : ReplicationAnalysis)
    (suggestedInstance : Instance) : bool * string :=
  if PreventCrossDataCenterMasterFailover cfg &&
     negb (String.eqb (DataCenter suggestedInstance) (AnalyzedInstanceDataCenter analysisEntry))
  then (false,
        ("PreventCrossDataCenterMasterFailover: will not promote server in "
           ++ DataCenter suggestedInstance ++ " when failed server in "
           ++ AnalyzedInstanceDataCenter analysisEntry)%string)
  else if PreventCrossRegionMasterFailover cfg &&
          negb (String.eqb (Region suggestedInstance) (AnalyzedInstanceRegion analysisEntry))
  then (false,
        ("PreventCrossRegionMasterFailover: will not promote server in "
           ++ Region suggestedInstance ++ " when failed server in "
           ++ AnalyzedInstanceRegion analysisEntry)%string)
  else (true, "").

(** [isGenerallyValidAsWouldBeMaster] *)
Definition isGenerallyValidAsWouldBeMaster (replica : Instance) (requireLogSlaveUpdates : bool)
  : bool :=
  if negb (IsLastCheckValid replica) then false
  else if negb (LogBinEnabled replica) then false
  else if requireLogSlaveUpdates && negb (LogSlaveUpdatesEnabled replica) then false
  else if IsBinlogServer replica then false
  else if IsBannedFromBeingCandidateReplica w replica then false
  else true.

(** [canTakeOverPromotedServerAsMaster] *)
Definition canTakeOverPromotedServerAsMaster (wantToTakeOver toBeTakenOver : Instance) : bool :=
  if negb (isGenerallyValidAsWouldBeMaster wantToTakeOver true) then false
  else if negb (Equals (MasterKey wantToTakeOver) (Some (Key toBeTakenOver))) then false
  else if negb (CanReplicateFrom w toBeTakenOver wantToTakeOver) then false
  else true.

(** [isGeneralyValidAsCandidateSiblingOfIntermediateMaster] *)
Definition isGeneralyValidAsCandidateSiblingOfIntermediateMaster (sibling : Instance) : bool :=
  if negb (LogBinEnabled sibling) then false
  else if negb (LogSlaveUpdatesEnabled sibling) then false
  else if negb (ReplicaRunning sibling) then false
  else if negb (IsLastCheckValid sibling) then false
  else true.

(** [isValidAsCandidateSiblingOfIntermediateMaster] *)
Definition isValidAsCandidateSiblingOfIntermediateMaster
    (intermediateMasterInstance sibling : Instance) : bool :=
  if Equals (Key sibling) (Some (Key intermediateMasterInstance)) then false
  else if negb (isGeneralyValidAsCandidateSiblingOfIntermediateMaster sibling) then false
  else if IsBannedFromBeingCandidateReplica w sibling then false
  else if negb (Bool.eqb (HasReplicationFilters sibling)
                  (HasReplicationFilters intermediateMasterInstance)) then false
  else if negb (Bool.eqb (IsBinlogServer sibling) (IsBinlogServer intermediateMasterInstance))
  then false
  else if SmallerThan w (ExecBinlogCoordinates sibling)
            (ExecBinlogCoordinates intermediateMasterInstance) then false
  else true.

Definition sameDCAndEnv (a b : Instance) : bool :=
  String.eqb (DataCenter a) (DataCenter b) &&
  String.eqb (PhysicalEnvironment a) (PhysicalEnvironment b).

(** [GetCandidateSiblingOfIntermediateMaster].  [sort.Sort] is not stable
    and the order [InstancesByCountReplicas] is handed to it decides little
    on ties, so the sorted list is the world's. *)
Definition GetCandidateSiblingOfIntermediateMaster (intermediateMasterInstance : Instance)
  : M (option Instance * option Error) :=
  '(siblings, err) <- read_ (ReadReplicaInstances (MasterKey intermediateMasterInstance)) ;;
  match err with
  | Some e => ret (None, Some e)
  | None =>
      if Nat.leb (List.length siblings) 1
      then ret (None, Some "topology_recovery: no siblings found")
      else
        let siblings := sortReverseByCountReplicas w siblings in
        let valid := isValidAsCandidateSiblingOfIntermediateMaster intermediateMasterInstance in
        match find (fun s => valid s && IsCandidate s &&
                             sameDCAndEnv s intermediateMasterInstance) siblings with
        | Some s => ret (Some s, None)
        | None =>
        match find (fun s => valid s && IsCandidate s) siblings with
        | Some s => ret (Some s, None)
        | None =>
        match find (fun s => valid s && sameDCAndEnv s intermediateMasterInstance) siblings with
        | Some s => ret (Some s, None)
        | None =>
        match find valid siblings with
        | Some s => ret (Some s, None)
        | None => ret (None, Some "topology_recovery: cannot find candidate sibling")
        end end end end
  end.

(** A loop of the shape
    [for _, x := range l { if p(x) { candidateInstanceKey = &x.Key } }]:
    the last match stays. *)
Definition pickLast (p : Instance -> bool) (l : list Instance)
    (candidateInstanceKey : option InstanceKey) : option InstanceKey :=
  fold_left (fun acc x => if p x then Some (Key x) else acc) l candidateInstanceKey.

(** [inst.RemoveInstance]: the instances of the list but the one of the key. *)
Definition RemoveInstance (l : list Instance) (k : InstanceKey) : list Instance :=
  filter (fun i => negb (key_eqb (Key i) k)) l.

Definition geoOK (analysisEntry : ReplicationAnalysis) (i : Instance) : bool :=
  fst (MasterFailoverGeographicConstraintSatisfied analysisEntry i).

(** [SuggestReplacementForPromotedReplica] *)
Definition SuggestReplacementForPromotedReplica (topologyRecovery : TopologyRecovery)
    (deadInstanceKey : InstanceKey) (promotedReplica : Instance)
    (candidateInstanceKey : option InstanceKey)
  : M (option Instance * bool * option Error) :=
  let analysisEntry := AnalysisEntry topologyRecovery in
  '(candidateReplicas, _) <- read_ (ReadClusterCandidateInstances (ClusterName promotedReplica)) ;;
  let candidateReplicas := RemoveInstance candidateReplicas deadInstanceKey in
  '(deadInstance, _, err) <- ReadInstance_ deadInstanceKey ;;
  let deadInstance := match err with Some _ => None | None => deadInstance end in
  let isPromoted := fun c : Instance => Equals (Key promotedReplica) (Some (Key c)) in
  let keep : M (option Instance * bool * option Error) :=
    ret (Some promotedReplica, false, None) in
  let promotedIsIdeal :=
    isNil candidateInstanceKey &&
    match deadInstance with
    | Some dead =>
        existsb (fun c => isPromoted c && sameDCAndEnv promotedReplica dead) candidateReplicas
    | None => false
    end in
  if promotedIsIdeal then keep
  else
    let candidateInstanceKey :=
      match candidateInstanceKey, deadInstance with
      | None, Some dead =>
          pickLast (fun c => canTakeOverPromotedServerAsMaster c promotedReplica &&
                             sameDCAndEnv c dead) candidateReplicas None
      | _, _ => candidateInstanceKey
      end in
    let promotedIsGood :=
      isNil candidateInstanceKey &&
      existsb (fun c => isPromoted c && geoOK analysisEntry c) candidateReplicas in
    if promotedIsGood then keep
    else
      let candidateInstanceKey :=
        match candidateInstanceKey with
        | None =>
            pickLast (fun c => canTakeOverPromotedServerAsMaster c promotedReplica &&
                               sameDCAndEnv promotedReplica c) candidateReplicas None
        | Some _ => candidateInstanceKey
        end in
      let candidateInstanceKey :=
        match candidateInstanceKey with
        | None =>
            pickLast (fun c => canTakeOverPromotedServerAsMaster c promotedReplica &&
                               geoOK analysisEntry c) candidateReplicas None
        | Some _ => candidateInstanceKey
        end in
      let keepSearching :=
        negb (geoOK analysisEntry promotedReplica) ||
        match PromotionRule promotedReplica with
        | PreferNotPromoteRule => true
        | _ => false
        end in
      candidateInstanceKey <-
        (if keepSearching then
           '(neutralReplicas, _) <-
              read_ (ReadClusterNeutralPromotionRuleInstances (ClusterName promotedReplica)) ;;
           candidateInstanceKey <-
             match candidateInstanceKey with
             | None =>
                 match deadInstance with
                 | Some dead =>
                     ret (pickLast
                            (fun n => canTakeOverPromotedServerAsMaster n promotedReplica &&
                                      sameDCAndEnv dead n) neutralReplicas None)
                 | None =>
                     if existsb (fun n => canTakeOverPromotedServerAsMaster n promotedReplica)
                          neutralReplicas
                     then panic
                     else ret None
                 end
             | Some _ => ret candidateInstanceKey
             end ;;
           let candidateInstanceKey :=
             match candidateInstanceKey with
             | None =>
                 pickLast (fun n => canTakeOverPromotedServerAsMaster n promotedReplica &&
                                    sameDCAndEnv promotedReplica n) neutralReplicas None
             | Some _ => candidateInstanceKey
             end in
           let candidateInstanceKey :=
             match candidateInstanceKey with
             | None =>
                 pickLast (fun n => canTakeOverPromotedServerAsMaster n promotedReplica &&
                                    geoOK analysisEntry n) neutralReplicas None
             | Some _ => candidateInstanceKey
             end in
           ret candidateInstanceKey
         else ret candidateInstanceKey) ;;
      match candidateInstanceKey with
      | None => keep
      | Some k =>
          if Equals (Key promotedReplica) (Some k) then keep
          else
            '(replacement, _, err) <- ReadInstance_ k ;;
            ret (replacement, true, err)
      end.

(** [replacePromotedReplicaWithCandidate] *)
Definition replacePromotedReplicaWithCandidate (topologyRecovery : TopologyRecovery)
    (deadInstanceKey : InstanceKey) (promotedReplica : Instance)
    (candidateInstanceKey : option InstanceKey)
  : M (option Instance * option Error * TopologyRecovery) :=
  '(candidateInstance, actionRequired, err) <-
     SuggestReplacementForPromotedReplica topologyRecovery deadInstanceKey promotedReplica
       candidateInstanceKey ;;
  match err with
  | Some e => ret (Some promotedReplica, Some e, topologyRecovery)
  | None =>
      if negb actionRequired then ret (Some promotedReplica, None, topologyRecovery)
      else
        candidate <- deref candidateInstance ;;
        if Equals (MasterKey candidate) (Some (Key promotedReplica)) then
          '(candidateInstance, err) <-
             inst_ (TakeMaster (Key candidate)
                      match Type_ topologyRecovery with
                      | CoMasterRecovery => true
                      | _ => false
                      end) ;;
          match err with
          | Some e => ret (Some promotedReplica, Some e, topologyRecovery)
          | None =>
              candidate <- deref candidateInstance ;;
              ret (Some candidate, None,
                   AddPostponedFunction topologyRecovery
                     (RelocateReplicasBelow promotedReplica candidate))
          end
        else ret (Some promotedReplica, None, topologyRecovery)
  end.

(** *** Dead master *)

Definition maxBinlogServersToPromote : nat := 3.

(** The loop at the end of [recoverDeadMasterInBinlogServerTopology]:
    [for i, binlogServerReplica := range binlogServerReplicas], which
    returns at the first [i >= maxBinlogServersToPromote]. *)
Fixpoint postponeBinlogServers (i : nat) (binlogServerReplicas : list Instance)
    (promotedBinlogServer promotedReplica : Instance) (topologyRecovery : TopologyRecovery)
  : TopologyRecovery :=
  match binlogServerReplicas with
  | [] => topologyRecovery
  | binlogServerReplica :: rest =>
      if Nat.leb maxBinlogServersToPromote i then topologyRecovery
      else
        postponeBinlogServers (S i) rest promotedBinlogServer promotedReplica
          (AddPostponedFunction topologyRecovery
             (MoveBinlogServer binlogServerReplica promotedBinlogServer promotedReplica))
  end.

(** One step of the chain on the promoted replica: the call, and on error
    the early [return promotedReplica, err]. *)
Definition onReplica (op : InstanceKey -> InstOp) (promotedReplica : option Instance)
    (k : option Instance -> M (option Instance * option Error))
  : M (option Instance * option Error) :=
  p <- deref promotedReplica ;;
  '(promotedReplica, err) <- inst_ (op (Key p)) ;;
  match err with
  | Some e => ret (promotedReplica, Some e)
  | None => k promotedReplica
  end.

(** [recoverDeadMasterInBinlogServerTopology] *)
Definition recoverDeadMasterInBinlogServerTopology (topologyRecovery : TopologyRecovery)
  : M (option Instance * option Error * TopologyRecovery) :=
  let failedMasterKey := AnalyzedInstanceKey (AnalysisEntry topologyRecovery) in
  let leave (r : option Instance * option Error) := (r, topologyRecovery) in
  rg <- regroup_ (RegroupReplicasBinlogServers failedMasterKey) ;;
  match rg_err rg with
  | Some e => ret (None, Some e, topologyRecovery)
  | None =>
      bls <- deref (rg_promoted rg) ;;
      '(promotedBinlogServer, err) <- inst_ (StopSlave (Key bls)) ;;
      match err with
      | Some e => ret (None, Some e, topologyRecovery)
      | None =>
          bls <- deref promotedBinlogServer ;;
          '(promotedReplica, err) <-
             inst_ (GetCandidateReplicaOfBinlogServerTopology (Key bls)) ;;
          match err with
          | Some e => ret (promotedReplica, Some e, topologyRecovery)
          | None =>
              '(promotedReplica, err) <-
                 onReplica StopSlave promotedReplica (fun promotedReplica =>
                 onReplica (fun k => StartSlaveUntilMasterCoordinates k
                                       (ExecBinlogCoordinates bls))
                   promotedReplica (fun promotedReplica =>
                 onReplica StopSlave promotedReplica (fun promotedReplica =>
                 onReplica ResetSlave promotedReplica (fun promotedReplica =>
                 onReplica (fun k => FlushBinaryLogsTo k
                                       (LogFile (ExecBinlogCoordinates bls)))
                   promotedReplica (fun promotedReplica =>
                 onReplica (fun k => FlushBinaryLogs k 1) promotedReplica
                   (fun promotedReplica =>
                 onReplica (fun k => PurgeBinaryLogsToLatest k false) promotedReplica
                   (fun promotedReplica => ret (promotedReplica, None)))))))) ;;
              match err with
              | Some e => ret (promotedReplica, Some e, topologyRecovery)
              | None =>
                  '(promotedBinlogServer, err) <- inst_ (SkipToNextBinaryLog (Key bls)) ;;
                  match err with
                  | Some e => ret (promotedReplica, Some e, topologyRecovery)
                  | None =>
                      bls <- deref promotedBinlogServer ;;
                      promoted <- deref promotedReplica ;;
                      '(promotedBinlogServer, err) <-
                         inst_ (Repoint (Key bls) (Key promoted)) ;;
                      match err with
                      | Some e => ret (None, Some e, topologyRecovery)
                      | None =>
                          bls <- deref promotedBinlogServer ;;
                          '(binlogServerReplicas, err) <-
                             read_ (ReadBinlogServerReplicaInstances (Key bls)) ;;
                          match err with
                          | Some _ => ret (promotedReplica, None, topologyRecovery)
                          | None =>
                              ret (promotedReplica, None,
                                   postponeBinlogServers 0 binlogServerReplicas bls promoted
                                     topologyRecovery)
                          end
                      end
                  end
              end
          end
      end
  end.

(** The closure [promotedReplicaIsIdeal] of [recoverDeadMaster]: the bool it
    answers, and whether the call sets [postponedAll]. *)
Definition promotedReplicaIsIdeal (topologyRecovery : TopologyRecovery)
    (candidateInstanceKey : option InstanceKey) (promoted : option Instance) : bool * bool :=
  match promoted with
  | None => (false, false)
  | Some promoted =>
      if Equals (Key promoted) candidateInstanceKey then (true, false)
      else if isNil candidateInstanceKey &&
              match PromotionRule promoted with
              | MustPromoteRule | PreferPromoteRule => true
              | _ => false
              end &&
              String.eqb (DataCenter promoted)
                (AnalyzedInstanceDataCenter (AnalysisEntry topologyRecovery)) &&
              String.eqb (PhysicalEnvironment promoted)
                (AnalyzedInstancePhysicalEnvironment (AnalysisEntry topologyRecovery))
      then (true, true)
      else (false, false)
  end.

(** [for _, replica := range lostReplicas { inst.BeginDowntime(...) }] *)
Fixpoint beginDowntimeAll (replicas : list Instance) : M unit :=
  match replicas with
  | [] => ret tt
  | r :: rest => effect_ (BeginDowntime (Key r)) ;;; beginDowntimeAll rest
  end.

Definition addRegroupPostponed (topologyRecovery : TopologyRecovery) (labels : list string)
  : TopologyRecovery :=
  fold_left (fun r l => AddPostponedFunction r (RegroupPostponed l)) labels topologyRecovery.

(** [recoverDeadMaster] *)
Definition recoverDeadMaster (topologyRecovery : TopologyRecovery)
    (candidateInstanceKey : option InstanceKey) (skipProcesses : bool)
  : M (option Instance * list Instance * option Error * TopologyRecovery) :=
  let topologyRecovery := set_Type topologyRecovery MasterRecovery in
  let analysisEntry := AnalysisEntry topologyRecovery in
  let failedInstanceKey := AnalyzedInstanceKey analysisEntry in
  preErr <- (if negb skipProcesses
             then executeProcesses (PreFailoverProcesses cfg) "PreFailoverProcesses"
                    topologyRecovery true
             else ret None) ;;
  match preErr with
  | Some e => ret (None, [], Some e, AddError topologyRecovery (Some e))
  | None =>
      let masterRecoveryType :=
        if OracleGTIDImmediateTopology analysisEntry ||
           MariaDBGTIDImmediateTopology analysisEntry then MasterRecoveryGTID
        else if BinlogServerImmediateTopology analysisEntry then MasterRecoveryBinlogServer
        else MasterRecoveryPseudoGTID in
      let topologyRecovery := set_RecoveryType topologyRecovery masterRecoveryType in
      let viaRegroup (op : RegroupOp) :=
        rg <- regroup_ op ;;
        ret (rg_lost rg, rg_cannotReplicate rg, rg_promoted rg, rg_err rg,
             existsb (fun p => snd (promotedReplicaIsIdeal topologyRecovery
                                      candidateInstanceKey p)) (rg_probes rg),
             addRegroupPostponed topologyRecovery (rg_postponed rg)) in
      '(lostReplicas, cannotReplicateReplicas, promotedReplica, err, postponedAll,
        topologyRecovery) <-
         match masterRecoveryType with
         | MasterRecoveryGTID => viaRegroup (RegroupReplicasGTID failedInstanceKey)
         | MasterRecoveryBinlogServer =>
             '(promotedReplica, err, topologyRecovery) <-
                recoverDeadMasterInBinlogServerTopology topologyRecovery ;;
             ret ([], [], promotedReplica, err, false, topologyRecovery)
         | _ =>
             viaRegroup
               (RegroupReplicasPseudoGTIDIncludingSubReplicasOfBinlogServers failedInstanceKey)
         end ;;
      let topologyRecovery := AddError topologyRecovery err in
      let lostReplicas := lostReplicas ++ cannotReplicateReplicas in
      let topologyRecovery :=
        if isSome promotedReplica && negb (Nat.eqb (List.length lostReplicas) 0) &&
           DetachLostReplicasAfterMasterFailover cfg
        then AddPostponedFunction topologyRecovery (DetachLostReplicas lostReplicas)
        else topologyRecovery in
      effect_ (BeginDowntime failedInstanceKey) ;;;
      effect_ (AcknowledgeInstanceFailureDetection failedInstanceKey) ;;;
      beginDowntimeAll lostReplicas ;;;
      match promotedReplica with
      | Some promoted =>
          if negb postponedAll then
            '(promotedReplica, err, topologyRecovery) <-
               replacePromotedReplicaWithCandidate topologyRecovery failedInstanceKey
                 promoted candidateInstanceKey ;;
            ret (promotedReplica, lostReplicas, err, AddError topologyRecovery err)
          else ret (promotedReplica, lostReplicas, err, topologyRecovery)
      | None => ret (promotedReplica, lostReplicas, err, topologyRecovery)
      end
  end.

Definition AddInstances (m : InstanceKeyMap) (l : list Instance) : InstanceKeyMap :=
  AddKeys m (map Key l).

(** The closure [overrideMasterPromotion] of [checkAndRecoverDeadMaster]. *)
Definition overrideMasterPromotion (analysisEntry : ReplicationAnalysis)
    (promotedReplica : option Instance) (err : option Error)
  : M (option Instance * option Error) :=
  match promotedReplica with
  | None => ret (promotedReplica, err)
  | Some promoted =>
      let '(satisfied, reason) :=
        MasterFailoverGeographicConstraintSatisfied analysisEntry promoted in
      if negb satisfied
      then ret (None, Some ("RecoverDeadMaster: failed promotion; " ++ reason)%string)
      else if FailMasterPromotionIfSQLThreadNotUpToDate cfg &&
              negb (SQLThreadUpToDate promoted)
      then ret (None,
                Some "RecoverDeadMaster: failed promotion. FailMasterPromotionIfSQLThreadNotUpToDate is set and promoted replica 's sql thread is not up to date (relay logs still unapplied). Aborting promotion")
      else if DelayMasterPromotionIfSQLThreadNotUpToDate cfg &&
              negb (SQLThreadUpToDate promoted)
      then
        '(_, waitErr) <- inst_ (WaitForSQLThreadUpToDate (Key promoted)) ;;
        match waitErr with
        | Some e =>
            ret (None, Some ("DelayMasterPromotionIfSQLThreadNotUpToDate error: " ++ e)%string)
        | None => ret (promotedReplica, err)
        end
      else ret (promotedReplica, err)
  end.

Fixpoint putKVPairs (viaRaft : bool) (kvPairs : list KVPair) : M unit :=
  match kvPairs with
  | [] => ret tt
  | p :: rest =>
      effect_ (if viaRaft then PublishPutKeyValue p else PutKVPair p) ;;;
      putKVPairs viaRaft rest
  end.

(** The branch [if promotedReplica != nil] at the end of
    [checkAndRecoverDeadMaster]: what is done once the recovery is resolved
    with a successor. *)
Definition applyMasterPromotion (analysisEntry : ReplicationAnalysis) (promoted : Instance)
    (topologyRecovery : TopologyRecovery) (skipProcesses : bool) : M TopologyRecovery :=
  effect_ (CounterInc "recover.dead_master.success") ;;;
  (if ApplyMySQLPromotionAfterMasterFailover cfg ||
      String.eqb (CommandHint analysisEntry) GracefulMasterTakeoverCommandHint
   then
     '(_, resetErr) <- inst_ (ResetSlaveOperation (Key promoted)) ;;
     (match resetErr with
      | Some _ => inst_ (ResetSlaveOperation (Key promoted)) ;;; ret tt
      | None => ret tt
      end) ;;;
     inst_ (SetReadOnly (Key promoted) false) ;;;
     effect_ (GoSetReadOnly (AnalyzedInstanceKey analysisEntry) true)
   else ret tt) ;;;
  let kvPairs :=
    GetClusterMasterKVPairs w (ClusterAlias (ClusterDetails analysisEntry)) (Key promoted) in
  putKVPairs (isRaftEnabled w) kvPairs ;;;
  (if isRaftEnabled w then effect_ PublishAsyncSnapshot else ret tt) ;;;
  effect_ (DistributePairs kvPairs) ;;;
  let topologyRecovery :=
    if MasterFailoverDetachReplicaMasterHost cfg
    then AddPostponedFunction topologyRecovery (DetachPromotedMasterHost promoted)
    else topologyRecovery in
  let before := StringCode (AnalyzedInstanceKey analysisEntry) in
  let after := StringCode (Key promoted) in
  (if negb (String.eqb (ClusterAlias (ClusterDetails analysisEntry)) "")
   then effect_ (SetClusterAlias after (ClusterAlias (ClusterDetails analysisEntry)))
   else effect_ (ReplaceAliasClusterName before after)) ;;;
  effect_ (SetGeneralAttribute (ClusterDomain (ClusterDetails analysisEntry)) after) ;;;
  (if negb skipProcesses
   then executeProcesses (PostMasterFailoverProcesses cfg)
          "PostMasterFailoverProcesses" topologyRecovery false ;;; ret tt
   else ret tt) ;;;
  ret topologyRecovery.

(** [checkAndRecoverDeadMaster] *)
Definition checkAndRecoverDeadMaster (analysisEntry : ReplicationAnalysis)
    (candidateInstanceKey : option InstanceKey) (forceInstanceRecovery skipProcesses : bool)
  : M (bool * option TopologyRecovery * option Error) :=
  if negb (forceInstanceRecovery ||
           HasAutomatedMasterRecovery (ClusterDetails analysisEntry))
  then ret (false, None, None)
  else
    '(registered, err) <-
       AttemptRecoveryRegistration analysisEntry (negb forceInstanceRecovery)
         (negb forceInstanceRecovery) ;;
    match registered with
    | None => ret (false, None, err)
    | Some topologyRecovery =>
        effect_ (CounterInc "recover.dead_master.start") ;;;
        '(promotedReplica, lostReplicas, err, topologyRecovery) <-
           recoverDeadMaster topologyRecovery candidateInstanceKey skipProcesses ;;
        let topologyRecovery :=
          set_LostReplicas topologyRecovery
            (AddInstances (LostReplicas topologyRecovery) lostReplicas) in
        '(promotedReplica, err) <-
           overrideMasterPromotion analysisEntry promotedReplica err ;;
        '(_, topologyRecovery) <- resolveRecovery topologyRecovery promotedReplica ;;
        match promotedReplica with
        | Some promoted =>
            topologyRecovery <-
              applyMasterPromotion analysisEntry promoted topologyRecovery skipProcesses ;;
            ret (true, Some topologyRecovery, err)
        | None =>
            effect_ (CounterInc "recover.dead_master.fail") ;;;
            ret (true, Some topologyRecovery, err)
        end
    end.

(** *** Dead intermediate master *)

(** The variables that the closure [relocateReplicasToCandidateSibling] of
    [RecoverDeadIntermediateMaster] shares with its caller. *)
Record IMState := mkIM {
  recoveryResolved : bool;
  successorInstance : option Instance;
  im_recovery : TopologyRecovery
}.

(** The closure [relocateReplicasToCandidateSibling]. *)
Definition relocateReplicasToCandidateSibling (failedInstanceKey : InstanceKey)
    (candidateSiblingOfIntermediateMaster : option Instance) (st : IMState) : M IMState :=
  match candidateSiblingOfIntermediateMaster with
  | None => ret st
  | Some candidate =>
      r <- RelocateReplicas_ failedInstanceKey (Key candidate) ;;
      let topologyRecovery := AddErrors (im_recovery st) (rl_errs r) in
      let topologyRecovery :=
        set_Participating topologyRecovery
          (AddKey (ParticipatingInstanceKeys topologyRecovery) (Key candidate)) in
      candidateSibling <- deref (rl_other r) ;;
      if Nat.eqb (List.length (rl_replicas r)) 0
      then ret (mkIM (recoveryResolved st) (successorInstance st) topologyRecovery)
      else if isSome (rl_err r) || negb (Nat.eqb (List.length (rl_errs r)) 0)
      then ret (mkIM (recoveryResolved st) (successorInstance st) topologyRecovery)
      else ret (mkIM true (Some candidateSibling) topologyRecovery)
  end.

(** Plan B of [RecoverDeadIntermediateMaster]: the generic regroup. *)
Definition regroupUnderLocalReplica (failedInstanceKey : InstanceKey) (st : IMState)
  : M IMState :=
  rg <- regroup_ (RegroupReplicas failedInstanceKey) ;;
  let topologyRecovery := AddError (im_recovery st) (rg_err rg) in
  match rg_promoted rg with
  | Some regroupPromotedReplica =>
      let topologyRecovery :=
        set_Participating topologyRecovery
          (AddKey (ParticipatingInstanceKeys topologyRecovery) (Key regroupPromotedReplica)) in
      if Nat.eqb (List.length (rg_lost rg)) 0 && isNil (rg_err rg)
      then ret (mkIM (recoveryResolved st) (Some regroupPromotedReplica) topologyRecovery)
      else ret (mkIM (recoveryResolved st) (successorInstance st) topologyRecovery)
  | None => ret (mkIM (recoveryResolved st) (successorInstance st) topologyRecovery)
  end.

(** Plan D of [RecoverDeadIntermediateMaster]: relocate up. *)
Definition relocateUp (analysisEntry : ReplicationAnalysis) (st : IMState) : M IMState :=
  let failedInstanceKey := AnalyzedInstanceKey analysisEntry in
  r <- RelocateReplicas_ failedInstanceKey (AnalyzedInstanceMasterKey analysisEntry) ;;
  let topologyRecovery := AddErrors (im_recovery st) (rl_errs r) in
  let topologyRecovery :=
    set_Participating topologyRecovery
      (AddKey (ParticipatingInstanceKeys topologyRecovery)
         (AnalyzedInstanceMasterKey analysisEntry)) in
  if negb (Nat.eqb (List.length (rl_replicas r)) 0) then
    let successor :=
      match successorInstance st with
      | None => rl_other r
      | Some _ => successorInstance st
      end in
    _ <- deref successor ;;
    ret (mkIM true successor topologyRecovery)
  else
    ret (mkIM (recoveryResolved st) (successorInstance st)
           (AddError topologyRecovery
              (Some "topology_recovery: RecoverDeadIntermediateMaster failed to match up any replica")))
.

(** [RecoverDeadIntermediateMaster].  The [err] it returns at its end is
    the one of [inst.ReadInstance], nil by then: the later errors are
    declared in inner blocks. *)
Definition RecoverDeadIntermediateMaster (topologyRecovery : TopologyRecovery)
    (skipProcesses : bool) : M (option Instance * option Error * TopologyRecovery) :=
  let topologyRecovery := set_Type topologyRecovery IntermediateMasterRecovery in
  let analysisEntry := AnalysisEntry topologyRecovery in
  let failedInstanceKey := AnalyzedInstanceKey analysisEntry in
  preErr <- (if negb skipProcesses
             then executeProcesses (PreFailoverProcesses cfg) "PreFailoverProcesses"
                    topologyRecovery true
             else ret None) ;;
  match preErr with
  | Some e => ret (None, Some e, AddError topologyRecovery (Some e))
  | None =>
      '(intermediateMasterInstance, _, err) <- ReadInstance_ failedInstanceKey ;;
      match err with
      | Some e => ret (None, Some e, AddError topologyRecovery (Some e))
      | None =>
          intermediateMaster <- deref intermediateMasterInstance ;;
          '(candidateSiblingOfIntermediateMaster, _) <-
             GetCandidateSiblingOfIntermediateMaster intermediateMaster ;;
          let candidateInSameDC :=
            match candidateSiblingOfIntermediateMaster with
            | Some c => String.eqb (DataCenter c) (DataCenter intermediateMaster)
            | None => false
            end in
          let candidateInOtherDC :=
            match candidateSiblingOfIntermediateMaster with
            | Some c => negb (String.eqb (DataCenter c) (DataCenter intermediateMaster))
            | None => false
            end in
          let st := mkIM false None topologyRecovery in
          (* Plan A *)
          st <- (if candidateInSameDC
                 then relocateReplicasToCandidateSibling failedInstanceKey
                        candidateSiblingOfIntermediateMaster st
                 else ret st) ;;
          st <- (if negb (recoveryResolved st) then
                   (* Plan B *)
                   st <- regroupUnderLocalReplica failedInstanceKey st ;;
                   (* Plan C *)
                   if candidateInOtherDC
                   then relocateReplicasToCandidateSibling failedInstanceKey
                          candidateSiblingOfIntermediateMaster st
                   else ret st
                 else ret st) ;;
          (* Plan D *)
          st <- (if negb (recoveryResolved st) then relocateUp analysisEntry st
                 else ret st) ;;
          let successor :=
            if negb (recoveryResolved st) then None else successorInstance st in
          '(_, topologyRecovery) <- resolveRecovery (im_recovery st) successor ;;
          ret (successor, None, topologyRecovery)
      end
  end.

(** [checkAndRecoverDeadIntermediateMaster] *)
Definition checkAndRecoverDeadIntermediateMaster (analysisEntry : ReplicationAnalysis)
    (candidateInstanceKey : option InstanceKey) (forceInstanceRecovery skipProcesses : bool)
  : M (bool * option TopologyRecovery * option Error) :=
  if negb (forceInstanceRecovery ||
           HasAutomatedIntermediateMasterRecovery (ClusterDetails analysisEntry))
  then ret (false, None, None)
  else
    '(registered, err) <-
       AttemptRecoveryRegistration analysisEntry (negb forceInstanceRecovery)
         (negb forceInstanceRecovery) ;;
    match registered with
    | None => ret (false, None, err)
    | Some topologyRecovery =>
        effect_ (CounterInc "recover.dead_intermediate_master.start") ;;;
        '(promotedReplica, err, topologyRecovery) <-
           RecoverDeadIntermediateMaster topologyRecovery skipProcesses ;;
        match promotedReplica with
        | Some promoted =>
            effect_ (CounterInc "recover.dead_intermediate_master.success") ;;;
            if negb skipProcesses then
              let topologyRecovery :=
                set_Successor topologyRecovery (Some (Key promoted)) (InstanceAlias promoted) in
              executeProcesses (PostIntermediateMasterFailoverProcesses cfg)
                "PostIntermediateMasterFailoverProcesses" topologyRecovery false ;;;
              ret (true, Some topologyRecovery, err)
            else ret (true, Some topologyRecovery, err)
        | None =>
            effect_ (CounterInc "recover.dead_intermediate_master.fail") ;;;
            ret (true, Some topologyRecovery, err)
        end
    end.

(** *** Dead co-master *)

(** The variable [mustPromoteOtherCoMaster] of [RecoverDeadCoMaster]. *)
Definition mustPromoteOtherCoMaster (otherCoMaster : Instance) : bool :=
  if negb (ReadOnly otherCoMaster) then true
  else CoMasterRecoveryMustPromoteOtherCoMaster cfg.

(** [RecoverDeadCoMaster] *)
Definition RecoverDeadCoMaster (topologyRecovery : TopologyRecovery) (skipProcesses : bool)
  : M (option Instance * list Instance * option Error * TopologyRecovery) :=
  let topologyRecovery := set_Type topologyRecovery CoMasterRecovery in
  let analysisEntry := AnalysisEntry topologyRecovery in
  let failedInstanceKey := AnalyzedInstanceKey analysisEntry in
  let otherCoMasterKey := AnalyzedInstanceMasterKey analysisEntry in
  '(otherCoMaster, found, _) <- ReadInstance_ otherCoMasterKey ;;
  match otherCoMaster, found with
  | Some otherCoMaster, true =>
      preErr <- (if negb skipProcesses
                 then executeProcesses (PreFailoverProcesses cfg) "PreFailoverProcesses"
                        topologyRecovery true
                 else ret None) ;;
      match preErr with
      | Some e => ret (None, [], Some e, AddError topologyRecovery (Some e))
      | None =>
          rg <- regroup_
                  (if OracleGTIDImmediateTopology analysisEntry ||
                      MariaDBGTIDImmediateTopology analysisEntry
                   then RegroupReplicasGTID failedInstanceKey
                   else RegroupReplicasPseudoGTIDIncludingSubReplicasOfBinlogServers
                          failedInstanceKey) ;;
          let topologyRecovery := addRegroupPostponed topologyRecovery (rg_postponed rg) in
          let promotedReplica := rg_promoted rg in
          let err := rg_err rg in
          let topologyRecovery := AddError topologyRecovery err in
          let lostReplicas := rg_lost rg ++ rg_cannotReplicate rg in
          let mustPromoteOtherCoMaster := mustPromoteOtherCoMaster otherCoMaster in
          '(promotedReplica, err, topologyRecovery) <-
             match promotedReplica with
             | Some promoted =>
                 let topologyRecovery :=
                   set_Participating topologyRecovery
                     (AddKey (ParticipatingInstanceKeys topologyRecovery) (Key promoted)) in
                 '(promotedReplica, err, topologyRecovery) <-
                    replacePromotedReplicaWithCandidate topologyRecovery failedInstanceKey
                      promoted
                      (if mustPromoteOtherCoMaster then Some otherCoMasterKey else None) ;;
                 ret (promotedReplica, err, AddError topologyRecovery err)
             | None => ret (promotedReplica, err, topologyRecovery)
             end ;;
          let '(promotedReplica, topologyRecovery) :=
            match promotedReplica with
            | Some promoted =>
                if mustPromoteOtherCoMaster &&
                   negb (Equals (Key promoted) (Some otherCoMasterKey))
                then (None,
                      AddError topologyRecovery
                        (Some "RecoverDeadCoMaster: could not manage to promote other-co-master; CoMasterRecoveryMustPromoteOtherCoMaster is true, therefore failing"))
                else (promotedReplica, topologyRecovery)
            | None => (promotedReplica, topologyRecovery)
            end in
          waited <-
            match promotedReplica with
            | Some promoted =>
                if DelayMasterPromotionIfSQLThreadNotUpToDate cfg then
                  '(_, waitErr) <- inst_ (WaitForSQLThreadUpToDate (Key promoted)) ;;
                  ret waitErr
                else ret None
            | None => ret None
            end ;;
          match waited with
          | Some waitErr => ret (promotedReplica, lostReplicas, Some waitErr, topologyRecovery)
          | None =>
              let topologyRecovery :=
                match promotedReplica with
                | Some promoted =>
                    set_Participating topologyRecovery
                      (AddKey (ParticipatingInstanceKeys topologyRecovery) (Key promoted))
                | None => topologyRecovery
                end in
              '(err, topologyRecovery) <-
                 match promotedReplica with
                 | Some promoted =>
                     if negb (Equals (Key promoted) (Some otherCoMasterKey)) then
                       '(_, err) <- inst_ (DetachReplicaMasterHost (Key promoted)) ;;
                       ret (err, AddError topologyRecovery err)
                     else ret (err, topologyRecovery)
                 | None => ret (err, topologyRecovery)
                 end ;;
              let topologyRecovery :=
                if isSome promotedReplica && negb (Nat.eqb (List.length lostReplicas) 0) &&
                   DetachLostReplicasAfterMasterFailover cfg
                then AddPostponedFunction topologyRecovery (DetachLostReplicas lostReplicas)
                else topologyRecovery in
              effect_ (BeginDowntime failedInstanceKey) ;;;
              effect_ (AcknowledgeInstanceFailureDetection failedInstanceKey) ;;;
              beginDowntimeAll lostReplicas ;;;
              ret (promotedReplica, lostReplicas, err, topologyRecovery)
          end
      end
  | _, _ =>
      let e : Error := "RecoverDeadCoMaster: could not read info for co-master" in
      ret (None, [], Some e, AddError topologyRecovery (Some e))
  end.

(** [checkAndRecoverDeadCoMaster] *)
Definition checkAndRecoverDeadCoMaster (analysisEntry : ReplicationAnalysis)
    (candidateInstanceKey : option InstanceKey) (forceInstanceRecovery skipProcesses : bool)
  : M (bool * option TopologyRecovery * option Error) :=
  if negb (forceInstanceRecovery ||
           HasAutomatedMasterRecovery (ClusterDetails analysisEntry))
  then ret (false, None, None)
  else
    '(registered, err) <-
       AttemptRecoveryRegistration analysisEntry (negb forceInstanceRecovery)
         (negb forceInstanceRecovery) ;;
    match registered with
    | None => ret (false, None, err)
    | Some topologyRecovery =>
        effect_ (CounterInc "recover.dead_co_master.start") ;;;
        '(promotedReplica, lostReplicas, err, topologyRecovery) <-
           RecoverDeadCoMaster topologyRecovery skipProcesses ;;
        '(_, topologyRecovery) <- resolveRecovery topologyRecovery promotedReplica ;;
        let topologyRecovery :=
          set_LostReplicas topologyRecovery
            (AddInstances (LostReplicas topologyRecovery) lostReplicas) in
        match promotedReplica with
        | Some promoted =>
            if FailMasterPromotionIfSQLThreadNotUpToDate cfg &&
               negb (SQLThreadUpToDate promoted)
            then ret (false, None,
                      Some "Promoted replica: sql thread is not up to date (relay logs still unapplied). Aborting promotion")
            else
              effect_ (CounterInc "recover.dead_co_master.success") ;;;
              (if ApplyMySQLPromotionAfterMasterFailover cfg
               then inst_ (SetReadOnly (Key promoted) false) ;;; ret tt
               else ret tt) ;;;
              if negb skipProcesses then
                let topologyRecovery :=
                  set_Successor topologyRecovery (Some (Key promoted))
                    (InstanceAlias promoted) in
                executeProcesses (PostMasterFailoverProcesses cfg)
                  "PostMasterFailoverProcesses" topologyRecovery false ;;;
                ret (true, Some topologyRecovery, err)
              else ret (true, Some topologyRecovery, err)
        | None =>
            effect_ (CounterInc "recover.dead_co_master.fail") ;;;
            ret (true, Some topologyRecovery, err)
        end
    end.

(** *** Dispatcher *)

(** [checkAndRecoverGenericProblem] *)
Definition checkAndRecoverGenericProblem (analysisEntry : ReplicationAnalysis)
    (candidateInstanceKey : option InstanceKey) (forceInstanceRecovery skipProcesses : bool)
  : M (bool * option TopologyRecovery * option Error) :=
  ret (false, None, None).

(** The functions that [getCheckAndRecoverFunction] can return. *)
Inductive CheckAndRecoverFunction :=
| FnDeadMaster
| FnDeadIntermediateMaster
| FnDeadCoMaster
| FnGenericProblem.

Definition codeIn (c : AnalysisCode) (l : list AnalysisCode) : bool :=
  existsb (String.eqb c) l.

(** [getCheckAndRecoverFunction] *)
Definition getCheckAndRecoverFunction (analysisCode : AnalysisCode)
    (analyzedInstanceKey : InstanceKey) : M (option CheckAndRecoverFunction * bool) :=
  if codeIn analysisCode [Analysis.DeadMaster; Analysis.DeadMasterAndSomeSlaves] then
    inGrace <- ask (fun w t => isInEmergencyOperationGracefulPeriod w t analyzedInstanceKey) ;;
    if inGrace then ret (Some FnGenericProblem, false)
    else ret (Some FnDeadMaster, true)
  else if codeIn analysisCode
            [Analysis.DeadIntermediateMaster;
             Analysis.DeadIntermediateMasterAndSomeSlaves;
             Analysis.DeadIntermediateMasterWithSingleSlaveFailingToConnect;
             Analysis.AllIntermediateMasterSlavesFailingToConnectOrDead]
  then ret (Some FnDeadIntermediateMaster, true)
  else if codeIn analysisCode [Analysis.DeadIntermediateMasterAndSlaves]
  then ret (Some FnGenericProblem, false)
  else if codeIn analysisCode [Analysis.DeadCoMaster; Analysis.DeadCoMasterAndSomeSlaves]
  then ret (Some FnDeadCoMaster, true)
  else if codeIn analysisCode
            [Analysis.DeadMasterAndSlaves;
             Analysis.UnreachableMaster;
             Analysis.UnreachableMasterWithLaggingReplicas;
             Analysis.AllMasterSlavesNotReplicating;
             Analysis.AllMasterSlavesNotReplicatingOrDead]
  then ret (Some FnGenericProblem, false)
  else ret (None, false).

Definition applyCheckAndRecoverFunction (f : CheckAndRecoverFunction) :=
  match f with
  | FnDeadMaster => checkAndRecoverDeadMaster
  | FnDeadIntermediateMaster => checkAndRecoverDeadIntermediateMaster
  | FnDeadCoMaster => checkAndRecoverDeadCoMaster
  | FnGenericProblem => checkAndRecoverGenericProblem
  end.

(** [runEmergentOperations]: the goroutines it starts. *)
Definition runEmergentOperations (analysisEntry : ReplicationAnalysis) : M unit :=
  let code := Analysis_ analysisEntry in
  let k := AnalyzedInstanceKey analysisEntry in
  let mk := AnalyzedInstanceMasterKey analysisEntry in
  if String.eqb code Analysis.DeadMasterAndSlaves
  then effect_ (GoEmergentlyReadTopologyInstance mk)
  else if String.eqb code Analysis.UnreachableMaster
  then effect_ (GoEmergentlyReadTopologyInstance k) ;;;
       effect_ (GoEmergentlyReadTopologyInstanceReplicas k)
  else if String.eqb code Analysis.UnreachableMasterWithLaggingReplicas
  then effect_ (GoEmergentlyRestartReplicationOnTopologyInstanceReplicas k)
  else if String.eqb code Analysis.AllMasterSlavesNotReplicating
  then effect_ (GoEmergentlyReadTopologyInstance k)
  else if String.eqb code Analysis.AllMasterSlavesNotReplicatingOrDead
  then effect_ (GoEmergentlyReadTopologyInstance k)
  else if String.eqb code Analysis.FirstTierSlaveFailingToConnectToMaster
  then effect_ (GoEmergentlyReadTopologyInstance mk)
  else ret tt.

(** [checkAndExecuteFailureDetectionProcesses] *)
Definition checkAndExecuteFailureDetectionProcesses (analysisEntry : ReplicationAnalysis)
    (skipProcesses : bool) : M (bool * bool * option Error) :=
  '(ok, _) <- call (fun w t => attemptFailureDetectionRegistration w t analysisEntry)
                (CAttemptFailureDetectionRegistration analysisEntry) ;;
  if negb ok then ret (false, false, None)
  else if skipProcesses then ret (true, false, None)
  else
    uid <- ask prettyUniqueToken ;;
    err <- executeProcesses (OnFailureDetectionProcesses cfg) "OnFailureDetectionProcesses"
             (NewTopologyRecovery uid analysisEntry) true ;;
    ret (true, true, err).

Definition with_IsActionableRecovery (a : ReplicationAnalysis) (b : bool) : ReplicationAnalysis :=
  mkAnalysis (AnalyzedInstanceKey a) (AnalyzedInstanceMasterKey a) (ClusterDetails a)
    (AnalyzedInstanceDataCenter a) (AnalyzedInstanceRegion a)
    (AnalyzedInstancePhysicalEnvironment a) (Analysis_ a) (Description a) (CommandHint a)
    (CountReplicas a) (SlaveHosts a) (IsDowntimed_ a) (SkippableDueToDowntime a)
    (OracleGTIDImmediateTopology a) (MariaDBGTIDImmediateTopology a)
    (BinlogServerImmediateTopology a) b.

(** [executeCheckAndRecoverFunction].  The in-flight counter and the log
    lines are left out. *)
Definition executeCheckAndRecoverFunction (analysisEntry : ReplicationAnalysis)
    (candidateInstanceKey : option InstanceKey) (forceInstanceRecovery skipProcesses : bool)
  : M (bool * option TopologyRecovery * option Error) :=
  '(checkAndRecoverFunction, isActionableRecovery) <-
     getCheckAndRecoverFunction (Analysis_ analysisEntry) (AnalyzedInstanceKey analysisEntry) ;;
  let analysisEntry := with_IsActionableRecovery analysisEntry isActionableRecovery in
  runEmergentOperations analysisEntry ;;;
  match checkAndRecoverFunction with
  | None => ret (false, None, None)
  | Some checkAndRecoverFunction =>
      leader <- ask isLeader ;;
      if isRaftEnabled w && negb leader then ret (false, None, None)
      else
        '(registrationSuccess, _, err) <-
           checkAndExecuteFailureDetectionProcesses analysisEntry skipProcesses ;;
        (if registrationSuccess && isRaftEnabled w
         then effect_ (PublishRegisterFailureDetection analysisEntry)
         else ret tt) ;;;
        match err with
        | Some e => ret (false, None, Some e)
        | None =>
            '(recoveryDisabledGlobally, disabledErr) <-
               call isRecoveryDisabled CIsRecoveryDisabled ;;
            if isNil disabledErr && recoveryDisabledGlobally && negb forceInstanceRecovery
            then ret (false, None, None)
            else
              '(recoveryAttempted, topologyRecovery, err) <-
                 applyCheckAndRecoverFunction checkAndRecoverFunction analysisEntry
                   candidateInstanceKey forceInstanceRecovery skipProcesses ;;
              if negb recoveryAttempted then ret (recoveryAttempted, topologyRecovery, err)
              else
                match topologyRecovery with
                | None => ret (recoveryAttempted, None, err)
                | Some recovery =>
                    (if negb skipProcesses then
                       match SuccessorKey recovery with
                       | None =>
                           executeProcesses (PostUnsuccessfulFailoverProcesses cfg)
                             "PostUnsuccessfulFailoverProcesses" recovery false ;;; ret tt
                       | Some successorKey =>
                           effect_ (EndDowntime successorKey) ;;;
                           executeProcesses (PostFailoverProcesses cfg)
                             "PostFailoverProcesses" recovery false ;;; ret tt
                       end
                     else ret tt) ;;;
                    Wait (Postponed recovery) ;;;
                    ret (recoveryAttempted, Some recovery, err)
                end
        end
  end.

(** *** Operator-driven paths *)

Definition zeroKey : InstanceKey := mkKey "" 0.

Definition zeroAnalysis : ReplicationAnalysis :=
  mkAnalysis zeroKey zeroKey (mkClusterInfo "" "" "" false false) "" "" "" "" "" "" 0 []
    false false false false false false.

(** [forceAnalysisEntry] *)
Definition forceAnalysisEntry (clusterName : string) (analysisCode : AnalysisCode)
    (commandHint : string) (failedInstanceKey : InstanceKey)
  : M (ReplicationAnalysis * option Error) :=
  '(clusterInfo, err) <- call (fun w t => readClusterInfo w t clusterName)
                           (CReadClusterInfo clusterName) ;;
  match err with
  | Some e => ret (zeroAnalysis, Some e)
  | None =>
      clusterInfo <- deref clusterInfo ;;
      '(clusterAnalysisEntries, err) <-
         call (fun w t => getReplicationAnalysis w t (CI_ClusterName clusterInfo))
           (CGetReplicationAnalysis (CI_ClusterName clusterInfo)) ;;
      match err with
      | Some e => ret (zeroAnalysis, Some e)
      | None =>
          let a :=
            fold_left (fun acc entry =>
                         if Equals (AnalyzedInstanceKey entry) (Some failedInstanceKey)
                         then entry else acc) clusterAnalysisEntries zeroAnalysis in
          ret (mkAnalysis failedInstanceKey (AnalyzedInstanceMasterKey a) clusterInfo
                 (AnalyzedInstanceDataCenter a) (AnalyzedInstanceRegion a)
                 (AnalyzedInstancePhysicalEnvironment a) analysisCode (Description a)
                 commandHint (CountReplicas a) (SlaveHosts a) (IsDowntimed_ a)
                 (SkippableDueToDowntime a) (OracleGTIDImmediateTopology a)
                 (MariaDBGTIDImmediateTopology a) (BinlogServerImmediateTopology a)
                 (IsActionableRecovery a), None)
      end
  end.

(** [ForceExecuteRecovery] *)
Definition ForceExecuteRecovery (analysisEntry : ReplicationAnalysis)
    (candidateInstanceKey : option InstanceKey) (skipProcesses : bool)
  : M (bool * option TopologyRecovery * option Error) :=
  executeCheckAndRecoverFunction analysisEntry candidateInstanceKey true skipProcesses.

(** The checks that [ForceMasterFailover] and [ForceMasterTakeover] share
    after the recovery. *)
Definition forcedResult (r : bool * option TopologyRecovery * option Error)
  : option TopologyRecovery * option Error :=
  let '(recoveryAttempted, topologyRecovery, err) := r in
  match err with
  | Some e => (None, Some e)
  | None =>
      if negb recoveryAttempted
      then (None, Some "Unexpected error: recovery not attempted. This should not happen")
      else
        match topologyRecovery with
        | None => (None, Some "Recovery attempted but with no results. This should not happen")
        | Some recovery =>
            match SuccessorKey recovery with
            | None => (None, Some "Recovery attempted yet no replica promoted")
            | Some _ => (Some recovery, None)
            end
        end
  end.

(** [ForceMasterFailover] *)
Definition ForceMasterFailover (clusterName : string)
  : M (option TopologyRecovery * option Error) :=
  '(clusterMasters, err) <- read_ (ReadClusterMaster clusterName) ;;
  match err, clusterMasters with
  | None, [clusterMaster] =>
      '(analysisEntry, err) <-
         forceAnalysisEntry clusterName Analysis.DeadMaster ForceMasterFailoverCommandHint
           (Key clusterMaster) ;;
      match err with
      | Some e => ret (None, Some e)
      | None =>
          r <- ForceExecuteRecovery analysisEntry None false ;;
          ret (forcedResult r)
      end
  | _, _ => ret (None, Some "Cannot deduce cluster master")
  end.

(** [ForceMasterTakeover] *)
Definition ForceMasterTakeover (clusterName : string) (destination : Instance)
  : M (option TopologyRecovery * option Error) :=
  '(clusterMasters, err) <- read_ (ReadClusterWriteableMaster clusterName) ;;
  match err, clusterMasters with
  | None, [clusterMaster] =>
      if negb (Equals (MasterKey destination) (Some (Key clusterMaster)))
      then ret (None, Some "You may only promote a direct child of the master")
      else
        '(analysisEntry, err) <-
           forceAnalysisEntry clusterName Analysis.DeadMaster ForceMasterTakeoverCommandHint
             (Key clusterMaster) ;;
        match err with
        | Some e => ret (None, Some e)
        | None =>
            r <- ForceExecuteRecovery analysisEntry (Some (Key destination)) false ;;
            ret (forcedResult r)
        end
  | _, _ => ret (None, Some "Cannot deduce cluster master")
  end.

(** The loop of [GracefulMasterTakeover] over the direct replicas that
    were not relocated below the designated instance: [true] when one of
    them is neither the designated instance nor downtimed. *)
Definition cannotTakeOverSiblings (clusterMasterDirectReplicas relocatedReplicas : list Instance)
    (designatedInstance : Instance) : bool :=
  let relocatedReplicasKeyMap := AddInstances [] relocatedReplicas in
  existsb (fun directReplica =>
             negb (HasKey relocatedReplicasKeyMap (Key directReplica)) &&
             negb (Equals (Key directReplica) (Some (Key designatedInstance))) &&
             negb (IsDowntimed directReplica))
    clusterMasterDirectReplicas.

Definition graceful_fail {A B} (e : Error) : M (option A * option B * option Error) :=
  ret (None, None, Some e).

(** The end of [GracefulMasterTakeover], from the return of
    [ForceExecuteRecovery] on.  [clusterMaster] is what [inst.SetReadOnly]
    returned when the master was demoted. *)
Definition afterGracefulRecovery (clusterMaster designatedInstance : Instance)
    (promotedMasterCoordinates : BinlogCoordinates)
    (replicationUser replicationPassword : string)
    (replicationCredentialsError : option Error)
    (recoveryAttempted : bool) (topologyRecovery : option TopologyRecovery)
    (err : option Error)
  : M (option TopologyRecovery * option BinlogCoordinates * option Error) :=
  if negb recoveryAttempted
  then graceful_fail "GracefulMasterTakeover: unexpected error: recovery not attempted. This should not happen"
  else
    match topologyRecovery with
    | None => graceful_fail "GracefulMasterTakeover: recovery attempted but with no results. This should not happen"
    | Some recovery =>
        match SuccessorKey recovery with
        | None =>
            inst_ (SetReadOnly (Key clusterMaster) false) ;;;
            graceful_fail "GracefulMasterTakeover: Recovery attempted yet no replica promoted"
        | Some _ =>
            '(changed, err) <-
               inst_ (ChangeMasterTo (Key clusterMaster)
                        (Key designatedInstance)
                        promotedMasterCoordinates
                        match RecoveryType_ recovery with
                        | MasterRecoveryGTID => true
                        | _ => false
                        end) ;;
            clusterMaster <- deref changed ;;
            err <-
              (if negb (HasReplicationCredentials clusterMaster) &&
                  isNil replicationCredentialsError
               then
                 '(_, credentialsErr) <-
                    inst_ (ChangeMasterCredentials
                             (Key clusterMaster)
                             replicationUser
                             replicationPassword) ;;
                 ret (match err with
                      | None => credentialsErr
                      | Some _ => err
                      end)
               else ret err) ;;
            err <-
              (if AllowTLS designatedInstance
               then
                 '(_, enableSSLErr) <-
                    inst_ (EnableMasterSSL (Key clusterMaster)) ;;
                 ret (match err with
                      | None => enableSSLErr
                      | Some _ => err
                      end)
               else ret err) ;;
            executeProcesses
              (PostGracefulTakeoverProcesses cfg)
              "PostGracefulTakeoverProcesses" recovery false ;;;
            ret (Some recovery,
                 Some promotedMasterCoordinates, err)
        end
    end.

(** [GracefulMasterTakeover] *)
Definition GracefulMasterTakeover (clusterName : string) (designatedKey : option InstanceKey)
  : M (option TopologyRecovery * option BinlogCoordinates * option Error) :=
  '(clusterMasters, err) <- read_ (ReadClusterMaster clusterName) ;;
  match err, clusterMasters with
  | Some _, _ => graceful_fail "Cannot deduce cluster master; error"
  | None, [clusterMaster] =>
      '(clusterMasterDirectReplicas, err) <- read_ (ReadReplicaInstances (Key clusterMaster)) ;;
      match err, clusterMasterDirectReplicas with
      | Some e, _ => graceful_fail e
      | None, [] => graceful_fail "Master doesn't seem to have replicas"
      | None, firstReplica :: otherReplicas =>
          let designatedKey :=
            match designatedKey with
            | Some k => if keyIsValid w k then Some k else None
            | None => None
            end in
          let designated : option Instance + Error :=
            match designatedKey with
            | None =>
                match otherReplicas with
                | [] => inl (Some firstReplica)
                | _ => inr "When no target instance indicated, master should only have one replica (making the takeover safe and simple). Aborting"
                end
            | Some k =>
                match fold_left (fun acc directReplica =>
                                   if Equals (Key directReplica) (Some k)
                                   then Some directReplica else acc)
                        clusterMasterDirectReplicas None with
                | Some i => inl (Some i)
                | None => inr "GracefulMasterTakeover: indicated designated instance must be directly replicating from the master"
                end
            end in
          match designated with
          | inr e => graceful_fail e
          | inl designatedInstance =>
              designatedInstance <- deref designatedInstance ;;
              if IsBannedFromBeingCandidateReplica w designatedInstance
              then graceful_fail "GracefulMasterTakeover: designated instance cannot be promoted due to promotion rule or it is explicitly ignored in PromotionIgnoreHostnameFilters configuration"
              else
                '(masterOfDesignatedInstance, err) <-
                   inst_ (GetInstanceMaster designatedInstance) ;;
                match err with
                | Some e => graceful_fail e
                | None =>
                    masterOfDesignatedInstance <- deref masterOfDesignatedInstance ;;
                    if negb (Equals (Key masterOfDesignatedInstance) (Some (Key clusterMaster)))
                    then graceful_fail "Sanity check failure. It seems like the designated instance does not replicate from the master. This error is strange. Panicking"
                    else if negb (HasReasonableMaintenanceReplicationLag designatedInstance)
                    then graceful_fail "Desginated instance seems to be lagging to much for thie operation. Aborting."
                    else
                      siblingsErr <-
                        (match otherReplicas with
                         | [] => ret None
                         | _ =>
                             r <- RelocateReplicas_ (Key clusterMaster)
                                    (Key designatedInstance) ;;
                             if negb (Nat.eqb (List.length (rl_replicas r))
                                        (List.length clusterMasterDirectReplicas - 1)) &&
                                cannotTakeOverSiblings clusterMasterDirectReplicas
                                  (rl_replicas r) designatedInstance
                             then ret (Some "Desginated instance cannot take over all of its siblings."%string)
                             else ret None
                         end) ;;
                      match siblingsErr with
                      | Some e => graceful_fail e
                      | None =>
                          '(replicationUser, replicationPassword, replicationCredentialsError) <-
                             call (fun w t => readReplicationCredentials w t
                                                (Key designatedInstance))
                               (CReadReplicationCredentials (Key designatedInstance)) ;;
                          '(analysisEntry, err) <-
                             forceAnalysisEntry clusterName Analysis.DeadMaster
                               GracefulMasterTakeoverCommandHint (Key clusterMaster) ;;
                          match err with
                          | Some e => graceful_fail e
                          | None =>
                              let preGracefulTakeoverTopologyRecovery :=
                                mkRecovery [] 0 "" analysisEntry None "" false false [] [] []
                                  0 None NoRecoveryType NotMasterRecovery in
                              err <- executeProcesses (PreGracefulTakeoverProcesses cfg)
                                       "PreGracefulTakeoverProcesses"
                                       preGracefulTakeoverTopologyRecovery true ;;
                              match err with
                              | Some e =>
                                  graceful_fail ("Failed running PreGracefulTakeoverProcesses: " ++ e)%string
                              | None =>
                                  '(demoted, err) <-
                                     inst_ (SetReadOnly (Key clusterMaster) true) ;;
                                  match err with
                                  | Some e => graceful_fail e
                                  | None =>
                                      clusterMaster <- deref demoted ;;
                                      let demotedMasterSelfBinlogCoordinates :=
                                        SelfBinlogCoordinates clusterMaster in
                                      '(caughtUp, err) <-
                                         inst_ (WaitForExecBinlogCoordinatesToReach
                                                  (Key designatedInstance)
                                                  demotedMasterSelfBinlogCoordinates) ;;
                                      match err with
                                      | Some e => graceful_fail e
                                      | None =>
                                          designatedInstance <- deref caughtUp ;;
                                          let promotedMasterCoordinates :=
                                            SelfBinlogCoordinates designatedInstance in
                                          '(recoveryAttempted, topologyRecovery, err) <-
                                             ForceExecuteRecovery analysisEntry
                                               (Some (Key designatedInstance)) false ;;
                                          afterGracefulRecovery clusterMaster
                                            designatedInstance promotedMasterCoordinates
                                            replicationUser replicationPassword
                                            replicationCredentialsError
                                            recoveryAttempted topologyRecovery err
                                      end
                                  end
                              end
                          end
                      end
                end
          end
      end
  | None, _ => graceful_fail "Cannot deduce cluster master. Found some potential masters"
  end.

End Engine.

(** ** Vocabulary of the properties *)

(** Every returning run of [m] only appends to the trace, and the value it
    returns and the entries it appends are related by [R]. *)
Definition runs {A} (m : M A) (R : A -> Trace -> Prop) : Prop :=
  forall s a s',
    m s = Returned a s' ->
    exists l, trace s' = trace s ++ l /\ R a l.

(** Every returning run of [m] returns a value that satisfies [Q] and
    appends only entries that satisfy [P]. *)
Definition ensures {A} (P : Call -> Prop) (Q : A -> Prop) (m : M A) : Prop :=
  runs m (fun a l => Q a /\ Forall P l).

(** Two states of a recovery record that tell the same outcome. *)
Definition sameOutcome (r r' : TopologyRecovery) : Prop :=
  SuccessorKey r' = SuccessorKey r /\
  SuccessorAlias r' = SuccessorAlias r /\
  IsSuccessful r' = IsSuccessful r /\
  UID r' = UID r /\
  AnalysisEntry r' = AnalysisEntry r.

(** The entries that publish the resolution of a recovery. *)
Definition resolutionOf (c : Call) : option TopologyRecovery :=
  match c with
  | CWriteResolveRecovery r => Some r
  | CPublishResolveRecovery r => Some r
  | _ => None
  end.

Definition notResolution (c : Call) : Prop := resolutionOf c = None.

(** The entries that write a new recovery to the table. *)
Definition registrationOf (c : Call) : option TopologyRecovery :=
  match c with
  | CWriteRecovery r => Some r
  | _ => None
  end.

(** The entries of the dispatcher's look at the global recovery switch. *)
Definition isGate (c : Call) : bool :=
  match c with
  | CIsRecoveryDisabled _ => true
  | _ => false
  end.

Definition notGate (c : Call) : Prop := isGate c = false.

(** The entries that touch neither the recovery table nor the global
    switch: calls on the topology, hooks, counters. *)
Definition plain (c : Call) : Prop :=
  match c with
  | CWriteRecovery _ | CPublishWriteRecovery _
  | CWriteResolveRecovery _ | CPublishResolveRecovery _
  | CIsRecoveryDisabled _ => False
  | _ => True
  end.

Definition anyCall (c : Call) : Prop := True.

(** The entries that start a batch of hooks. *)
Definition isHookBatch (description : string) (c : Call) : bool :=
  match c with
  | CHookBatch d _ => String.eqb d description
  | _ => false
  end.

(** The entries that ask for a detach-replica-master-host. *)
Definition isDetach (k : InstanceKey) (c : Call) : bool :=
  match c with
  | CInst (DetachReplicaMasterHost k') _ => key_eqb k k'
  | _ => false
  end.

(** The record as [resolveRecovery] leaves it. *)
Definition resolvedRecord (r : TopologyRecovery) (successorInstance : option Instance)
  : TopologyRecovery :=
  match successorInstance with
  | Some i => set_IsSuccessful (set_Successor r (Some (Key i)) (InstanceAlias i)) true
  | None => r
  end.

(** [x] is the last entry of [l]. *)
Definition endsWith (l : Trace) (x : Call) : Prop := exists t, l = t ++ [x].

(** The postponed functions that move a binlog server below the promoted
    master. *)
Definition movesBinlogServer (f : PostponedFunction) : bool :=
  match f with
  | MoveBinlogServer _ _ _ => true
  | _ => false
  end.

Definition anyTrue (A : Type) (_ : A) : Prop := True.
Arguments anyTrue {A} _.

(** ** Concrete topologies, used by the examples *)

Module Sample.

Definition keyM : InstanceKey := mkKey "m.dc1" 3306.
Definition keyM1 : InstanceKey := mkKey "m1.dc1" 3306.
Definition keyIM : InstanceKey := mkKey "im.dc1" 3306.
Definition keyR1 : InstanceKey := mkKey "r1.dc1" 3306.
Definition keyR2 : InstanceKey := mkKey "r2.dc2" 3306.
Definition keyS : InstanceKey := mkKey "s.dc1" 3306.
Definition keyB : InstanceKey := mkKey "bls.dc1" 3306.

Definition coords0 : BinlogCoordinates := mkCoordinates "mysql-bin.000010" 4.

(** A healthy replica of [master], in data center [dc]. *)
Definition replica (k master : InstanceKey) (dc : string) : Instance :=
  mkInstance k master "" "cluster1" dc "region1" "prod" NeutralPromoteRule false
    true true true true false true false false 0 coords0 coords0 true true false true.

Definition cluster1 : ClusterInfo := mkClusterInfo "cluster1" "alias1" "cluster1.example" true true.

(** An analysis entry for the failed instance [k], replica of [master]. *)
Definition analysisOf (code : AnalysisCode) (k master : InstanceKey) : ReplicationAnalysis :=
  mkAnalysis k master cluster1 "dc1" "region1" "prod" code "" "" 2 [keyR1; keyR2]
    false false true false false false.

Definition hooks (pre postUnsuccessful : list string) : Config :=
  mkConfig pre [] [] [] postUnsuccessful [] [] [] false false false false false
    false false false 10 3600 "orc1".

Definition config0 : Config := hooks [] [].

(** The configuration with the promotion knobs set as given. *)
Definition knobs (preventCrossDC failIfSQLThread delayIfSQLThread mustPromoteOther : bool)
  : Config :=
  mkConfig [] [] [] [] [] [] [] [] preventCrossDC false false false false
    failIfSQLThread delayIfSQLThread mustPromoteOther 10 3600 "orc1".

(** A replica whose SQL thread still has relay logs to apply. *)
Definition lagging (k master : InstanceKey) (dc : string) : Instance :=
  mkInstance k master "" "cluster1" dc "region1" "prod" NeutralPromoteRule false
    true true true true false true false false 0 coords0 coords0 false true false true.

(** A world in which every call succeeds and finds nothing: no replicas,
    no instances, no candidates. *)
Definition quiet : World :=
  mkWorld
    (fun _ _ => (None, None))
    (fun _ _ => false)
    (fun _ _ => ([], None))
    (fun _ _ => mkRegroup [] [] None None [] [])
    (fun _ _ _ => mkRelocate [] None None [])
    (fun _ _ => (None, false, None))
    (fun _ _ => None)
    (fun _ _ => (true, None))
    (fun _ => (false, None))
    (fun _ _ => (Some cluster1, None))
    (fun _ _ => ([], None))
    (fun _ _ => ("repl", "secret", None))
    (fun _ => None)
    (fun _ => None)
    false
    (fun _ => true)
    (fun _ _ => false)
    (fun t => "uid-" ++ GoStrings.Sprintf_d (Z.of_nat (List.length t)))%string
    (fun t => Z.of_nat (List.length t))
    (fun a b => String.ltb (LogFile a) (LogFile b) ||
                (String.eqb (LogFile a) (LogFile b) && Z.ltb (LogPos a) (LogPos b)))
    (fun _ _ => true)
    (fun _ => false)
    (fun alias k => [(("mysql/master/" ++ alias)%string, DisplayString k)])
    (fun l => l)
    (fun k => negb (String.eqb (Hostname k) "")).

Definition start : St := mkSt [] [].

(** The instance a call of package [inst] is about. *)
Definition subject (op : InstOp) : InstanceKey :=
  match op with
  | StopSlave k | StartSlaveUntilMasterCoordinates k _ | ResetSlave k
  | FlushBinaryLogsTo k _ | FlushBinaryLogs k _ | PurgeBinaryLogsToLatest k _
  | SkipToNextBinaryLog k | Repoint k _ | DetachReplicaMasterHost k | TakeMaster k _
  | WaitForSQLThreadUpToDate k | ResetSlaveOperation k | SetReadOnly k _
  | WaitForExecBinlogCoordinatesToReach k _ | ChangeMasterTo k _ _ _
  | ChangeMasterCredentials k _ _ | EnableMasterSSL k => k
  | GetCandidateReplicaOfBinlogServerTopology _ => keyR1
  | GetInstanceMaster i => MasterKey i
  end.

(** A world described by what its topology answers, the same at every
    moment.  A call of package [inst] answers a healthy snapshot of its
    subject, with the error [instErr] has for it. *)
Definition world (regroup : RegroupOp -> RegroupResult) (reads : ReadOp -> list Instance)
    (relocate : InstanceKey -> InstanceKey -> RelocateResult)
    (instances : InstanceKey -> option Instance) (run : string -> option Error)
    (instErr : InstOp -> option Error) : World :=
  mkWorld
    (fun _ op => (Some (replica (subject op) keyM "dc1"), instErr op))
    (fun _ _ => false)
    (fun _ op => (reads op, None))
    (fun _ op => regroup op)
    (fun _ k other => relocate k other)
    (fun _ k => (instances k, isSome (instances k), None))
    (fun _ command => run command)
    (fun _ _ => (true, None))
    (fun _ => (false, None))
    (fun _ _ => (Some cluster1, None))
    (fun _ _ => ([], None))
    (fun _ _ => ("repl", "secret", None))
    (fun _ => None)
    (fun _ => None)
    false
    (fun _ => true)
    (fun _ _ => false)
    (fun t => "uid-" ++ GoStrings.Sprintf_d (Z.of_nat (List.length t)))%string
    (fun t => Z.of_nat (List.length t))
    (fun a b => String.ltb (LogFile a) (LogFile b) ||
                (String.eqb (LogFile a) (LogFile b) && Z.ltb (LogPos a) (LogPos b)))
    (fun _ _ => true)
    (fun _ => false)
    (fun alias k => [(("mysql/master/" ++ alias)%string, DisplayString k)])
    (fun l => l)
    (fun k => negb (String.eqb (Hostname k) "")).

Definition noRegroup (_ : RegroupOp) : RegroupResult := mkRegroup [] [] None None [] [].
Definition noReads (_ : ReadOp) : list Instance := [].
Definition noRelocate (_ _ : InstanceKey) : RelocateResult := mkRelocate [] None None [].
Definition noInstances (_ : InstanceKey) : option Instance := None.
Definition allRun (_ : string) : option Error := None.
Definition noInstErr (_ : InstOp) : option Error := None.

(** Binlog-server topology below the dead master [keyM]: the binlog server
    [keyB] is promoted, the replica [keyR1] below it becomes the master,
    and five more binlog servers replicate from [keyB]. *)
Definition binlogServer (n : Z) : Instance :=
  replica (mkKey "bls-replica" n) keyB "dc1".

Definition binlogTopology : World :=
  world
    (fun op => match op with
               | RegroupReplicasBinlogServers _ =>
                   mkRegroup [] [] (Some (replica keyB keyM "dc1")) None [] []
               | _ => noRegroup op
               end)
    (fun op => match op with
               | ReadBinlogServerReplicaInstances _ =>
                   [binlogServer 1; binlogServer 2; binlogServer 3; binlogServer 4;
                    binlogServer 5]
               | _ => []
               end)
    noRelocate noInstances allRun noInstErr.

(** GTID topology below the dead master [keyM] of data center dc1: the
    regroup promotes the replica [promoted] and loses nothing. *)
Definition gtidTopology (promoted : Instance) : World :=
  world
    (fun op => match op with
               | RegroupReplicasGTID _ => mkRegroup [] [] (Some promoted) None [] []
               | _ => noRegroup op
               end)
    noReads noRelocate noInstances allRun noInstErr.

Definition deadMaster : ReplicationAnalysis := analysisOf Analysis.DeadMaster keyM keyM.

Definition binlogAnalysis : ReplicationAnalysis :=
  mkAnalysis keyM keyM cluster1 "dc1" "region1" "prod" Analysis.DeadMaster "" "" 1 [keyB]
    false false false false true false.

(** A recovery of [keyM] that found no successor. *)
Definition unsuccessful : TopologyRecovery :=
  mkRecovery [] 1 "uid-1" (analysisOf Analysis.DeadMaster keyM keyM) None "" true false
    [] [] [] 100 None MasterRecovery MasterRecoveryGTID.


End Sample.

(** ** Vocabulary of the properties of hooks *)

(** The entries of the commands of a batch, answered in order. *)
Definition hookEntries (description : string) (commands : list string)
    (answers : list (option Error)) : Trace :=
  map (fun ca => CCommandRun description (fst ca) (snd ca)) (combine commands answers).

(** The first error of a list of answers. *)
Fixpoint firstError (answers : list (option Error)) : option Error :=
  match answers with
  | [] => None
  | Some e :: _ => Some e
  | None :: rest => firstError rest
  end.

(** The commands of a batch as they are run for a recovery. *)
Definition substituted (cfg : Config) (processes : list string) (r : TopologyRecovery)
  : list string :=
  map (fun c => replaceCommandPlaceholders cfg c r) processes.

(** ** Vocabulary of the properties of the dispatcher *)

(** The functions of [getCheckAndRecoverFunction] that recover. *)
Definition isExecutor (f : option CheckAndRecoverFunction) : bool :=
  match f with
  | Some FnDeadMaster | Some FnDeadIntermediateMaster | Some FnDeadCoMaster => true
  | _ => false
  end.

(** The entries that neither register nor resolve a recovery. *)
Definition leavesTable (c : Call) : Prop :=
  registrationOf c = None /\ resolutionOf c = None.

(** The goroutines of the emergency probes. *)
Definition isProbe (c : Call) : Prop :=
  match c with
  | CEffect (GoEmergentlyReadTopologyInstance _)
  | CEffect (GoEmergentlyReadTopologyInstanceReplicas _)
  | CEffect (GoEmergentlyRestartReplicationOnTopologyInstanceReplicas _) => True
  | _ => False
  end.

(** The entries of the hooks of one batch. *)
Definition hookOf (description : string) (c : Call) : Prop :=
  match c with
  | CHookBatch d _ => d = description
  | CCommandRun d _ _ => d = description
  | _ => False
  end.

(** The entries of hooks of any batch. *)
Definition isHook (c : Call) : bool :=
  match c with
  | CHookBatch _ _ | CCommandRun _ _ _ => true
  | _ => false
  end.

Definition noHook (c : Call) : Prop := isHook c = false.

(** The entries of the detection of a failure: the probes, the registration
    of the detection and its hooks, and the look at the global switch. *)
Definition isDetection (c : Call) : Prop :=
  match c with
  | CAttemptFailureDetectionRegistration _ _ => True
  | CEffect (PublishRegisterFailureDetection _) => True
  | CIsRecoveryDisabled _ => True
  | CHookBatch d _ => d = "OnFailureDetectionProcesses"%string
  | CCommandRun d _ _ => d = "OnFailureDetectionProcesses"%string
  | _ => isProbe c
  end.

(** ** More concrete worlds, used by the examples *)

Module SampleNodes.

(** The world [w] seen from a raft node that is the leader or not. *)
Definition raftNode (w : World) (leader : bool) : World :=
  mkWorld (instOp w) (neverReturns w) (readOp w) (regroupOp w) (relocateReplicas w)
    (readInstance w) (commandRun w) (attemptFailureDetectionRegistration w)
    (isRecoveryDisabled w) (readClusterInfo w) (getReplicationAnalysis w)
    (readReplicationCredentials w) (publishCommandFails w) (writeFails w)
    true (fun _ => leader)
    (isInEmergencyOperationGracefulPeriod w) (prettyUniqueToken w) (now w) (SmallerThan w)
    (CanReplicateFrom w) (IsBannedFromBeingCandidateReplica w) (GetClusterMasterKVPairs w)
    (sortReverseByCountReplicas w) (keyIsValid w).

(** The world [w] with recoveries disabled globally. *)
Definition disabled (w : World) : World :=
  mkWorld (instOp w) (neverReturns w) (readOp w) (regroupOp w) (relocateReplicas w)
    (readInstance w) (commandRun w) (attemptFailureDetectionRegistration w)
    (fun _ => (true, None)) (readClusterInfo w) (getReplicationAnalysis w)
    (readReplicationCredentials w) (publishCommandFails w) (writeFails w)
    (isRaftEnabled w) (isLeader w)
    (isInEmergencyOperationGracefulPeriod w) (prettyUniqueToken w) (now w) (SmallerThan w)
    (CanReplicateFrom w) (IsBannedFromBeingCandidateReplica w) (GetClusterMasterKVPairs w)
    (sortReverseByCountReplicas w) (keyIsValid w).

End SampleNodes.

(** ** Vocabulary of the properties of the candidate selection *)

(** The siblings of an intermediate master as
    [GetCandidateSiblingOfIntermediateMaster] walks them at trace [t]: the
    replicas of its master, sorted. *)
Definition siblingsOf (w : World) (t : Trace) (im : Instance) : list Instance :=
  sortReverseByCountReplicas w (fst (readOp w t (ReadReplicaInstances (MasterKey im)))).

Module SampleSiblings.

(** The failed intermediate master [keyIM] and its siblings below [keyM]:
    [keyR2] in another data center, [keyS] in its own. *)
Definition intermediateMaster : Instance := Sample.replica Sample.keyIM Sample.keyM "dc1".

Definition siblingTopology : World :=
  Sample.world Sample.noRegroup
    (fun op => match op with
               | ReadReplicaInstances _ =>
                   [intermediateMaster; Sample.replica Sample.keyR2 Sample.keyM "dc2";
                    Sample.replica Sample.keyS Sample.keyM "dc1"]
               | _ => []
               end)
    Sample.noRelocate Sample.noInstances Sample.allRun Sample.noInstErr.

End SampleSiblings.

(** The instance [x] is in the answer of a read of the trace [l]. *)
Definition wasRead (x : Instance) (l : Trace) : Prop :=
  exists op xs e, In (CRead op (xs, e)) l /\ In x xs.

Module SampleCandidates.

(** The dead master [keyM] of dc1 was replaced by [keyR2] of dc2; the
    candidate [keyR1] of dc1 replicates from [keyR2]. *)
Definition promoted : Instance := Sample.replica Sample.keyR2 Sample.keyM "dc2".

Definition candidate : Instance := Sample.replica Sample.keyR1 Sample.keyR2 "dc1".

Definition candidateTopology : World :=
  Sample.world Sample.noRegroup
    (fun op => match op with
               | ReadClusterCandidateInstances _ => [candidate]
               | _ => []
               end)
    Sample.noRelocate
    (fun k => if key_eqb k Sample.keyM then Some (Sample.replica Sample.keyM Sample.keyM "dc1")
              else if key_eqb k Sample.keyR1 then Some candidate
              else None)
    Sample.allRun Sample.noInstErr.

End SampleCandidates.

(** ** Vocabulary of the properties of the recovery record *)

(** The list [l'] is [l] with more at its end. *)
Definition extends {A} (l l' : list A) : Prop := exists t, l' = l ++ t.

(** From [r] to [r'] errors and postponed functions were only added. *)
Definition grows (r r' : TopologyRecovery) : Prop :=
  extends (AllErrors r) (AllErrors r') /\ extends (Postponed r) (Postponed r').

Module SampleHooks.

(** A world in which every hook command fails. *)
Definition failingHooks : World :=
  Sample.world Sample.noRegroup Sample.noReads Sample.noRelocate Sample.noInstances
    (fun _ => Some "exit status 1"%string) Sample.noInstErr.

End SampleHooks.

(** ** Vocabulary of the properties of the operator-driven paths *)

(** What the forced paths hand back: a recovery that has a successor and
    no error, or no recovery and an error. *)
Definition forcedShape (x : option TopologyRecovery * option Error) : Prop :=
  match fst x with
  | Some r => snd x = None /\ SuccessorKey r <> None
  | None => snd x <> None
  end.

Module SampleForce.

(** The cluster of master [keyM]: every regroup promotes [keyR1], and the
    replicas of the master are [keyR1] alone. *)
Definition master : Instance := Sample.replica Sample.keyM Sample.keyM "dc1".

Definition forceTopology : World :=
  Sample.world
    (fun _ => mkRegroup [] [] (Some (Sample.replica Sample.keyR1 Sample.keyM "dc1")) None [] [])
    (fun op => match op with
               | ReadClusterMaster _ | ReadClusterWriteableMaster _ => [master]
               | ReadReplicaInstances _ => [Sample.replica Sample.keyR1 Sample.keyM "dc1"]
               | _ => []
               end)
    Sample.noRelocate Sample.noInstances Sample.allRun Sample.noInstErr.

End SampleForce.

Module SampleCoMaster.

(** Co-masters [keyM] (failed) and [keyM1]; the regroup promotes the
    replica [keyR1], whose SQL thread is behind. *)
Definition coMasterTopology : World :=
  Sample.world
    (fun _ => mkRegroup [] [] (Some (Sample.lagging Sample.keyR1 Sample.keyM "dc1")) None [] [])
    Sample.noReads Sample.noRelocate
    (fun k => if key_eqb k Sample.keyM1
              then Some (Sample.replica Sample.keyM1 Sample.keyM "dc1")
              else None)
    Sample.allRun Sample.noInstErr.

Definition deadCoMaster : ReplicationAnalysis :=
  Sample.analysisOf Analysis.DeadCoMaster Sample.keyM Sample.keyM1.

End SampleCoMaster.

(** What [GracefulMasterTakeover] hands back: a recovery that has a
    successor, with the coordinates of the promoted master; or neither,
    with an error. *)
Definition gracefulShape
    (x : option TopologyRecovery * option BinlogCoordinates * option Error) : Prop :=
  match fst (fst x) with
  | Some r => SuccessorKey r <> None /\ snd (fst x) <> None
  | None => snd (fst x) = None /\ snd x <> None
  end.

(** The entries that make an instance writable. *)
Definition setsWritable (c : Call) : bool :=
  match c with
  | CInst (SetReadOnly _ false) _ => true
  | _ => false
  end.

Definition noWritable (c : Call) : Prop := setsWritable c = false.

(** A recovery was registered among the entries [l]. *)
Definition hasRegistration (l : Trace) : Prop := exists r, In (CWriteRecovery r) l.

Module SampleGrace.

(** The world [w] while every instance is in its emergency grace period. *)
Definition inGracePeriod (w : World) : World :=
  mkWorld (instOp w) (neverReturns w) (readOp w) (regroupOp w) (relocateReplicas w)
    (readInstance w) (commandRun w) (attemptFailureDetectionRegistration w)
    (isRecoveryDisabled w) (readClusterInfo w) (getReplicationAnalysis w)
    (readReplicationCredentials w) (publishCommandFails w) (writeFails w)
    (isRaftEnabled w) (isLeader w)
    (fun _ _ => true) (prettyUniqueToken w) (now w) (SmallerThan w)
    (CanReplicateFrom w) (IsBannedFromBeingCandidateReplica w) (GetClusterMasterKVPairs w)
    (sortReverseByCountReplicas w) (keyIsValid w).

End SampleGrace.

(** The entries of hook commands that failed. *)
Definition failedHook (c : Call) : bool :=
  match c with
  | CCommandRun _ _ (Some _) => true
  | _ => false
  end.

(** The entries that announce a new master: the key-value pairs of the
    cluster master, the cluster alias, the domain attribute. *)
Definition announces (c : Call) : bool :=
  match c with
  | CEffect (PutKVPair _) | CEffect (PublishPutKeyValue _) | CEffect PublishAsyncSnapshot
  | CEffect (DistributePairs _) | CEffect (SetClusterAlias _ _)
  | CEffect (ReplaceAliasClusterName _ _) | CEffect (SetGeneralAttribute _ _) => true
  | _ => false
  end.

Definition silent (c : Call) : Prop := announces c = false.

Module SampleLoss.

(** Below the dead master [keyM] the regroup promotes [keyR1] and loses
    [keyR2]. *)
Definition lost : Instance := Sample.replica Sample.keyR2 Sample.keyM "dc2".

Definition lossyTopology : World :=
  Sample.world
    (fun _ => mkRegroup [lost] [] (Some (Sample.replica Sample.keyR1 Sample.keyM "dc1"))
                None [] [])
    Sample.noReads Sample.noRelocate Sample.noInstances Sample.allRun Sample.noInstErr.

End SampleLoss.

(** * Properties *)

Local Open Scope engine_scope.

(** ** Strings *)

Example Replace_ex1 :
  GoStrings.Replace "a{x}b{x}" "{x}" "12" = "a12b12".
Proof. reflexivity. Qed.

Example Replace_ex2 : GoStrings.Replace "aaa" "aa" "b" = "ba".
Proof. reflexivity. Qed.

Example Sprintf_d_ex :
  GoStrings.Sprintf_d 3306 = "3306" /\ GoStrings.Sprintf_d 0 = "0".
Proof. split; reflexivity. Qed.

Module ReplaceFacts.
Import GoStrings.




Lemma Replace_empty old' new : Replace "" (String "{" old') new = "".
Proof. reflexivity. Qed.


End ReplaceFacts.

(** ** Hook commands: the placeholders of the successor *)

Section Placeholders.

Variable cfg : Config.



End Placeholders.




(** ** Reasoning about runs *)

Section Runs.

Variable w : World.

Lemma bind_Returned {A B} (m : M A) (f : A -> M B) s b s' :
  bind m f s = Returned b s' ->
  exists a s1, m s = Returned a s1 /\ f a s1 = Returned b s'.
Proof.
  unfold bind. destruct (m s) as [| |a s1]; try discriminate.
  intros H. exists a, s1. split; [reflexivity|exact H].
Qed.

Lemma runs_ret {A} (a : A) (R : A -> Trace -> Prop) : R a [] -> runs (ret a) R.
Proof.
  intros H s x s' E. inversion E; subst. exists []. rewrite app_nil_r. auto.
Qed.

Lemma runs_bind {A B} (m : M A) (f : A -> M B) R1 (R : B -> Trace -> Prop) :
  runs m R1 ->
  (forall a l1, R1 a l1 -> runs (f a) (fun b l2 => R b (l1 ++ l2))) ->
  runs (bind m f) R.
Proof.
  intros Hm Hf s b s' E.
  apply bind_Returned in E as (a & s1 & E1 & E2).
  destruct (Hm _ _ _ E1) as (l1 & T1 & H1).
  destruct (Hf _ _ H1 _ _ _ E2) as (l2 & T2 & H2).
  exists (l1 ++ l2). rewrite T2, T1, app_assoc. auto.
Qed.

Lemma runs_weaken {A} (m : M A) (R R' : A -> Trace -> Prop) :
  runs m R -> (forall a l, R a l -> R' a l) -> runs m R'.
Proof.
  intros Hm HR s a s' E. destruct (Hm _ _ _ E) as (l & T & H). eauto.
Qed.

Lemma runs_panic {A} (R : A -> Trace -> Prop) : runs panic R.
Proof. intros s a s' E. discriminate. Qed.

Lemma runs_call {A} (answer : World -> Trace -> A) (entry : A -> Call) R :
  (forall a, R a [entry a]) -> runs (call w answer entry) R.
Proof.
  intros H s a s' E. unfold call in E. inversion E; subst. cbn. eauto.
Qed.

Lemma runs_inst op R :
  (forall a, R a [CInst op a]) -> runs (inst_ w op) R.
Proof.
  intros H s a s' E. unfold inst_ in E.
  destruct (neverReturns w (trace s) op); [discriminate|].
  revert E. apply runs_call. exact H.
Qed.

Lemma runs_emit c (R : unit -> Trace -> Prop) : R tt [c] -> runs (emit c) R.
Proof.
  intros H s a s' E. unfold emit in E. inversion E; subst. cbn. eauto.
Qed.

Lemma runs_ask {A} (f : World -> Trace -> A) R :
  (forall a, R a []) -> runs (ask w f) R.
Proof.
  intros H s a s' E. unfold ask in E. inversion E; subst.
  exists []. rewrite app_nil_r. auto.
Qed.

Lemma runs_getStore R : (forall a, R a []) -> runs getStore R.
Proof.
  intros H s a s' E. unfold getStore in E. inversion E; subst.
  exists []. rewrite app_nil_r. auto.
Qed.

Lemma runs_putStore l (R : unit -> Trace -> Prop) : R tt [] -> runs (putStore l) R.
Proof.
  intros H s a s' E. unfold putStore in E. inversion E; subst.
  exists []. cbn. rewrite app_nil_r. auto.
Qed.

Lemma runs_deref {A} (p : option A) R :
  (forall a, p = Some a -> R a []) -> runs (deref p) R.
Proof.
  intros H. destruct p; cbn; [apply runs_ret; auto|apply runs_panic].
Qed.

(** The bind rule, specialised to what comes first. *)
Lemma runs_bind_ret {A B} (a : A) (f : A -> M B) R : runs (f a) R -> runs (bind (ret a) f) R.
Proof. intros H s b s' E. exact (H s b s' E). Qed.

Lemma runs_bind_panic {A B} (f : A -> M B) R : runs (bind panic f) R.
Proof. intros s b s' E. discriminate. Qed.

Lemma runs_bind_call {A B} (answer : World -> Trace -> A) entry (f : A -> M B) R :
  (forall a, runs (f a) (fun b l => R b (entry a :: l))) ->
  runs (bind (call w answer entry) f) R.
Proof.
  intros H. eapply runs_bind.
  - apply runs_call with (R := fun a l => l = [entry a]). reflexivity.
  - intros a l1 ->. exact (H a).
Qed.

Lemma runs_bind_inst {B} op (f : _ -> M B) R :
  (forall a, runs (f a) (fun b l => R b (CInst op a :: l))) ->
  runs (bind (inst_ w op) f) R.
Proof.
  intros H. eapply runs_bind.
  - apply runs_inst with (R := fun a l => l = [CInst op a]). reflexivity.
  - intros a l1 ->. exact (H a).
Qed.

Lemma runs_bind_emit {B} c (f : unit -> M B) R :
  runs (f tt) (fun b l => R b (c :: l)) -> runs (bind (emit c) f) R.
Proof.
  intros H. eapply runs_bind.
  - apply runs_emit with (R := fun a l => l = [c]). reflexivity.
  - intros [] l1 ->. exact H.
Qed.

Lemma runs_bind_ask {A B} (g : World -> Trace -> A) (f : A -> M B) R :
  (forall a, runs (f a) R) -> runs (bind (ask w g) f) R.
Proof.
  intros H. eapply runs_bind.
  - apply runs_ask with (R := fun a l => l = []). reflexivity.
  - intros a l1 ->. exact (H a).
Qed.

Lemma runs_bind_getStore {B} (f : _ -> M B) R :
  (forall a, runs (f a) R) -> runs (bind getStore f) R.
Proof.
  intros H. eapply runs_bind.
  - apply runs_getStore with (R := fun a l => l = []). reflexivity.
  - intros a l1 ->. exact (H a).
Qed.

Lemma runs_bind_putStore {B} x (f : unit -> M B) R :
  runs (f tt) R -> runs (bind (putStore x) f) R.
Proof.
  intros H. eapply runs_bind.
  - apply runs_putStore with (R := fun a l => l = []). reflexivity.
  - intros [] l1 ->. exact H.
Qed.

Lemma runs_bind_deref {A B} (p : option A) (f : A -> M B) R :
  (forall a, p = Some a -> runs (f a) R) -> runs (bind (deref p) f) R.
Proof.
  intros H. destruct p; cbn [deref].
  - apply runs_bind_ret. auto.
  - apply runs_bind_panic.
Qed.

Lemma runs_bind_assoc {A B C} (m : M A) (f : A -> M B) (g : B -> M C) R :
  runs (bind m (fun a => bind (f a) g)) R -> runs (bind (bind m f) g) R.
Proof.
  intros H s c s' E. apply (H s c s'). revert E. unfold bind.
  destruct (m s); auto.
Qed.

(** A run that is known to satisfy [R1], followed by [f]; the entries of
    the first part are only known through [R1]. *)
Lemma runs_bind_with {A B} (m : M A) (f : A -> M B) R1 R :
  runs m R1 ->
  (forall a l1, R1 a l1 -> runs (f a) (fun b l2 => R b (l1 ++ l2))) ->
  runs (bind m f) R.
Proof. apply runs_bind. Qed.

End Runs.

Arguments runs_bind_with {A B m f} R1 {R}.

(** One step of symbolic execution of a goal [runs m R]. *)
Ltac runs_prim :=
  lazymatch goal with
  | |- runs (ret _) _ => apply runs_ret
  | |- runs panic _ => apply runs_panic
  | |- runs (bind (ret _) _) _ => apply runs_bind_ret
  | |- runs (bind panic _) _ => apply runs_bind_panic
  | |- runs (bind (bind _ _) _) _ => apply runs_bind_assoc
  | |- runs (bind (call _ _ _) _) _ => apply runs_bind_call; intros
  | |- runs (bind (inst_ _ _) _) _ => apply runs_bind_inst; intros
  | |- runs (bind (read_ _ _) _) _ => unfold read_ at 1; apply runs_bind_call; intros
  | |- runs (bind (regroup_ _ _) _) _ => unfold regroup_ at 1; apply runs_bind_call; intros
  | |- runs (bind (RelocateReplicas_ _ _ _) _) _ =>
      unfold RelocateReplicas_ at 1; apply runs_bind_call; intros
  | |- runs (bind (ReadInstance_ _ _) _) _ =>
      unfold ReadInstance_ at 1; apply runs_bind_call; intros
  | |- runs (bind (CommandRun_ _ _ _) _) _ =>
      unfold CommandRun_ at 1; apply runs_bind_call; intros
  | |- runs (bind (effect_ _) _) _ => unfold effect_ at 1; apply runs_bind_emit
  | |- runs (bind (emit _) _) _ => apply runs_bind_emit
  | |- runs (bind (ask _ _) _) _ => apply runs_bind_ask; intros
  | |- runs (bind getStore _) _ => apply runs_bind_getStore; intros
  | |- runs (bind (putStore _) _) _ => apply runs_bind_putStore
  | |- runs (bind (deref _) _) _ => apply runs_bind_deref; intros
  | |- runs (call _ _ _) _ => apply runs_call; intros
  | |- runs (inst_ _ _) _ => apply runs_inst; intros
  | |- runs (emit _) _ => apply runs_emit
  | |- runs (effect_ _) _ => unfold effect_; apply runs_emit
  | |- runs (deref _) _ => apply runs_deref; intros
  end.

Ltac runs_case :=
  match goal with
  | |- runs (bind (match ?x with _ => _ end) _) _ => destruct x eqn:?
  | |- runs (match ?x with _ => _ end) _ => destruct x eqn:?
  | |- runs (bind (let '(_, _) := ?x in _) _) _ => destruct x eqn:?
  end.

Ltac runs_step := first [runs_prim | runs_case].

(** ** Frames: what a part of the engine cannot do *)

Section Ensures.

Variable w : World.
Variable P : Call -> Prop.

Lemma ensures_ret {A} (Q : A -> Prop) a : Q a -> ensures P Q (ret a).
Proof. intros H. apply runs_ret. auto. Qed.

Lemma ensures_panic {A} (Q : A -> Prop) : ensures P Q panic.
Proof. apply runs_panic. Qed.

Lemma ensures_bind {A B} (m : M A) (f : A -> M B) Q1 (Q : B -> Prop) :
  ensures P Q1 m -> (forall a, Q1 a -> ensures P Q (f a)) -> ensures P Q (bind m f).
Proof.
  intros Hm Hf. eapply runs_bind; [exact Hm|].
  intros a l1 [Ha Hl1]. eapply runs_weaken; [exact (Hf a Ha)|].
  cbn beta. intros b l2 [Hb Hl2]. split; [exact Hb|].
  apply Forall_app. auto.
Qed.

Lemma ensures_weaken {A} (m : M A) (Q Q' : A -> Prop) :
  ensures P Q m -> (forall a, Q a -> Q' a) -> ensures P Q' m.
Proof.
  intros H HQ. eapply runs_weaken; [exact H|]. cbn beta. intros a l [Ha Hl]. auto.
Qed.

Lemma ensures_call {A} (answer : World -> Trace -> A) entry (Q : A -> Prop) :
  (forall a, P (entry a)) -> (forall a, Q a) -> ensures P Q (call w answer entry).
Proof. intros HP HQ. apply runs_call. intros a. split; auto. Qed.

Lemma ensures_inst op (Q : _ -> Prop) :
  (forall a, P (CInst op a)) -> (forall a, Q a) -> ensures P Q (inst_ w op).
Proof. intros HP HQ. apply runs_inst. intros a. split; auto. Qed.

Lemma ensures_emit c (Q : unit -> Prop) : P c -> Q tt -> ensures P Q (emit c).
Proof. intros HP HQ. apply runs_emit. split; auto. Qed.

Lemma ensures_ask {A} (f : World -> Trace -> A) (Q : A -> Prop) :
  (forall a, Q a) -> ensures P Q (ask w f).
Proof. intros HQ. apply runs_ask. intros a. split; auto. Qed.

Lemma ensures_getStore (Q : _ -> Prop) : (forall a, Q a) -> ensures P Q getStore.
Proof. intros HQ. apply runs_getStore. intros a. split; auto. Qed.

Lemma ensures_putStore x (Q : unit -> Prop) : Q tt -> ensures P Q (putStore x).
Proof. intros HQ. apply runs_putStore. split; auto. Qed.

Lemma ensures_deref {A} (p : option A) (Q : A -> Prop) :
  (forall a, p = Some a -> Q a) -> ensures P Q (deref p).
Proof. intros HQ. apply runs_deref. intros a E. split; auto. Qed.

Lemma ensures_bind_assoc {A B C} (m : M A) (f : A -> M B) (g : B -> M C) (Q : C -> Prop) :
  ensures P Q (bind m (fun a => bind (f a) g)) -> ensures P Q (bind (bind m f) g).
Proof. apply runs_bind_assoc. Qed.

Lemma ensures_bind_deref {A B} (p : option A) (f : A -> M B) (Q : B -> Prop) :
  (forall a, p = Some a -> ensures P Q (f a)) -> ensures P Q (bind (deref p) f).
Proof. apply runs_bind_deref. Qed.

Lemma ensures_bind_ret {A B} (a : A) (f : A -> M B) (Q : B -> Prop) :
  ensures P Q (f a) -> ensures P Q (bind (ret a) f).
Proof. apply runs_bind_ret. Qed.

Lemma ensures_bind_panic {A B} (f : A -> M B) (Q : B -> Prop) :
  ensures P Q (bind panic f).
Proof. apply runs_bind_panic. Qed.

Lemma ensures_any {A} (m : M A) (Q : A -> Prop) :
  ensures P Q m -> ensures P anyTrue m.
Proof. intros H. eapply ensures_weaken; [exact H|]. intros; exact I. Qed.

End Ensures.

Lemma ensures_relax {A} (P P' : Call -> Prop) (Q : A -> Prop) (m : M A) :
  ensures P Q m -> (forall c, P c -> P' c) -> ensures P' Q m.
Proof.
  intros H HP. eapply runs_weaken; [exact H|]. cbn beta. intros a l [Ha Hl].
  split; [exact Ha|]. eapply Forall_impl; [|exact Hl]. exact HP.
Qed.

Lemma plain_notResolution c : plain c -> notResolution c.
Proof. destruct c; cbn; intros H; try reflexivity; contradiction. Qed.

Lemma plain_notGate c : plain c -> notGate c.
Proof. destruct c; cbn; intros H; try reflexivity; contradiction. Qed.

Lemma plain_registrationOf c : plain c -> registrationOf c = None.
Proof. destruct c; cbn; intros H; try reflexivity; contradiction. Qed.

Lemma relax_notResolution {A} (Q : A -> Prop) m :
  ensures plain Q m -> ensures notResolution Q m.
Proof. intros H. eapply ensures_relax; [exact H|apply plain_notResolution]. Qed.

Lemma relax_notGate {A} (Q : A -> Prop) m : ensures plain Q m -> ensures notGate Q m.
Proof. intros H. eapply ensures_relax; [exact H|apply plain_notGate]. Qed.

Lemma relax_anyCall {A} (P : Call -> Prop) (Q : A -> Prop) m :
  ensures P Q m -> ensures anyCall Q m.
Proof. intros H. eapply ensures_relax; [exact H|]. intros; exact I. Qed.

Create HintDb frames.

Ltac frame_side := intros; first [reflexivity | exact I | assumption | idtac].

(** A [let] in front: a key or a flag is forgotten, anything else is put
    in place. *)
Ltac ensures_let :=
  lazymatch goal with
  | |- ensures ?P ?Q (let x := ?v in @?body x) =>
      let T := type of v in
      lazymatch T with
      | option InstanceKey =>
          let y := fresh "k" in
          change (ensures P Q (body v)); generalize v; intro y; cbv beta
      | bool =>
          let y := fresh "b" in
          change (ensures P Q (body v)); generalize v; intro y; cbv beta
      | _ => change (ensures P Q (body v)); cbv beta
      end
  end.

(** One step of a frame proof: the primitive that comes first, or a part
    for which the frame is already a hint. *)
Ltac ensures_prim :=
  lazymatch goal with
  | |- ensures _ _ (let x := _ in _) => ensures_let
  | |- ensures _ _ (ret _) => apply ensures_ret
  | |- ensures _ _ panic => apply ensures_panic
  | |- ensures _ _ (bind (bind _ _) _) => apply ensures_bind_assoc
  | |- ensures _ _ (bind (ret _) _) => apply ensures_bind_ret
  | |- ensures _ _ (bind panic _) => apply ensures_bind_panic
  | |- ensures _ _ (bind (call _ _ _) _) =>
      eapply ensures_bind; [apply ensures_call with (Q := anyTrue); frame_side | intros ? _]
  | |- ensures _ _ (bind (inst_ _ _) _) =>
      eapply ensures_bind; [apply ensures_inst with (Q := anyTrue); frame_side | intros ? _]
  | |- ensures _ _ (bind (read_ _ _) _) => unfold read_ at 1
  | |- ensures _ _ (bind (regroup_ _ _) _) => unfold regroup_ at 1
  | |- ensures _ _ (bind (RelocateReplicas_ _ _ _) _) => unfold RelocateReplicas_ at 1
  | |- ensures _ _ (bind (ReadInstance_ _ _) _) => unfold ReadInstance_ at 1
  | |- ensures _ _ (bind (CommandRun_ _ _ _) _) => unfold CommandRun_ at 1
  | |- ensures _ _ (bind (effect_ _) _) => unfold effect_ at 1
  | |- ensures _ _ (bind (emit _) _) =>
      eapply ensures_bind; [apply ensures_emit with (Q := anyTrue); frame_side | intros ? _]
  | |- ensures _ _ (bind (ask _ _) _) =>
      eapply ensures_bind; [apply ensures_ask with (Q := anyTrue); frame_side | intros ? _]
  | |- ensures _ _ (bind getStore _) =>
      eapply ensures_bind; [apply ensures_getStore with (Q := anyTrue); frame_side | intros ? _]
  | |- ensures _ _ (bind (putStore _) _) =>
      eapply ensures_bind; [apply ensures_putStore with (Q := anyTrue); frame_side | intros ? _]
  | |- ensures _ _ (bind (deref _) _) => apply ensures_bind_deref; intros ? ?
  | |- ensures _ _ (inst_ _ _) => apply ensures_inst; frame_side
  | |- ensures _ _ (call _ _ _) => apply ensures_call; frame_side
  | |- ensures _ _ (emit _) => apply ensures_emit; frame_side
  | |- ensures _ _ (effect_ _) => unfold effect_; apply ensures_emit; frame_side
  | |- ensures _ _ (deref _) => apply ensures_deref; frame_side
  end.

Ltac ensures_case :=
  match goal with
  | |- ensures _ _ (bind (match ?x with _ => _ end) _) => destruct x eqn:?
  | |- ensures _ _ (match ?x with _ => _ end) => destruct x eqn:?
  end.

Ltac ensures_hint :=
  lazymatch goal with
  | |- ensures _ _ (bind _ _) =>
      eapply ensures_bind; [solve [eauto with frames] | cbn beta; intros]
  | |- ensures _ _ _ =>
      eapply ensures_weaken; [solve [eauto with frames] | cbn beta; intros]
  end.

Ltac ensures_step := first [ensures_prim | ensures_case | ensures_hint].

Section Frames.

Variable cfg : Config.
Variable w : World.

Lemma runProcesses_frame processes description r failOnError err :
  ensures plain anyTrue (runProcesses cfg w processes description r failOnError err).
Proof.
  revert err. induction processes as [|c rest IH]; intros err; cbn [runProcesses].
  - apply ensures_ret. exact I.
  - repeat ensures_step; try exact I; apply IH.
Qed.

Lemma executeProcesses_frame processes description r failOnError :
  ensures plain anyTrue (executeProcesses cfg w processes description r failOnError).
Proof.
  unfold executeProcesses. repeat ensures_step; try exact I.
  apply runProcesses_frame.
Qed.

End Frames.

#[export] Hint Resolve executeProcesses_frame runProcesses_frame : frames.

(** *** The outcome of a recovery record is only written by a resolution *)

Lemma sameOutcome_refl r : sameOutcome r r.
Proof. unfold sameOutcome. auto. Qed.

Lemma sameOutcome_trans a b c : sameOutcome a b -> sameOutcome b c -> sameOutcome a c.
Proof.
  unfold sameOutcome. intros (A1 & A2 & A3 & A4 & A5) (B1 & B2 & B3 & B4 & B5).
  repeat split; congruence.
Qed.

Lemma sameOutcome_AddError a b e : sameOutcome a b -> sameOutcome a (AddError b e).
Proof. destruct e; cbn; auto. Qed.

Lemma sameOutcome_AddErrors a b es : sameOutcome a b -> sameOutcome a (AddErrors b es).
Proof.
  unfold AddErrors. revert b. induction es as [|e es IH]; intros b H; cbn; [exact H|].
  apply IH. apply (sameOutcome_AddError a b (Some e)). exact H.
Qed.

Lemma sameOutcome_AddPostponedFunction a b f :
  sameOutcome a b -> sameOutcome a (AddPostponedFunction b f).
Proof. auto. Qed.

Lemma sameOutcome_set_Participating a b m :
  sameOutcome a b -> sameOutcome a (set_Participating b m).
Proof. auto. Qed.

Lemma sameOutcome_set_Type a b t : sameOutcome a b -> sameOutcome a (set_Type b t).
Proof. auto. Qed.

Lemma sameOutcome_set_RecoveryType a b t :
  sameOutcome a b -> sameOutcome a (set_RecoveryType b t).
Proof. auto. Qed.

Lemma sameOutcome_set_LostReplicas a b m :
  sameOutcome a b -> sameOutcome a (set_LostReplicas b m).
Proof. auto. Qed.

Lemma sameOutcome_addRegroupPostponed a b labels :
  sameOutcome a b -> sameOutcome a (addRegroupPostponed b labels).
Proof.
  unfold addRegroupPostponed. revert b.
  induction labels as [|l ls IH]; intros b H; cbn; auto.
Qed.

Lemma sameOutcome_postponeBinlogServers a b i l bls p :
  sameOutcome a b -> sameOutcome a (postponeBinlogServers i l bls p b).
Proof.
  revert i b. induction l as [|x l IH]; intros i b H; cbn [postponeBinlogServers]; auto.
  destruct (Nat.leb maxBinlogServersToPromote i); auto.
Qed.

Lemma sameOutcome_set_AllErrors a b l : sameOutcome a b -> sameOutcome a (set_AllErrors b l).
Proof. auto. Qed.

#[export] Hint Resolve sameOutcome_set_AllErrors : frames.

Lemma sameOutcome_if a (b : bool) x y :
  sameOutcome a x -> sameOutcome a y -> sameOutcome a (if b then x else y).
Proof. destruct b; auto. Qed.

#[export] Hint Resolve sameOutcome_if : frames.

#[export] Hint Resolve sameOutcome_refl sameOutcome_AddError sameOutcome_AddErrors
  sameOutcome_AddPostponedFunction sameOutcome_set_Participating sameOutcome_set_Type
  sameOutcome_set_RecoveryType sameOutcome_set_LostReplicas sameOutcome_addRegroupPostponed
  sameOutcome_postponeBinlogServers : frames.

(** The record that a part of the engine hands back, last in its result. *)
Definition recordOf {A} (x : A * TopologyRecovery) : TopologyRecovery := snd x.

(** What is known of later records is brought back to the first one. *)
Ltac outcome_chain :=
  repeat
    match goal with
    | H : sameOutcome ?x ?t |- sameOutcome ?r _ =>
        lazymatch x with r => fail | _ => idtac end;
        let H' := fresh "Hsame" in
        assert (H' : sameOutcome r t)
          by (eapply sameOutcome_trans; [|exact H]; eauto 12 with frames);
        clear H
    end.

(** A pair that a pure case analysis computed is taken apart. *)
Ltac pair_inv :=
  repeat
    match goal with
    | H : (match ?x with _ => _ end) = (_, _) |- _ => destruct x eqn:?
    | H : (_, _) = (_, _) |- _ =>
        first [discriminate H | injection H; clear H; intros; try discriminate; subst]
    end.

Ltac frame_done :=
  cbn beta iota; try exact I;
  try (unfold recordOf in *; cbn [snd fst] in *; pair_inv; outcome_chain;
       solve [eauto 12 with frames]).

Ltac frame := repeat ensures_step; frame_done.

Lemma detachAll_frame w l : ensures plain anyTrue (detachAll w l).
Proof.
  induction l as [|x l IH]; cbn [detachAll]; [apply ensures_ret; exact I|].
  frame.
Qed.

Lemma beginDowntimeAll_frame l : ensures plain anyTrue (beginDowntimeAll l).
Proof.
  induction l as [|x l IH]; cbn [beginDowntimeAll]; [apply ensures_ret; exact I|].
  frame.
Qed.

Lemma putKVPairs_frame b l : ensures plain anyTrue (putKVPairs b l).
Proof.
  induction l as [|x l IH]; cbn [putKVPairs]; [apply ensures_ret; exact I|].
  frame.
Qed.

#[export] Hint Resolve detachAll_frame beginDowntimeAll_frame putKVPairs_frame : frames.

Lemma runPostponed_frame w f : ensures plain anyTrue (runPostponed w f).
Proof. unfold runPostponed. frame. Qed.

#[export] Hint Resolve runPostponed_frame : frames.

Lemma Wait_frame w fs : ensures plain anyTrue (Wait w fs).
Proof.
  induction fs as [|f fs IH]; cbn [Wait]; [apply ensures_ret; exact I|].
  frame.
Qed.

#[export] Hint Resolve Wait_frame : frames.

Lemma GetCandidateSiblingOfIntermediateMaster_frame w im :
  ensures plain anyTrue (GetCandidateSiblingOfIntermediateMaster w im).
Proof. unfold GetCandidateSiblingOfIntermediateMaster. frame. Qed.

Lemma SuggestReplacementForPromotedReplica_frame cfg w r deadKey promoted candidateKey :
  ensures plain anyTrue
    (SuggestReplacementForPromotedReplica cfg w r deadKey promoted candidateKey).
Proof. unfold SuggestReplacementForPromotedReplica. frame. Qed.

#[export] Hint Resolve GetCandidateSiblingOfIntermediateMaster_frame
  SuggestReplacementForPromotedReplica_frame : frames.

Lemma replacePromotedReplicaWithCandidate_frame cfg w r deadKey promoted candidateKey :
  ensures plain (fun x => sameOutcome r (recordOf x))
    (replacePromotedReplicaWithCandidate cfg w r deadKey promoted candidateKey).
Proof. unfold replacePromotedReplicaWithCandidate. frame. Qed.

#[export] Hint Resolve replacePromotedReplicaWithCandidate_frame : frames.

Lemma onReplica_frame w op p k (Q : _ -> Prop) :
  (forall a : option Instance * option Error, snd a <> None -> Q a) ->
  (forall p', ensures plain Q (k p')) ->
  ensures plain Q (onReplica w op p k).
Proof.
  intros HQ Hk. unfold onReplica. repeat ensures_step; auto.
  apply HQ. cbn. discriminate.
Qed.

Lemma recoverDeadMasterInBinlogServerTopology_frame w r :
  ensures plain (fun x => sameOutcome r (recordOf x))
    (recoverDeadMasterInBinlogServerTopology w r).
Proof.
  unfold recoverDeadMasterInBinlogServerTopology. repeat ensures_step; frame_done.
  eapply ensures_bind with (Q1 := anyTrue).
  - repeat (apply onReplica_frame; [intros; exact I|intros]).
    apply ensures_ret. exact I.
  - intros [p' e'] _. frame.
Qed.

#[export] Hint Resolve recoverDeadMasterInBinlogServerTopology_frame : frames.

Lemma recoverDeadMaster_frame cfg w r candidateKey skip :
  ensures plain (fun x => sameOutcome r (recordOf x))
    (recoverDeadMaster cfg w r candidateKey skip).
Proof.
  unfold recoverDeadMaster. repeat ensures_step; frame_done.
Qed.

Lemma overrideMasterPromotion_frame cfg w a promoted err :
  ensures plain anyTrue (overrideMasterPromotion cfg w a promoted err).
Proof. unfold overrideMasterPromotion. frame. Qed.

Lemma applyMasterPromotion_frame cfg w a promoted r skip :
  ensures plain (fun r' => sameOutcome r r')
    (applyMasterPromotion cfg w a promoted r skip).
Proof. unfold applyMasterPromotion. frame. Qed.

#[export] Hint Resolve recoverDeadMaster_frame overrideMasterPromotion_frame
  applyMasterPromotion_frame : frames.

(** ** Lists of entries *)

Ltac in_solve :=
  lazymatch goal with
  | |- In _ (_ :: _) => first [left; reflexivity | right; in_solve]
  | |- In _ (_ ++ _) => apply in_or_app; first [left; in_solve | right; in_solve]
  | |- In _ _ => assumption
  end.

Lemma endsWith_single x : endsWith [x] x.
Proof. exists []. reflexivity. Qed.

Lemma endsWith_cons e l x : endsWith l x -> endsWith (e :: l) x.
Proof. intros [t ->]. exists (e :: t). reflexivity. Qed.

Lemma endsWith_app l1 l2 x : endsWith l2 x -> endsWith (l1 ++ l2) x.
Proof. intros [t ->]. exists (l1 ++ t). now rewrite app_assoc. Qed.

(** ** Dead master: the override gates *)

Section Gates.

Variable cfg : Config.
Variable w : World.

Lemma geoOK_data_center a p :
  PreventCrossDataCenterMasterFailover cfg = true ->
  geoOK cfg a p = true ->
  DataCenter p = AnalyzedInstanceDataCenter a.
Proof.
  unfold geoOK, MasterFailoverGeographicConstraintSatisfied. intros ->.
  cbn [andb].
  destruct (String.eqb_spec (DataCenter p) (AnalyzedInstanceDataCenter a)) as [E|N].
  - intros _. exact E.
  - cbn. discriminate.
Qed.

Lemma geoOK_other_data_center a p :
  PreventCrossDataCenterMasterFailover cfg = true ->
  DataCenter p <> AnalyzedInstanceDataCenter a ->
  geoOK cfg a p = false.
Proof.
  intros Hflag Hne. destruct (geoOK cfg a p) eqn:E; [|reflexivity].
  exfalso. apply Hne. now apply geoOK_data_center.
Qed.

(** What the gate lets through. *)
Lemma overrideMasterPromotion_passes a promoted err s promoted' err' s' :
  overrideMasterPromotion cfg w a promoted err s = Returned (promoted', err') s' ->
  match promoted' with
  | Some p' =>
      promoted = Some p' /\ err' = err /\ geoOK cfg a p' = true /\
      (FailMasterPromotionIfSQLThreadNotUpToDate cfg = true -> SQLThreadUpToDate p' = true)
  | None => True
  end.
Proof.
  unfold overrideMasterPromotion, geoOK.
  destruct promoted as [p|]; [|intros H; inversion H; subst; exact I].
  destruct (MasterFailoverGeographicConstraintSatisfied cfg a p) as [sat reason] eqn:G.
  cbn [fst]. destruct sat; cbn [negb]; [|intros H; inversion H; subst; exact I].
  destruct (FailMasterPromotionIfSQLThreadNotUpToDate cfg) eqn:Ef,
           (DelayMasterPromotionIfSQLThreadNotUpToDate cfg) eqn:Ed,
           (SQLThreadUpToDate p) eqn:Eu; cbn [andb negb]; intros H;
    try (apply bind_Returned in H as ([i e] & s1 & _ & H); destruct e);
    inversion H; subst; try exact I; repeat split; auto; try discriminate;
    rewrite G; reflexivity.
Qed.

End Gates.

(** C4.  The override gates of the dead-master recovery, applied to the
    replica that the rewirer promoted, in this order: a geographic
    constraint violation cancels the promotion; otherwise, with
    [FailMasterPromotionIfSQLThreadNotUpToDate] and a SQL thread that is not
    up to date the promotion is cancelled, whether or not
    [DelayMasterPromotionIfSQLThreadNotUpToDate] is set too, and without any
    wait; otherwise, with [DelayMasterPromotionIfSQLThreadNotUpToDate] and a
    SQL thread that is not up to date the executor waits for the SQL thread
    (a wait that may never return), keeps the promotion when the wait
    succeeds and cancels it when the wait fails; otherwise the promotion
    stands. *)
Theorem C4_override_gates (cfg : Config) (w : World) (a : ReplicationAnalysis)
    (p : Instance) (err : option Error) (s : St) :
  let gate := overrideMasterPromotion cfg w a (Some p) err s in
  let wait := WaitForSQLThreadUpToDate (Key p) in
  (geoOK cfg a p = false -> exists e, gate = Returned (None, Some e) s) /\
  (geoOK cfg a p = true ->
   FailMasterPromotionIfSQLThreadNotUpToDate cfg = true ->
   SQLThreadUpToDate p = false ->
   exists e, gate = Returned (None, Some e) s) /\
  (geoOK cfg a p = true ->
   FailMasterPromotionIfSQLThreadNotUpToDate cfg = false ->
   DelayMasterPromotionIfSQLThreadNotUpToDate cfg = true ->
   SQLThreadUpToDate p = false ->
   (neverReturns w (trace s) wait = true /\ gate = Blocked) \/
   (neverReturns w (trace s) wait = false /\
    let answer := instOp w (trace s) wait in
    let s' := mkSt (trace s ++ [CInst wait answer]) (store s) in
    match snd answer with
    | None => gate = Returned (Some p, err) s'
    | Some e => exists e', gate = Returned (None, Some e') s'
    end)) /\
  (geoOK cfg a p = true ->
   SQLThreadUpToDate p = true \/
   (FailMasterPromotionIfSQLThreadNotUpToDate cfg = false /\
    DelayMasterPromotionIfSQLThreadNotUpToDate cfg = false) ->
   gate = Returned (Some p, err) s).
Proof.
  cbv zeta. unfold overrideMasterPromotion, geoOK.
  destruct (MasterFailoverGeographicConstraintSatisfied cfg a p) as [sat reason].
  cbn [fst]. repeat split.
  - intros ->. cbn. eauto.
  - intros -> -> ->. cbn. eauto.
  - intros -> -> -> ->. cbn [negb andb]. unfold bind, inst_, call.
    destruct (neverReturns w (trace s) (WaitForSQLThreadUpToDate (Key p))).
    + left. auto.
    + right. split; [reflexivity|]. cbv zeta.
      destruct (instOp w (trace s) (WaitForSQLThreadUpToDate (Key p))) as [i [e|]];
        cbn [snd]; eauto.
  - intros -> [->|[-> ->]]; cbn [negb andb].
    + rewrite !andb_false_r. reflexivity.
    + reflexivity.
Qed.

(** Both SQL-thread knobs set, a lagging replica in the right data center:
    the promotion is cancelled and nothing is waited for. *)
Lemma C4_override_gates_witness :
  exists e,
    overrideMasterPromotion (Sample.knobs true true true false) Sample.quiet
      (Sample.analysisOf Analysis.DeadMaster Sample.keyM Sample.keyM)
      (Some (Sample.lagging Sample.keyR1 Sample.keyM "dc1")) None Sample.start
    = Returned (None, Some e) Sample.start.
Proof.
  apply (proj1 (proj2 (C4_override_gates (Sample.knobs true true true false) Sample.quiet
                         (Sample.analysisOf Analysis.DeadMaster Sample.keyM Sample.keyM)
                         (Sample.lagging Sample.keyR1 Sample.keyM "dc1") None Sample.start)));
    reflexivity.
Defined.

(** ** Dead master in a binlog-server topology: the postponed moves *)

Lemma postponeBinlogServers_Postponed i l bls promoted r :
  Postponed (postponeBinlogServers i l bls promoted r)
  = Postponed r
    ++ map (fun b => MoveBinlogServer b bls promoted)
         (firstn (maxBinlogServersToPromote - i) l).
Proof.
  revert i r. induction l as [|b l IH]; intros i r; cbn [postponeBinlogServers].
  - rewrite firstn_nil. cbn. now rewrite app_nil_r.
  - destruct (Nat.leb_spec maxBinlogServersToPromote i) as [Hle|Hlt].
    + replace (maxBinlogServersToPromote - i) with 0 by lia.
      cbn. now rewrite app_nil_r.
    + rewrite IH. cbn [AddPostponedFunction set_Postponed Postponed].
      replace (maxBinlogServersToPromote - i) with (S (maxBinlogServersToPromote - S i))
        by lia.
      cbn [firstn map]. now rewrite <- app_assoc.
Qed.

Lemma recoverDeadMasterInBinlogServerTopology_postpones w r :
  runs (recoverDeadMasterInBinlogServerTopology w r)
    (fun x l =>
       Postponed (recordOf x) = Postponed r \/
       exists replicas k bls promoted,
         In (CRead (ReadBinlogServerReplicaInstances k) (replicas, None)) l /\
         fst (fst x) = Some promoted /\
         Postponed (recordOf x)
         = Postponed r
           ++ map (fun b => MoveBinlogServer b bls promoted)
                (firstn maxBinlogServersToPromote replicas)).
Proof.
  unfold recoverDeadMasterInBinlogServerTopology.
  repeat runs_step; try (left; reflexivity).
  eapply runs_bind with (R1 := fun _ _ => True).
  - eapply runs_weaken with (R := fun a l => anyTrue a /\ Forall plain l);
      [|intros; exact I].
    repeat (apply onReplica_frame; [intros; exact I|intros]).
    apply ensures_ret. exact I.
  - cbn beta. intros [p' e'] l1 _.
    repeat runs_step; try (left; reflexivity).
    right. unfold recordOf. cbn [snd fst].
    rewrite postponeBinlogServers_Postponed, Nat.sub_0_r.
    subst. do 4 eexists. split; [in_solve|]. split; reflexivity.
Qed.

(** C10.  The binlog-server recovery of a dead master adds to the
    recovery's postponed functions at most three moves of binlog servers:
    either none, or one for each of the first three (in the order read) of
    the binlog-server replicas that [ReadBinlogServerReplicaInstances]
    answered for the promoted binlog server; a binlog server further down
    that list gets no postponed function. *)
Theorem C10_at_most_three_binlog_servers (w : World) (r : TopologyRecovery) (s : St)
    (promotedReplica : option Instance) (err : option Error) (r' : TopologyRecovery) (s' : St) :
  recoverDeadMasterInBinlogServerTopology w r s = Returned (promotedReplica, err, r') s' ->
  exists l added,
    trace s' = trace s ++ l /\
    Postponed r' = Postponed r ++ added /\
    List.length added <= 3 /\
    (added = [] \/
     exists replicas k bls promoted,
       In (CRead (ReadBinlogServerReplicaInstances k) (replicas, None)) l /\
       promotedReplica = Some promoted /\
       added = map (fun b => MoveBinlogServer b bls promoted) (firstn 3 replicas)).
Proof.
  intros H.
  destruct (recoverDeadMasterInBinlogServerTopology_postpones w r _ _ _ H)
    as (l & Ht & [E|(replicas & k & bls & promoted & Hin & Hp & E)]);
    unfold recordOf in E; cbn [snd fst] in *.
  - exists l, []. rewrite app_nil_r. cbn. repeat split; auto.
  - exists l, (map (fun b => MoveBinlogServer b bls promoted) (firstn 3 replicas)).
    repeat split; auto.
    + rewrite length_map. apply firstn_le_length.
    + right. exists replicas, k, bls, promoted. auto.
Qed.

(** Five binlog servers replicate from the promoted one: the first three
    are postponed, in the order read. *)
Lemma C10_at_most_three_binlog_servers_witness :
  exists promoted r' s' l added,
    recoverDeadMasterInBinlogServerTopology Sample.binlogTopology
      (NewTopologyRecovery "uid-1" Sample.binlogAnalysis) Sample.start
    = Returned (Some promoted, None, r') s' /\
    trace s' = trace Sample.start ++ l /\
    Postponed r' = added /\
    List.length added <= 3.
Proof.
  destruct (recoverDeadMasterInBinlogServerTopology Sample.binlogTopology
              (NewTopologyRecovery "uid-1" Sample.binlogAnalysis) Sample.start)
    as [| |[[p e] r'] s'] eqn:E; try (vm_compute in E; discriminate).
  destruct (C10_at_most_three_binlog_servers _ _ _ _ _ _ _ E)
    as (l & added & Ht & Hp & Hlen & _).
  assert (Hpe : p = Some (Sample.replica Sample.keyR1 Sample.keyM "dc1") /\ e = None).
  { vm_compute in E. inversion E. auto. }
  destruct Hpe as [-> ->].
  exists (Sample.replica Sample.keyR1 Sample.keyM "dc1"), r', s', l, added.
  repeat split; auto.
Defined.

(** ** Registration and resolution *)

Tactic Notation "bind_inv" hyp(H) "as" simple_intropattern(a) ident(s) ident(E) :=
  apply bind_Returned in H as (a & s & E & H).

Section Table.

Variable cfg : Config.
Variable w : World.

Lemma resolveRecovery_Returned r p s e r' s' :
  resolveRecovery w r p s = Returned (e, r') s' ->
  r' = resolvedRecord r p /\
  exists c, trace s' = trace s ++ [c] /\ resolutionOf c = Some r'.
Proof.
  unfold resolveRecovery, resolvedRecord, bind, getStore, ask, putStore, emit.
  destruct (isRaftEnabled w); cbn; intros H; inversion H; subst; clear H;
    (split; [reflexivity|]); eexists; split; reflexivity.
Qed.

Lemma resolveRecovery_runs r p :
  runs (resolveRecovery w r p)
    (fun x l => snd x = resolvedRecord r p /\
                exists c, l = [c] /\ resolutionOf c = Some (snd x)).
Proof.
  intros s [e r'] s' H. apply resolveRecovery_Returned in H as (-> & c & Ht & Hc).
  exists [c]. cbn [snd]. eauto.
Qed.

(** A registration that succeeds hands back a fresh, active record of the
    analysis, and writes it to the table. *)
Lemma AttemptRecoveryRegistration_runs a failIfActive failIfRecent :
  runs (AttemptRecoveryRegistration cfg w a failIfActive failIfRecent)
    (fun x l =>
       snd x = None /\
       match fst x with
       | Some r =>
           SuccessorKey r = None /\ AnalysisEntry r = a /\ IsActive r = true /\
           Postponed r = [] /\
           exists l', l = CWriteRecovery r :: l' /\ Forall notResolution l'
       | None => l = []
       end).
Proof.
  unfold AttemptRecoveryRegistration.
  repeat runs_step; cbn; repeat split; auto;
    eexists; split; try reflexivity; repeat constructor.
Qed.

(** With both checks switched off, the registration always succeeds: it
    appends a fresh active record for the failed key to the table, whatever
    the table holds. *)
Lemma AttemptRecoveryRegistration_unchecked a s :
  exists r s',
    AttemptRecoveryRegistration cfg w a false false s = Returned (Some r, None) s' /\
    failedKeyOf r = AnalyzedInstanceKey a /\ IsActive r = true /\
    store s' = store s ++ [r].
Proof.
  unfold AttemptRecoveryRegistration, bind, getStore, ask, putStore, emit, ret.
  cbn [andb]. destruct (isRaftEnabled w); cbn; eexists; eexists;
    (split; [reflexivity|]); cbn; auto.
Qed.

(** With the check for an active recovery switched on, an active record
    for the failed key refuses the registration and changes nothing. *)
Lemma AttemptRecoveryRegistration_refused a failIfRecent s :
  hasActiveRecovery (store s) (AnalyzedInstanceKey a) = true ->
  AttemptRecoveryRegistration cfg w a true failIfRecent s = Returned (None, None) s.
Proof.
  intros H. unfold AttemptRecoveryRegistration, bind, getStore, ask.
  rewrite H. reflexivity.
Qed.

End Table.

(** ** Dead master: the successor and the data center of the failed instance *)

Section DeadMaster.

Variable cfg : Config.
Variable w : World.

Lemma sameOutcome_SuccessorKey r r' : sameOutcome r r' -> SuccessorKey r' = SuccessorKey r.
Proof. intros H. apply H. Qed.

Lemma sameOutcome_UID r r' : sameOutcome r r' -> UID r' = UID r.
Proof. intros H. apply H. Qed.

(** The stages of a run of [checkAndRecoverDeadMaster] that went past the
    registration: the rewirer phase, the gates, the resolution. *)
Lemma checkAndRecoverDeadMaster_stages a cand force skip s res s' :
  checkAndRecoverDeadMaster cfg w a cand force skip s = Returned res s' ->
  fst (fst res) = true ->
  exists r0 s0 promoted lost e r1 s1 promoted' err' s2 r c,
    recoverDeadMaster cfg w r0 cand skip s0 = Returned (promoted, lost, e, r1) s1 /\
    SuccessorKey r0 = None /\
    overrideMasterPromotion cfg w a promoted e s1 = Returned (promoted', err') s2 /\
    res = (true, Some r, err') /\
    SuccessorKey r = option_map Key promoted' /\
    In c (trace s') /\
    (exists rr, resolutionOf c = Some rr /\ UID rr = UID r /\
                SuccessorKey rr = SuccessorKey r).
Proof.
  intros H Hatt. unfold checkAndRecoverDeadMaster in H.
  destruct (negb (force || HasAutomatedMasterRecovery (ClusterDetails a))).
  { inversion H; subst. discriminate Hatt. }
  bind_inv H as [[r0|] err0] sa Ereg; [|inversion H; subst; discriminate Hatt].
  destruct (AttemptRecoveryRegistration_runs cfg w a _ _ _ _ _ Ereg)
    as (lreg & _ & _ & Hnil & _).
  cbn [fst] in Hnil.
  bind_inv H as [] sb Ecount.
  bind_inv H as [[[promoted lost] e] r1] sc Erec.
  bind_inv H as [promoted' err'] sd Egate.
  bind_inv H as [e3 r2] se Eres.
  destruct (recoverDeadMaster_frame cfg w r0 cand skip _ _ _ Erec) as (lrec & _ & Hsame & _).
  apply resolveRecovery_Returned in Eres as (Hr2 & c & Ht3 & Hc).
  unfold recordOf in Hsame. cbn [snd] in Hsame.
  assert (Hkey2 : SuccessorKey r2 = option_map Key promoted').
  { rewrite Hr2. destruct promoted'; cbn; [reflexivity|].
    rewrite (sameOutcome_SuccessorKey _ _ Hsame). exact Hnil. }
  destruct promoted' as [p'|].
  - bind_inv H as r3 sf Epost. inversion H; subst res s'. clear H.
    destruct (applyMasterPromotion_frame cfg w a p' r2 skip _ _ _ Epost)
      as (lpost & Ht & Hsame' & _).
    exists r0, sb, promoted, lost, e, r1, sc, (Some p'), err', sd, r3, c.
    repeat split; auto.
    + rewrite (sameOutcome_SuccessorKey _ _ Hsame'). exact Hkey2.
    + rewrite Ht, Ht3. in_solve.
    + exists r2. repeat split; auto.
      * symmetry. apply (sameOutcome_UID _ _ Hsame').
      * symmetry. apply (sameOutcome_SuccessorKey _ _ Hsame').
  - bind_inv H as [] sf Efail. inversion H; subst res s'. clear H.
    unfold effect_, emit in Efail. injection Efail as <-.
    exists r0, sb, promoted, lost, e, r1, sc, None, err', sd, r2, c.
    repeat split; auto.
    + cbn [trace]. rewrite Ht3. in_solve.
    + exists r2. auto.
Qed.

End DeadMaster.

(** C3.  With [PreventCrossDataCenterMasterFailover], a dead-master
    recovery that records a successor records the replica that the
    rewirer phase promoted, and that replica is in the data center of the
    failed instance; a promoted replica of another data center is rejected
    by the geographic gate and the recovery is resolved, and published,
    with a nil successor. *)
Theorem C3_successor_in_data_center (cfg : Config) (w : World) (a : ReplicationAnalysis)
    (cand : option InstanceKey) (force skip : bool) (s : St)
    (res : bool * option TopologyRecovery * option Error) (s' : St) :
  PreventCrossDataCenterMasterFailover cfg = true ->
  checkAndRecoverDeadMaster cfg w a cand force skip s = Returned res s' ->
  fst (fst res) = true ->
  exists r0 s0 promoted lost e r1 s1 r,
    recoverDeadMaster cfg w r0 cand skip s0 = Returned (promoted, lost, e, r1) s1 /\
    snd (fst res) = Some r /\
    (forall k,
       SuccessorKey r = Some k ->
       exists p, promoted = Some p /\ Key p = k /\
                 DataCenter p = AnalyzedInstanceDataCenter a) /\
    (forall p,
       promoted = Some p ->
       DataCenter p <> AnalyzedInstanceDataCenter a ->
       SuccessorKey r = None) /\
    (exists c rr,
       In c (trace s') /\ resolutionOf c = Some rr /\ UID rr = UID r /\
       SuccessorKey rr = SuccessorKey r).
Proof.
  intros Hflag H Hatt.
  destruct (checkAndRecoverDeadMaster_stages cfg w a cand force skip s res s' H Hatt)
    as (r0 & s0 & promoted & lost & e & r1 & s1 & promoted' & err' & s2 & r & c &
        Hrec & _ & Hgate & -> & Hkey & Hin & rr & Hc & Huid & Hrr).
  pose proof (overrideMasterPromotion_passes cfg w a _ _ _ _ _ _ Hgate) as Hpass.
  exists r0, s0, promoted, lost, e, r1, s1, r. repeat split; auto.
  - intros k Hk. rewrite Hkey in Hk. destruct promoted' as [p'|]; [|discriminate].
    cbn in Hk. inversion Hk; subst k. destruct Hpass as (Hp & _ & Hgeo & _).
    exists p'. repeat split; auto. now apply (geoOK_data_center cfg a p').
  - intros p Hp Hne. rewrite Hkey. destruct promoted' as [p'|]; [|reflexivity].
    destruct Hpass as (Hp' & _ & Hgeo & _). exfalso.
    rewrite Hp in Hp'. inversion Hp'; subst p'.
    rewrite (geoOK_other_data_center cfg a p Hflag Hne) in Hgeo. discriminate.
  - exists c, rr. auto.
Qed.

(** The failed master is in dc1 and the regroup promotes a replica of dc2:
    the recovery is resolved without a successor. *)
Lemma C3_successor_in_data_center_witness :
  exists r s',
    checkAndRecoverDeadMaster (Sample.knobs true false false false)
      (Sample.gtidTopology (Sample.replica Sample.keyR2 Sample.keyM "dc2"))
      Sample.deadMaster None false true Sample.start
    = Returned (true, Some r, Some "RecoverDeadMaster: failed promotion; PreventCrossDataCenterMasterFailover: will not promote server in dc2 when failed server in dc1") s' /\
    SuccessorKey r = None /\
    exists c rr, In c (trace s') /\ resolutionOf c = Some rr /\ UID rr = UID r /\
                 SuccessorKey rr = SuccessorKey r.
Proof.
  destruct (checkAndRecoverDeadMaster (Sample.knobs true false false false)
              (Sample.gtidTopology (Sample.replica Sample.keyR2 Sample.keyM "dc2"))
              Sample.deadMaster None false true Sample.start)
    as [| |[[att r] err] s'] eqn:E; try (vm_compute in E; discriminate).
  assert (Hres : att = true /\ isSome r = true /\
                 err = Some "RecoverDeadMaster: failed promotion; PreventCrossDataCenterMasterFailover: will not promote server in dc2 when failed server in dc1"
                 /\ option_map SuccessorKey r = Some None).
  { vm_compute in E. inversion E. repeat split. }
  destruct Hres as (-> & Hr & -> & Hk). destruct r as [r|]; [|discriminate].
  destruct (C3_successor_in_data_center (Sample.knobs true false false false)
              _ _ _ _ _ _ _ _ eq_refl E eq_refl)
    as (r0 & s0 & promoted & lost & e & r1 & s1 & r' & _ & Hr' & _ & _ & Hc).
  cbn in Hr'. inversion Hr'; subst r'. cbn in Hk. inversion Hk as [Hk'].
  exists r, s'. repeat split; auto.
Defined.

(** ** Frames of the executors and of the dispatcher *)

#[export] Hint Resolve relax_notResolution relax_notGate : frames.

Lemma AttemptRecoveryRegistration_frame cfg w a failIfActive failIfRecent :
  ensures notGate anyTrue (AttemptRecoveryRegistration cfg w a failIfActive failIfRecent).
Proof. unfold AttemptRecoveryRegistration. frame. Qed.

Lemma resolveRecovery_frame w r p : ensures notGate anyTrue (resolveRecovery w r p).
Proof. unfold resolveRecovery. frame. Qed.

Lemma relocateReplicasToCandidateSibling_frame w k candidate st :
  ensures plain (fun st' => sameOutcome (im_recovery st) (im_recovery st'))
    (relocateReplicasToCandidateSibling w k candidate st).
Proof. unfold relocateReplicasToCandidateSibling. frame. Qed.

Lemma regroupUnderLocalReplica_frame w k st :
  ensures plain (fun st' => sameOutcome (im_recovery st) (im_recovery st'))
    (regroupUnderLocalReplica w k st).
Proof. unfold regroupUnderLocalReplica. frame. Qed.

Lemma relocateUp_frame w a st :
  ensures plain (fun st' => sameOutcome (im_recovery st) (im_recovery st'))
    (relocateUp w a st).
Proof. unfold relocateUp. frame. Qed.

#[export] Hint Resolve AttemptRecoveryRegistration_frame resolveRecovery_frame
  relocateReplicasToCandidateSibling_frame regroupUnderLocalReplica_frame
  relocateUp_frame : frames.

Lemma RecoverDeadIntermediateMaster_frame cfg w r skip :
  ensures notGate anyTrue (RecoverDeadIntermediateMaster cfg w r skip).
Proof. unfold RecoverDeadIntermediateMaster. frame. Qed.

Lemma RecoverDeadCoMaster_frame cfg w r skip :
  ensures plain (fun x => sameOutcome r (recordOf x)) (RecoverDeadCoMaster cfg w r skip).
Proof. unfold RecoverDeadCoMaster. frame. Qed.

#[export] Hint Resolve RecoverDeadIntermediateMaster_frame RecoverDeadCoMaster_frame : frames.

Lemma checkAndRecoverDeadMaster_frame cfg w a cand force skip :
  ensures notGate anyTrue (checkAndRecoverDeadMaster cfg w a cand force skip).
Proof. unfold checkAndRecoverDeadMaster. frame. Qed.

Lemma checkAndRecoverDeadIntermediateMaster_frame cfg w a cand force skip :
  ensures notGate anyTrue (checkAndRecoverDeadIntermediateMaster cfg w a cand force skip).
Proof. unfold checkAndRecoverDeadIntermediateMaster. frame. Qed.

Lemma checkAndRecoverDeadCoMaster_frame cfg w a cand force skip :
  ensures notGate anyTrue (checkAndRecoverDeadCoMaster cfg w a cand force skip).
Proof. unfold checkAndRecoverDeadCoMaster. frame. Qed.

Lemma getCheckAndRecoverFunction_frame w code k :
  ensures plain anyTrue (getCheckAndRecoverFunction w code k).
Proof. unfold getCheckAndRecoverFunction. frame. Qed.

Lemma runEmergentOperations_frame a : ensures plain anyTrue (runEmergentOperations a).
Proof. unfold runEmergentOperations. frame. Qed.

Lemma checkAndExecuteFailureDetectionProcesses_frame cfg w a skip :
  ensures plain anyTrue (checkAndExecuteFailureDetectionProcesses cfg w a skip).
Proof. unfold checkAndExecuteFailureDetectionProcesses. frame. Qed.

Lemma forceAnalysisEntry_frame w clusterName code hint k :
  ensures plain anyTrue (forceAnalysisEntry w clusterName code hint k).
Proof. unfold forceAnalysisEntry. frame. Qed.

#[export] Hint Resolve checkAndRecoverDeadMaster_frame
  checkAndRecoverDeadIntermediateMaster_frame checkAndRecoverDeadCoMaster_frame
  getCheckAndRecoverFunction_frame runEmergentOperations_frame
  checkAndExecuteFailureDetectionProcesses_frame forceAnalysisEntry_frame : frames.

(** * Further properties of the engine *)

Ltac conjs := repeat match goal with |- _ /\ _ => split end.

(** ** Hooks: [executeProcesses] *)

Section Hooks.

Variable cfg : Config.
Variable w : World.

Lemma runProcesses_all processes description r err0 s :
  exists answers s',
    runProcesses cfg w processes description r false err0 s
    = Returned (match err0 with Some _ => err0 | None => firstError answers end) s' /\
    List.length answers = List.length processes /\
    trace s' = trace s ++ hookEntries description (substituted cfg processes r) answers /\
    store s' = store s.
Proof.
  revert err0 s. induction processes as [|c rest IH]; intros err0 s.
  - exists [], s. cbn. rewrite app_nil_r. destruct err0; auto.
  - cbn [runProcesses]. unfold bind, CommandRun_, call.
    set (a := commandRun w (trace s) (replaceCommandPlaceholders cfg c r)).
    set (s1 := mkSt _ _).
    destruct a as [e|] eqn:Ea.
    + destruct (IH (match err0 with None => Some e | Some _ => err0 end) s1)
        as (answers & s' & E & Hlen & Ht & Hs).
      exists (Some e :: answers), s'. repeat split.
      * rewrite E. destruct err0; reflexivity.
      * cbn. now rewrite Hlen.
      * rewrite Ht. subst s1. cbn. now rewrite <- app_assoc.
      * rewrite Hs. reflexivity.
    + destruct (IH err0 s1) as (answers & s' & E & Hlen & Ht & Hs).
      exists (None :: answers), s'. repeat split.
      * rewrite E. destruct err0; reflexivity.
      * cbn. now rewrite Hlen.
      * rewrite Ht. subst s1. cbn. now rewrite <- app_assoc.
      * rewrite Hs. reflexivity.
Qed.

Lemma runProcesses_stop processes description r s :
  exists answers s' err,
    runProcesses cfg w processes description r true None s = Returned err s' /\
    trace s' = trace s
               ++ hookEntries description
                    (firstn (List.length answers) (substituted cfg processes r)) answers /\
    store s' = store s /\
    List.length answers <= List.length processes /\
    ((err = None /\ List.length answers = List.length processes /\
      Forall (fun a => a = None) answers) \/
     (exists e ok, err = Some e /\ answers = ok ++ [Some e] /\
                   Forall (fun a => a = None) ok)).
Proof.
  revert s. induction processes as [|c rest IH]; intros s.
  - exists [], s, None. cbn. rewrite app_nil_r. conjs; auto.
  - cbn [runProcesses]. unfold bind, CommandRun_, call.
    set (a := commandRun w (trace s) (replaceCommandPlaceholders cfg c r)).
    set (s1 := mkSt _ _).
    destruct a as [e|] eqn:Ea.
    + exists [Some e], s1, (Some e). conjs.
      * reflexivity.
      * subst s1. reflexivity.
      * reflexivity.
      * cbn. lia.
      * right. exists e, []. conjs; auto.
    + destruct (IH s1) as (answers & s' & err & E & Ht & Hs & Hlen & Hcase).
      exists (None :: answers), s', err. conjs.
      * exact E.
      * rewrite Ht. subst s1. cbn. now rewrite <- app_assoc.
      * rewrite Hs. reflexivity.
      * cbn. lia.
      * destruct Hcase as [(He & Hl & Hall)|(e & ok & He & Ha & Hall)].
        -- left. conjs; auto. cbn. now rewrite Hl.
        -- right. exists e, (None :: ok). conjs; auto.
           rewrite Ha. reflexivity.
Qed.

End Hooks.

(** X1.  Without [failOnError], [executeProcesses] always returns, after
    running every command of the batch once, in order and with the
    placeholders substituted; it returns the first error among the answers
    (nil when every command succeeded), and leaves the recovery table
    alone. *)
Theorem X1_hooks_all_run (cfg : Config) (w : World) (processes : list string)
    (description : string) (r : TopologyRecovery) (s : St) :
  exists answers s',
    executeProcesses cfg w processes description r false s
    = Returned (firstError answers) s' /\
    List.length answers = List.length processes /\
    trace s' = trace s
               ++ CHookBatch description (List.length processes)
                  :: hookEntries description (substituted cfg processes r) answers /\
    store s' = store s.
Proof.
  unfold executeProcesses, bind, emit.
  set (s1 := mkSt _ _).
  destruct processes as [|c rest].
  - exists [], s1. conjs; reflexivity.
  - destruct (runProcesses_all cfg w (c :: rest) description r None s1)
      as (answers & s' & E & Hlen & Ht & Hs).
    exists answers, s'. conjs; auto.
    rewrite Ht. subst s1. cbn [trace]. now rewrite <- app_assoc.
Qed.

(** X2.  With [failOnError], [executeProcesses] always returns, and stops
    at the first command that fails: the commands run are a prefix of the
    batch, every one of them but the last succeeded, and either all were
    run and the result is nil, or the last one run failed and its error is
    the result. *)
Theorem X2_hooks_stop_at_first_failure (cfg : Config) (w : World) (processes : list string)
    (description : string) (r : TopologyRecovery) (s : St) :
  exists answers s' err,
    executeProcesses cfg w processes description r true s = Returned err s' /\
    trace s' = trace s
               ++ CHookBatch description (List.length processes)
                  :: hookEntries description
                       (firstn (List.length answers) (substituted cfg processes r))
                       answers /\
    store s' = store s /\
    ((err = None /\ List.length answers = List.length processes /\
      Forall (fun a => a = None) answers) \/
     (exists e ok, err = Some e /\ answers = ok ++ [Some e] /\
                   Forall (fun a => a = None) ok /\
                   List.length answers <= List.length processes)).
Proof.
  unfold executeProcesses, bind, emit.
  set (s1 := mkSt _ _).
  destruct processes as [|c rest].
  - exists [], s1, None. conjs; try reflexivity. left. conjs; auto.
  - destruct (runProcesses_stop cfg w (c :: rest) description r s1)
      as (answers & s' & err & E & Ht & Hs & Hlen & Hcase).
    exists answers, s', err. conjs; auto.
    + rewrite Ht. subst s1. cbn [trace]. now rewrite <- app_assoc.
    + destruct Hcase as [H|(e & ok & He & Ha & Hall)]; [left; exact H|].
      right. exists e, ok. auto.
Qed.

(** ** Routing: [getCheckAndRecoverFunction] and [runEmergentOperations] *)

(** [getCheckAndRecoverFunction] makes no call; what it answers. *)
Lemma getCheckAndRecoverFunction_routes (w : World) (code : AnalysisCode) (k : InstanceKey)
    (s : St) :
  exists f actionable,
    getCheckAndRecoverFunction w code k s = Returned (f, actionable) s /\
    actionable = isExecutor f /\
    (f = Some FnDeadMaster ->
     isInEmergencyOperationGracefulPeriod w (trace s) k = false).
Proof.
  unfold getCheckAndRecoverFunction, bind, ask.
  repeat match goal with
         | |- context [if ?b then _ else _] => destruct b eqn:?
         end;
    eexists; eexists; (split; [reflexivity|]); split; try reflexivity;
    try discriminate; auto.
Qed.

(** X3.  For every analysis code and at every moment,
    [getCheckAndRecoverFunction] returns without making a call, and it
    reports the recovery as actionable exactly when the function it returns
    is one of the three executors (every other code gets the generic
    function or none); the dead-master executor is only chosen outside the
    emergency grace period of the instance. *)
Theorem X3_actionable_iff_executor (w : World) (code : AnalysisCode) (k : InstanceKey)
    (s : St) :
  exists f actionable,
    getCheckAndRecoverFunction w code k s = Returned (f, actionable) s /\
    actionable = isExecutor f /\
    (f = Some FnDeadMaster ->
     isInEmergencyOperationGracefulPeriod w (trace s) k = false).
Proof.
  unfold getCheckAndRecoverFunction, bind, ask.
  repeat match goal with
         | |- context [if ?b then _ else _] => destruct b eqn:?
         end;
    eexists; eexists; (split; [reflexivity|]); split; try reflexivity;
    try discriminate; auto.
Qed.

(** A dead master whose emergency grace period is running is not
    recovered yet: its code goes to the generic function. *)
Lemma grace_period_defers_dead_master (w : World) (k : InstanceKey) (s : St) :
  isInEmergencyOperationGracefulPeriod w (trace s) k = true ->
  getCheckAndRecoverFunction w Analysis.DeadMaster k s
  = Returned (Some FnGenericProblem, false) s.
Proof.
  intros H. unfold getCheckAndRecoverFunction, bind, ask. cbn. rewrite H. reflexivity.
Qed.

(** X4.  The codes that are recovered start no emergency probe: when
    [getCheckAndRecoverFunction] reports a code as actionable,
    [runEmergentOperations] does nothing for it. *)
Theorem X4_actionable_codes_start_no_probe (w : World) (a : ReplicationAnalysis)
    (s s0 : St) (f : option CheckAndRecoverFunction) :
  getCheckAndRecoverFunction w (Analysis_ a) (AnalyzedInstanceKey a) s
  = Returned (f, true) s0 ->
  runEmergentOperations a s = Returned tt s.
Proof.
  intros H. unfold runEmergentOperations.
  repeat match goal with
         | |- context [String.eqb (Analysis_ a) ?c] =>
             destruct (String.eqb_spec (Analysis_ a) c) as [E|_];
             [exfalso; rewrite E in H; vm_compute in H; discriminate|]
         end.
  reflexivity.
Qed.

Lemma X4_actionable_codes_start_no_probe_witness :
  runEmergentOperations Sample.deadMaster Sample.start = Returned tt Sample.start.
Proof.
  apply (X4_actionable_codes_start_no_probe Sample.quiet Sample.deadMaster
           Sample.start Sample.start (Some FnDeadMaster)).
  reflexivity.
Defined.

(** ** More rules and tactics for runs *)

Lemma runs_bind_ask_world {A B} (w : World) (g : World -> Trace -> A) (f : A -> M B) R :
  (forall t, runs (f (g w t)) R) -> runs (bind (ask w g) f) R.
Proof.
  intros H s b s' E. unfold bind, ask in E. exact (H (trace s) s b s' E).
Qed.

Lemma plain_leavesTable c : plain c -> leavesTable c.
Proof. destruct c; cbn; intros H; try contradiction; split; reflexivity. Qed.

Lemma Forall_plain_leavesTable l : Forall plain l -> Forall leavesTable l.
Proof. apply Forall_impl. exact plain_leavesTable. Qed.

Lemma Forall_plain_notGate l : Forall plain l -> Forall notGate l.
Proof. apply Forall_impl. exact plain_notGate. Qed.

(** [Forall P] of a list built from entries and from lists known to be
    plain. *)
Ltac forall_solve lemma :=
  repeat
    first
      [ apply Forall_nil
      | apply Forall_cons; [cbn; auto; fail | ]
      | apply Forall_app; split
      | apply lemma; assumption
      | assumption ].

(** A run of [m] from [s], known to return, seen through a relation that
    holds of all returning runs of [m]. *)
Ltac use_runs H R :=
  match type of H with
  | ?m ?s = Returned ?a ?s' =>
      let Hr := fresh "Hruns" in
      assert (Hr : runs m R); [ | destruct (Hr s a s' H) as (?l & ?Ht & ?HR); clear Hr ]
  end.

(** ** The dispatcher: what is not recovered *)

Section Dispatcher.

Variable cfg : Config.
Variable w : World.

(** The dispatcher, once the function is chosen. *)
Lemma dispatcher_selected a cand force skip s f actionable res s' :
  getCheckAndRecoverFunction w (Analysis_ a) (AnalyzedInstanceKey a) s
  = Returned (f, actionable) s ->
  executeCheckAndRecoverFunction cfg w a cand force skip s = Returned res s' ->
  (runEmergentOperations (with_IsActionableRecovery a actionable) ;;;
   match f with
   | None => ret (false, None, None)
   | Some checkAndRecoverFunction =>
       leader <- ask w isLeader ;;
       if isRaftEnabled w && negb leader then ret (false, None, None)
       else
         '(registrationSuccess, _, err) <-
            checkAndExecuteFailureDetectionProcesses cfg w
              (with_IsActionableRecovery a actionable) skip ;;
         (if registrationSuccess && isRaftEnabled w
          then effect_ (PublishRegisterFailureDetection
                          (with_IsActionableRecovery a actionable))
          else ret tt) ;;;
         match err with
         | Some e => ret (false, None, Some e)
         | None =>
             '(recoveryDisabledGlobally, disabledErr) <-
                call w isRecoveryDisabled CIsRecoveryDisabled ;;
             if isNil disabledErr && recoveryDisabledGlobally && negb force
             then ret (false, None, None)
             else
               '(recoveryAttempted, topologyRecovery, err) <-
                  applyCheckAndRecoverFunction cfg w checkAndRecoverFunction
                    (with_IsActionableRecovery a actionable) cand force skip ;;
               if negb recoveryAttempted then ret (recoveryAttempted, topologyRecovery, err)
               else
                 match topologyRecovery with
                 | None => ret (recoveryAttempted, None, err)
                 | Some recovery =>
                     (if negb skip then
                        match SuccessorKey recovery with
                        | None =>
                            executeProcesses cfg w (PostUnsuccessfulFailoverProcesses cfg)
                              "PostUnsuccessfulFailoverProcesses" recovery false ;;; ret tt
                        | Some successorKey =>
                            effect_ (EndDowntime successorKey) ;;;
                            executeProcesses cfg w (PostFailoverProcesses cfg)
                              "PostFailoverProcesses" recovery false ;;; ret tt
                        end
                      else ret tt) ;;;
                     Wait w (Postponed recovery) ;;;
                     ret (recoveryAttempted, Some recovery, err)
                 end
         end
   end) s = Returned res s'.
Proof.
  intros Hsel H. unfold executeCheckAndRecoverFunction in H.
  unfold bind at 1 in H. rewrite Hsel in H. exact H.
Qed.

End Dispatcher.

Lemma ensures_then {A B} (P : Call -> Prop) (Q : A -> Prop) (m : M A) (f : A -> M B)
    (R : B -> Trace -> Prop) :
  ensures P Q m ->
  (forall a l1, Q a -> Forall P l1 -> runs (f a) (fun b l2 => R b (l1 ++ l2))) ->
  runs (bind m f) R.
Proof.
  intros Hm Hf. eapply runs_bind; [exact Hm|]. cbn beta. intros a l1 [Ha Hl]. auto.
Qed.

Ltac runs_hint :=
  lazymatch goal with
  | |- runs (bind _ _) _ =>
      eapply ensures_then; [solve [eauto with frames] | cbn beta; intros ? ? ? ?]
  end.

Ltac runs_auto := repeat first [runs_step | runs_hint].

Ltac table_solve :=
  forall_solve Forall_plain_leavesTable;
  try (unfold leavesTable; cbn; auto; fail).

(** X5.  An analysis that [getCheckAndRecoverFunction] does not report as
    actionable is never recovered, forced or not: the dispatcher returns
    "not attempted" with no recovery, and neither registers nor resolves a
    recovery on the way. *)
Theorem X5_not_actionable_not_recovered (cfg : Config) (w : World) (a : ReplicationAnalysis)
    (cand : option InstanceKey) (force skip : bool) (s s0 : St)
    (f : option CheckAndRecoverFunction)
    (res : bool * option TopologyRecovery * option Error) (s' : St) :
  getCheckAndRecoverFunction w (Analysis_ a) (AnalyzedInstanceKey a) s
  = Returned (f, false) s0 ->
  executeCheckAndRecoverFunction cfg w a cand force skip s = Returned res s' ->
  fst (fst res) = false /\ snd (fst res) = None /\
  exists l, trace s' = trace s ++ l /\ Forall leavesTable l.
Proof.
  intros Hsel Hrun.
  destruct (getCheckAndRecoverFunction_routes w (Analysis_ a) (AnalyzedInstanceKey a) s)
    as (f' & act' & E & Hact & _).
  rewrite Hsel in E. injection E as Ef Ea Es. subst f' act' s0.
  pose proof (dispatcher_selected cfg w _ _ _ _ _ _ _ _ _ Hsel Hrun) as H.
  use_runs H (fun (res : bool * option TopologyRecovery * option Error) l =>
                fst (fst res) = false /\ snd (fst res) = None /\ Forall leavesTable l).
  { destruct f as [[]|]; try discriminate Hact;
      cbn [applyCheckAndRecoverFunction]; unfold checkAndRecoverGenericProblem;
      runs_auto; cbn [fst snd negb]; conjs; auto; table_solve. }
  destruct HR as (H1 & H2 & H3). eauto.
Qed.

Lemma X5_not_actionable_not_recovered_witness :
  exists res s',
    executeCheckAndRecoverFunction Sample.config0 Sample.quiet
      (Sample.analysisOf Analysis.UnreachableMaster Sample.keyM Sample.keyM)
      None true false Sample.start = Returned res s' /\
    fst (fst res) = false /\ snd (fst res) = None /\
    exists l, trace s' = trace Sample.start ++ l /\ Forall leavesTable l.
Proof.
  destruct (executeCheckAndRecoverFunction Sample.config0 Sample.quiet
              (Sample.analysisOf Analysis.UnreachableMaster Sample.keyM Sample.keyM)
              None true false Sample.start) as [| |res s'] eqn:E;
    try (vm_compute in E; discriminate).
  exists res, s'. split; [reflexivity|].
  apply (X5_not_actionable_not_recovered Sample.config0 Sample.quiet
           (Sample.analysisOf Analysis.UnreachableMaster Sample.keyM Sample.keyM)
           None true false Sample.start Sample.start (Some FnGenericProblem) res s');
    [reflexivity|exact E].
Defined.

(** ** The dispatcher: raft followers and the global switch *)

Lemma runs_bind_call_world {A B} (w : World) (answer : World -> Trace -> A) entry
    (f : A -> M B) R :
  (forall t, runs (f (answer w t)) (fun b l => R b (entry (answer w t) :: l))) ->
  runs (bind (call w answer entry) f) R.
Proof.
  intros H s b s' E. unfold bind, call in E. cbv zeta in E.
  destruct (H (trace s) _ _ _ E) as (l & Ht & HR).
  exists (entry (answer w (trace s)) :: l). split; [|exact HR].
  rewrite Ht. cbn [trace]. now rewrite <- app_assoc.
Qed.

Ltac probes_solve :=
  repeat first [apply Forall_nil | apply Forall_cons; [exact I|]].

(** X6.  Under raft, a node that is not the leader detects nothing and
    recovers nothing: whatever the analysis, the dispatcher returns "not
    attempted", with no recovery and no error, and all it has started are
    the emergency probes of [runEmergentOperations]. *)
Theorem X6_raft_follower_only_probes (cfg : Config) (w : World) (a : ReplicationAnalysis)
    (cand : option InstanceKey) (force skip : bool) (s : St)
    (res : bool * option TopologyRecovery * option Error) (s' : St) :
  isRaftEnabled w = true ->
  (forall t, isLeader w t = false) ->
  executeCheckAndRecoverFunction cfg w a cand force skip s = Returned res s' ->
  res = (false, None, None) /\
  exists l, trace s' = trace s ++ l /\ Forall isProbe l.
Proof.
  intros Hraft Hfollower Hrun.
  use_runs Hrun (fun (res : bool * option TopologyRecovery * option Error) l =>
                   res = (false, None, None) /\ Forall isProbe l).
  { unfold executeCheckAndRecoverFunction, getCheckAndRecoverFunction,
      runEmergentOperations.
    repeat first
      [ lazymatch goal with
        | |- runs (bind (ask _ isLeader) _) _ =>
            apply runs_bind_ask_world; intros t; rewrite Hraft, Hfollower;
            cbn [andb negb]
        end
      | runs_step ];
      (split; [reflexivity | probes_solve]). }
  destruct HR as [H1 H2]. eauto.
Qed.

Lemma X6_raft_follower_only_probes_witness :
  exists s',
    executeCheckAndRecoverFunction Sample.config0 (SampleNodes.raftNode Sample.quiet false)
      (Sample.analysisOf Analysis.UnreachableMaster Sample.keyM Sample.keyM)
      None true false Sample.start = Returned (false, None, None) s' /\
    exists l, trace s' = trace Sample.start ++ l /\ Forall isProbe l /\ length l = 2.
Proof.
  destruct (executeCheckAndRecoverFunction Sample.config0
              (SampleNodes.raftNode Sample.quiet false)
              (Sample.analysisOf Analysis.UnreachableMaster Sample.keyM Sample.keyM)
              None true false Sample.start) as [| |res s'] eqn:E;
    try (vm_compute in E; discriminate).
  destruct (X6_raft_follower_only_probes Sample.config0
              (SampleNodes.raftNode Sample.quiet false)
              (Sample.analysisOf Analysis.UnreachableMaster Sample.keyM Sample.keyM)
              None true false Sample.start res s' eq_refl (fun _ => eq_refl) E)
    as (Hres & l & Ht & Hl).
  exists s'. rewrite Hres. split; [reflexivity|].
  exists l. conjs; auto.
  vm_compute in E. injection E as _ Es. subst s'. cbn in Ht. subst l. reflexivity.
Defined.

Lemma runProcesses_hookOf cfg w processes description r failOnError err :
  ensures (hookOf description) anyTrue
    (runProcesses cfg w processes description r failOnError err).
Proof.
  revert err. induction processes as [|c rest IH]; intros err; cbn [runProcesses].
  - apply ensures_ret. exact I.
  - repeat ensures_step; try exact I; apply IH.
Qed.

Lemma executeProcesses_hookOf cfg w processes description r failOnError :
  ensures (hookOf description) anyTrue
    (executeProcesses cfg w processes description r failOnError).
Proof.
  unfold executeProcesses. repeat ensures_step; try exact I.
  apply runProcesses_hookOf.
Qed.

Lemma hookOf_isDetection c : hookOf "OnFailureDetectionProcesses" c -> isDetection c.
Proof. destruct c; cbn; auto; contradiction. Qed.

Lemma executeProcesses_detection cfg w processes r failOnError :
  ensures isDetection anyTrue
    (executeProcesses cfg w processes "OnFailureDetectionProcesses" r failOnError).
Proof.
  eapply ensures_relax; [apply executeProcesses_hookOf|exact hookOf_isDetection].
Qed.

#[export] Hint Resolve executeProcesses_detection : frames.

Lemma checkAndExecuteFailureDetectionProcesses_detection cfg w a skip :
  ensures isDetection anyTrue (checkAndExecuteFailureDetectionProcesses cfg w a skip).
Proof. unfold checkAndExecuteFailureDetectionProcesses. frame. Qed.

Ltac detection_solve :=
  repeat first
    [ apply Forall_nil
    | apply Forall_cons; [exact I|]
    | apply Forall_app; split
    | assumption ].

(** X7.  While recoveries are disabled globally, a dispatch that is not
    forced stops after the detection: it returns "not attempted" with no
    recovery, and beyond the emergency probes, the registration of the
    detection with its hooks and the look at the switch, it calls
    nothing. *)
Theorem X7_disabled_globally_detects_only (cfg : Config) (w : World)
    (a : ReplicationAnalysis) (cand : option InstanceKey) (skip : bool) (s : St)
    (res : bool * option TopologyRecovery * option Error) (s' : St) :
  (forall t, isRecoveryDisabled w t = (true, None)) ->
  executeCheckAndRecoverFunction cfg w a cand false skip s = Returned res s' ->
  fst (fst res) = false /\ snd (fst res) = None /\
  exists l, trace s' = trace s ++ l /\ Forall isDetection l.
Proof.
  intros Hdisabled Hrun.
  use_runs Hrun (fun (res : bool * option TopologyRecovery * option Error) l =>
                   fst (fst res) = false /\ snd (fst res) = None /\ Forall isDetection l).
  { unfold executeCheckAndRecoverFunction, getCheckAndRecoverFunction,
      runEmergentOperations.
    repeat first
      [ lazymatch goal with
        | |- runs (bind (call _ isRecoveryDisabled _) _) _ =>
            apply runs_bind_call_world; intros t; rewrite Hdisabled;
            cbn [isNil andb negb]
        | |- runs (bind (checkAndExecuteFailureDetectionProcesses _ _ _ _) _) _ =>
            eapply ensures_then;
            [apply checkAndExecuteFailureDetectionProcesses_detection
            | cbn beta; intros ? ? ? ?]
        end
      | runs_step ];
      cbn [fst snd]; conjs; try reflexivity; detection_solve. }
  destruct HR as (H1 & H2 & H3). eauto.
Qed.

Lemma X7_disabled_globally_detects_only_witness :
  exists res s',
    executeCheckAndRecoverFunction Sample.config0 (SampleNodes.disabled Sample.quiet)
      Sample.deadMaster None false false Sample.start = Returned res s' /\
    fst (fst res) = false /\ snd (fst res) = None /\
    exists l, trace s' = trace Sample.start ++ l /\ Forall isDetection l.
Proof.
  destruct (executeCheckAndRecoverFunction Sample.config0 (SampleNodes.disabled Sample.quiet)
              Sample.deadMaster None false false Sample.start) as [| |res s'] eqn:E;
    try (vm_compute in E; discriminate).
  exists res, s'. split; [reflexivity|].
  apply (X7_disabled_globally_detects_only Sample.config0 (SampleNodes.disabled Sample.quiet)
           Sample.deadMaster None false Sample.start res s' (fun _ => eq_refl) E).
Defined.

(** ** Dispatching with [skipProcesses]: no hook is run *)

(** The branches under [if !skipProcesses] go away when hooks are skipped. *)
Ltac skipped :=
  match goal with
  | |- context [negb true] => change (negb true) with false; cbv iota
  end.

Ltac quiet := repeat first [skipped | ensures_step]; frame_done.

Section NoHook.

Variable cfg : Config.
Variable w : World.

Lemma detachAll_noHook l : ensures noHook anyTrue (detachAll w l).
Proof.
  induction l as [|x l IH]; cbn [detachAll]; [apply ensures_ret; exact I|].
  quiet.
Qed.

Lemma beginDowntimeAll_noHook l : ensures noHook anyTrue (beginDowntimeAll l).
Proof.
  induction l as [|x l IH]; cbn [beginDowntimeAll]; [apply ensures_ret; exact I|].
  quiet.
Qed.

Lemma putKVPairs_noHook b l : ensures noHook anyTrue (putKVPairs b l).
Proof.
  induction l as [|x l IH]; cbn [putKVPairs]; [apply ensures_ret; exact I|].
  quiet.
Qed.

Hint Resolve detachAll_noHook beginDowntimeAll_noHook putKVPairs_noHook : frames.

Lemma runPostponed_noHook f : ensures noHook anyTrue (runPostponed w f).
Proof. unfold runPostponed. quiet. Qed.

Hint Resolve runPostponed_noHook : frames.

Lemma Wait_noHook fs : ensures noHook anyTrue (Wait w fs).
Proof.
  induction fs as [|f fs IH]; cbn [Wait]; [apply ensures_ret; exact I|].
  quiet.
Qed.

Lemma GetCandidateSiblingOfIntermediateMaster_noHook im :
  ensures noHook anyTrue (GetCandidateSiblingOfIntermediateMaster w im).
Proof. unfold GetCandidateSiblingOfIntermediateMaster. quiet. Qed.

Lemma SuggestReplacementForPromotedReplica_noHook r deadKey promoted candidateKey :
  ensures noHook anyTrue
    (SuggestReplacementForPromotedReplica cfg w r deadKey promoted candidateKey).
Proof. unfold SuggestReplacementForPromotedReplica. quiet. Qed.

Hint Resolve Wait_noHook GetCandidateSiblingOfIntermediateMaster_noHook
  SuggestReplacementForPromotedReplica_noHook : frames.

Lemma replacePromotedReplicaWithCandidate_noHook r deadKey promoted candidateKey :
  ensures noHook anyTrue
    (replacePromotedReplicaWithCandidate cfg w r deadKey promoted candidateKey).
Proof. unfold replacePromotedReplicaWithCandidate. quiet. Qed.

Lemma onReplica_noHook op p k :
  (forall p', ensures noHook anyTrue (k p')) ->
  ensures noHook anyTrue (onReplica w op p k).
Proof. intros Hk. unfold onReplica. repeat ensures_step; auto. exact I. Qed.

Lemma recoverDeadMasterInBinlogServerTopology_noHook r :
  ensures noHook anyTrue (recoverDeadMasterInBinlogServerTopology w r).
Proof.
  unfold recoverDeadMasterInBinlogServerTopology. repeat ensures_step; frame_done.
  eapply ensures_bind with (Q1 := anyTrue).
  - repeat (apply onReplica_noHook; intros).
    apply ensures_ret. exact I.
  - intros [p' e'] _. quiet.
Qed.

Hint Resolve replacePromotedReplicaWithCandidate_noHook
  recoverDeadMasterInBinlogServerTopology_noHook : frames.

Lemma recoverDeadMaster_noHook r candidateKey :
  ensures noHook anyTrue (recoverDeadMaster cfg w r candidateKey true).
Proof. unfold recoverDeadMaster. quiet. Qed.

Lemma overrideMasterPromotion_noHook a promoted err :
  ensures noHook anyTrue (overrideMasterPromotion cfg w a promoted err).
Proof. unfold overrideMasterPromotion. quiet. Qed.

Lemma applyMasterPromotion_noHook a promoted r :
  ensures noHook anyTrue (applyMasterPromotion cfg w a promoted r true).
Proof. unfold applyMasterPromotion. quiet. Qed.

Lemma AttemptRecoveryRegistration_noHook a failIfActive failIfRecent :
  ensures noHook anyTrue (AttemptRecoveryRegistration cfg w a failIfActive failIfRecent).
Proof. unfold AttemptRecoveryRegistration. quiet. Qed.

Lemma resolveRecovery_noHook r p : ensures noHook anyTrue (resolveRecovery w r p).
Proof. unfold resolveRecovery. quiet. Qed.

Lemma relocateReplicasToCandidateSibling_noHook k candidate st :
  ensures noHook anyTrue (relocateReplicasToCandidateSibling w k candidate st).
Proof. unfold relocateReplicasToCandidateSibling. quiet. Qed.

Lemma regroupUnderLocalReplica_noHook k st :
  ensures noHook anyTrue (regroupUnderLocalReplica w k st).
Proof. unfold regroupUnderLocalReplica. quiet. Qed.

Lemma relocateUp_noHook a st : ensures noHook anyTrue (relocateUp w a st).
Proof. unfold relocateUp. quiet. Qed.

Hint Resolve recoverDeadMaster_noHook overrideMasterPromotion_noHook
  applyMasterPromotion_noHook AttemptRecoveryRegistration_noHook resolveRecovery_noHook
  relocateReplicasToCandidateSibling_noHook regroupUnderLocalReplica_noHook
  relocateUp_noHook : frames.

Lemma RecoverDeadIntermediateMaster_noHook r :
  ensures noHook anyTrue (RecoverDeadIntermediateMaster cfg w r true).
Proof. unfold RecoverDeadIntermediateMaster. quiet. Qed.

Lemma RecoverDeadCoMaster_noHook r :
  ensures noHook anyTrue (RecoverDeadCoMaster cfg w r true).
Proof. unfold RecoverDeadCoMaster. quiet. Qed.

Hint Resolve RecoverDeadIntermediateMaster_noHook RecoverDeadCoMaster_noHook : frames.

Lemma checkAndRecoverDeadMaster_noHook a cand force :
  ensures noHook anyTrue (checkAndRecoverDeadMaster cfg w a cand force true).
Proof. unfold checkAndRecoverDeadMaster. quiet. Qed.

Lemma checkAndRecoverDeadIntermediateMaster_noHook a cand force :
  ensures noHook anyTrue (checkAndRecoverDeadIntermediateMaster cfg w a cand force true).
Proof. unfold checkAndRecoverDeadIntermediateMaster. quiet. Qed.

Lemma checkAndRecoverDeadCoMaster_noHook a cand force :
  ensures noHook anyTrue (checkAndRecoverDeadCoMaster cfg w a cand force true).
Proof. unfold checkAndRecoverDeadCoMaster. quiet. Qed.

Lemma getCheckAndRecoverFunction_noHook code k :
  ensures noHook anyTrue (getCheckAndRecoverFunction w code k).
Proof. unfold getCheckAndRecoverFunction. quiet. Qed.

Lemma runEmergentOperations_noHook a : ensures noHook anyTrue (runEmergentOperations a).
Proof. unfold runEmergentOperations. quiet. Qed.

Lemma checkAndExecuteFailureDetectionProcesses_noHook a :
  ensures noHook anyTrue (checkAndExecuteFailureDetectionProcesses cfg w a true).
Proof. unfold checkAndExecuteFailureDetectionProcesses. quiet. Qed.

Hint Resolve checkAndRecoverDeadMaster_noHook checkAndRecoverDeadIntermediateMaster_noHook
  checkAndRecoverDeadCoMaster_noHook getCheckAndRecoverFunction_noHook
  runEmergentOperations_noHook checkAndExecuteFailureDetectionProcesses_noHook : frames.

Lemma applyCheckAndRecoverFunction_noHook f a cand force :
  ensures noHook anyTrue (applyCheckAndRecoverFunction cfg w f a cand force true).
Proof.
  destruct f; cbn [applyCheckAndRecoverFunction]; auto with frames.
  unfold checkAndRecoverGenericProblem. apply ensures_ret. exact I.
Qed.

Hint Resolve applyCheckAndRecoverFunction_noHook : frames.

Lemma executeCheckAndRecoverFunction_noHook a cand force :
  ensures noHook anyTrue (executeCheckAndRecoverFunction cfg w a cand force true).
Proof. unfold executeCheckAndRecoverFunction. quiet. Qed.

End NoHook.

(** X8.  With [skipProcesses] no hook is run: a dispatch that skips the
    processes starts no batch of hooks and runs no command, whatever the
    analysis, forced or not, and whatever the recovery does. *)
Theorem X8_skip_processes_runs_no_hook (cfg : Config) (w : World) (a : ReplicationAnalysis)
    (cand : option InstanceKey) (force : bool) (s : St)
    (res : bool * option TopologyRecovery * option Error) (s' : St) :
  executeCheckAndRecoverFunction cfg w a cand force true s = Returned res s' ->
  exists l, trace s' = trace s ++ l /\ Forall noHook l.
Proof.
  intros Hrun.
  destruct (executeCheckAndRecoverFunction_noHook cfg w a cand force s res s' Hrun)
    as (l & Ht & _ & Hl).
  eauto.
Qed.

Lemma X8_skip_processes_runs_no_hook_witness :
  exists res s',
    executeCheckAndRecoverFunction (Sample.hooks ["pre-hook"%string] ["post-hook"%string])
      (Sample.gtidTopology (Sample.replica Sample.keyR1 Sample.keyM "dc1"))
      Sample.deadMaster None false true Sample.start = Returned res s' /\
    fst (fst res) = true /\
    exists l, trace s' = trace Sample.start ++ l /\ Forall noHook l.
Proof.
  destruct (executeCheckAndRecoverFunction
              (Sample.hooks ["pre-hook"%string] ["post-hook"%string])
              (Sample.gtidTopology (Sample.replica Sample.keyR1 Sample.keyM "dc1"))
              Sample.deadMaster None false true Sample.start) as [| |res s'] eqn:E;
    try (vm_compute in E; discriminate).
  exists res, s'. split; [reflexivity|]. split.
  - vm_compute in E. injection E as <- _. reflexivity.
  - apply (X8_skip_processes_runs_no_hook
             (Sample.hooks ["pre-hook"%string] ["post-hook"%string])
             (Sample.gtidTopology (Sample.replica Sample.keyR1 Sample.keyM "dc1"))
             Sample.deadMaster None false Sample.start res s' E).
Defined.

(** ** Candidate selection *)

Section CandidateSibling.

Variable w : World.
Variable im : Instance.

Local Abbreviation valid := (isValidAsCandidateSiblingOfIntermediateMaster w im).

(** The four passes of [GetCandidateSiblingOfIntermediateMaster] over the
    sorted siblings, as one case analysis. *)
Lemma GetCandidateSiblingOfIntermediateMaster_passes s c err s' :
  GetCandidateSiblingOfIntermediateMaster w im s = Returned (c, err) s' ->
  let op := ReadReplicaInstances (MasterKey im) in
  let siblings := siblingsOf w (trace s) im in
  s' = mkSt (trace s ++ [CRead op (readOp w (trace s) op)]) (store s) /\
  ((exists e, snd (readOp w (trace s) op) = Some e /\ c = None /\ err = Some e) \/
   (snd (readOp w (trace s) op) = None /\
    length (fst (readOp w (trace s) op)) <= 1 /\ c = None /\ err <> None) \/
   (snd (readOp w (trace s) op) = None /\
    1 < length (fst (readOp w (trace s) op)) /\
    ((exists x, c = Some x /\ err = None /\
                find (fun s => valid s && IsCandidate s && sameDCAndEnv s im) siblings
                = Some x) \/
     (exists x, c = Some x /\ err = None /\
                find (fun s => valid s && IsCandidate s && sameDCAndEnv s im) siblings = None /\
                find (fun s => valid s && IsCandidate s) siblings = Some x) \/
     (exists x, c = Some x /\ err = None /\
                find (fun s => valid s && IsCandidate s) siblings = None /\
                find (fun s => valid s && sameDCAndEnv s im) siblings = Some x) \/
     (exists x, c = Some x /\ err = None /\
                find (fun s => valid s && IsCandidate s) siblings = None /\
                find (fun s => valid s && sameDCAndEnv s im) siblings = None /\
                find valid siblings = Some x) \/
     (c = None /\ err <> None /\ find valid siblings = None)))).
Proof.
  unfold GetCandidateSiblingOfIntermediateMaster, siblingsOf, read_, bind, call. cbv zeta.
  destruct (readOp w (trace s) (ReadReplicaInstances (MasterKey im))) as [sibs [e|]] eqn:Er;
    cbn [fst snd].
  { intros H. injection H as <- <- <-. split; [reflexivity|]. left. eauto. }
  destruct (Nat.leb (length sibs) 1) eqn:Elen.
  { intros H. injection H as <- <- <-. split; [reflexivity|]. right. left.
    apply Nat.leb_le in Elen. conjs; auto. discriminate. }
  apply Nat.leb_gt in Elen.
  destruct (find (fun s0 => valid s0 && IsCandidate s0 && sameDCAndEnv s0 im) _) eqn:F1.
  { intros H. injection H as <- <- <-. split; [reflexivity|]. right. right.
    conjs; auto. left. eauto. }
  destruct (find (fun s0 => valid s0 && IsCandidate s0) _) eqn:F2.
  { intros H. injection H as <- <- <-. split; [reflexivity|]. right. right.
    conjs; auto. right. left. eauto. }
  destruct (find (fun s0 => valid s0 && sameDCAndEnv s0 im) _) eqn:F3.
  { intros H. injection H as <- <- <-. split; [reflexivity|]. right. right.
    conjs; auto. right. right. left. eauto. }
  destruct (find valid _) eqn:F4.
  { intros H. injection H as <- <- <-. split; [reflexivity|]. right. right.
    conjs; auto. right. right. right. left. eexists. conjs; eauto. }
  intros H. injection H as <- <- <-. split; [reflexivity|]. right. right.
  conjs; auto. right. right. right. right. conjs; auto. discriminate.
Qed.

End CandidateSibling.


Ltac found H :=
  apply find_some in H; destruct H as [?Hin ?Hp]; cbv beta in Hp;
  repeat (apply andb_prop in Hp; destruct Hp as [Hp ?Hp]).



(** X10.  The order of preference of
    [GetCandidateSiblingOfIntermediateMaster]: whenever some valid sibling
    is a candidate, the sibling returned is a candidate; whenever some valid
    sibling is in the data center and environment of the failed instance,
    the sibling returned is a candidate or is in that data center and
    environment; and when one valid sibling is both, so is the one
    returned. *)
Theorem X10_candidate_sibling_preference (w : World) (im : Instance) (s : St)
    (sibling : Instance) (err : option Error) (s' : St) (x : Instance) :
  GetCandidateSiblingOfIntermediateMaster w im s = Returned (Some sibling, err) s' ->
  In x (siblingsOf w (trace s) im) ->
  isValidAsCandidateSiblingOfIntermediateMaster w im x = true ->
  (IsCandidate x = true -> IsCandidate sibling = true) /\
  (sameDCAndEnv x im = true ->
   IsCandidate sibling = true \/ sameDCAndEnv sibling im = true) /\
  (IsCandidate x = true -> sameDCAndEnv x im = true ->
   IsCandidate sibling = true /\ sameDCAndEnv sibling im = true).
Proof.
  intros H Hin Hv. apply GetCandidateSiblingOfIntermediateMaster_passes in H.
  cbv zeta in H. destruct H as [_ H].
  destruct H as [(e & _ & Hc & _)|[(_ & _ & Hc & _)|(_ & _ & H)]]; try discriminate.
  destruct H as [(y & Hy & _ & F)|[(y & Hy & _ & N1 & F)|[(y & Hy & _ & N2 & F)|
                 [(y & Hy & _ & N2 & N3 & F)|(Hc & _)]]]];
    try discriminate; injection Hy as <-;
    repeat match goal with
           | N : find _ _ = None |- _ =>
               eapply find_none in N; [|exact Hin]; cbv beta in N; rewrite Hv in N;
               cbn [andb] in N
           end;
    found F; conjs; intros; auto;
    repeat match goal with
           | A : ?b = true, N : context [?b] |- _ => rewrite A in N; cbn [andb] in N
           end;
    try congruence.
Qed.

Lemma X10_candidate_sibling_preference_witness :
  exists sibling s',
    GetCandidateSiblingOfIntermediateMaster SampleSiblings.siblingTopology
      SampleSiblings.intermediateMaster Sample.start = Returned (Some sibling, None) s' /\
    (IsCandidate sibling = true \/ sameDCAndEnv sibling SampleSiblings.intermediateMaster = true).
Proof.
  destruct (GetCandidateSiblingOfIntermediateMaster SampleSiblings.siblingTopology
              SampleSiblings.intermediateMaster Sample.start) as [| |[[sibling|] err] s'] eqn:E;
    try (vm_compute in E; discriminate).
  assert (He : err = None) by (vm_compute in E; injection E as _ <- _; reflexivity).
  subst err. exists sibling, s'. split; [reflexivity|].
  apply (X10_candidate_sibling_preference SampleSiblings.siblingTopology
           SampleSiblings.intermediateMaster Sample.start sibling None s'
           (Sample.replica Sample.keyS Sample.keyM "dc1") E).
  - vm_compute. auto.
  - reflexivity.
  - reflexivity.
Defined.

(** *** [SuggestReplacementForPromotedReplica] *)

Lemma pickLast_acc p l acc k :
  pickLast p l acc = Some k ->
  acc = Some k \/ exists x, In x l /\ p x = true /\ Key x = k.
Proof.
  unfold pickLast. revert acc. induction l as [|y l IH]; intros acc H; cbn in H.
  - left. exact H.
  - apply IH in H. destruct H as [H|(x & Hin & Hp & Hk)].
    + destruct (p y) eqn:Py.
      * right. exists y. injection H as <-. cbn. auto.
      * left. exact H.
    + right. exists x. cbn. auto.
Qed.

Lemma pickLast_Some p l k :
  pickLast p l None = Some k -> exists x, In x l /\ p x = true /\ Key x = k.
Proof.
  intros H. apply pickLast_acc in H. destruct H as [H|H]; [discriminate|exact H].
Qed.

Ltac ends_solve :=
  repeat first [apply endsWith_single | apply endsWith_cons | apply endsWith_app].

(** X11.  What [SuggestReplacementForPromotedReplica] answers: when it
    requires no action, the replacement is the promoted replica itself and
    there is no error; when it requires action, the replacement and the
    error are what [inst.ReadInstance] answered, last of all calls, for a
    key that is not the key of the promoted replica. *)
Theorem X11_suggestion_shape (cfg : Config) (w : World) (r : TopologyRecovery)
    (deadKey : InstanceKey) (promoted : Instance) (candidateKey : option InstanceKey)
    (s : St) (replacement : option Instance) (actionRequired : bool)
    (err : option Error) (s' : St) :
  SuggestReplacementForPromotedReplica cfg w r deadKey promoted candidateKey s
  = Returned (replacement, actionRequired, err) s' ->
  if actionRequired then
    exists l k found,
      trace s' = trace s ++ l /\
      endsWith l (CReadInstance k (replacement, found, err)) /\
      key_eqb (Key promoted) k = false
  else replacement = Some promoted /\ err = None.
Proof.
  intros Hrun.
  use_runs Hrun (fun (res : option Instance * bool * option Error) l =>
                   if snd (fst res) then
                     exists k found,
                       endsWith l (CReadInstance k (fst (fst res), found, snd res)) /\
                       key_eqb (Key promoted) k = false
                   else fst (fst res) = Some promoted /\ snd res = None).
  { unfold SuggestReplacementForPromotedReplica. cbv zeta.
    repeat runs_step; cbn [fst snd]; auto.
    all: eexists _, _; split; [ends_solve|assumption]. }
  cbn [fst snd] in HR. destruct actionRequired; [|exact HR].
  destruct HR as (k & found & He & Hk). eauto 6.
Qed.

Lemma X11_suggestion_shape_witness :
  exists s',
    SuggestReplacementForPromotedReplica Sample.config0 SampleCandidates.candidateTopology
      Sample.unsuccessful Sample.keyM SampleCandidates.promoted None Sample.start
    = Returned (Some SampleCandidates.candidate, true, None) s' /\
    exists l k found,
      trace s' = trace Sample.start ++ l /\
      endsWith l (CReadInstance k (Some SampleCandidates.candidate, found, None)) /\
      key_eqb Sample.keyR2 k = false.
Proof.
  destruct (SuggestReplacementForPromotedReplica Sample.config0 SampleCandidates.candidateTopology
              Sample.unsuccessful Sample.keyM SampleCandidates.promoted None Sample.start)
    as [| |[[replacement actionRequired] err] s'] eqn:E;
    try (vm_compute in E; discriminate).
  assert (H : replacement = Some SampleCandidates.candidate /\ actionRequired = true /\ err = None).
  { vm_compute in E. injection E as <- <- <- _. conjs; reflexivity. }
  destruct H as (-> & -> & ->).
  exists s'. split; [reflexivity|].
  exact (X11_suggestion_shape _ _ _ _ _ _ _ _ _ _ _ E).
Defined.

Lemma RemoveInstance_In x l k : In x (RemoveInstance l k) -> In x l.
Proof. unfold RemoveInstance. intros H. apply filter_In in H. tauto. Qed.

(** The key that a chain of searches ended with comes from one of them. *)
Ltac picked :=
  repeat
    match goal with
    | H : Some _ = Some _ |- _ => injection H as H; try subst
    | H : None = Some _ |- _ => discriminate H
    | H : match ?x with _ => _ end = Some _ |- _ => destruct x eqn:?; cbv iota in H
    | H : pickLast _ _ None = Some _ |- _ =>
        apply pickLast_Some in H; destruct H as (?x & ?Hin & ?Hp & ?Hk);
        apply andb_prop in Hp; destruct Hp as [?Hp _]
    | H : In _ (RemoveInstance _ _) |- _ => apply RemoveInstance_In in H
    end.

(** X12.  A replacement that [SuggestReplacementForPromotedReplica] finds
    by itself can take over: when no candidate key is given and action is
    required, the key it reads the replacement from is the key of an
    instance that one of its reads of the cluster returned and that passes
    [canTakeOverPromotedServerAsMaster] for the promoted replica. *)
Theorem X12_suggested_replacement_can_take_over (cfg : Config) (w : World)
    (r : TopologyRecovery) (deadKey : InstanceKey) (promoted : Instance) (s : St)
    (replacement : option Instance) (err : option Error) (s' : St) :
  SuggestReplacementForPromotedReplica cfg w r deadKey promoted None s
  = Returned (replacement, true, err) s' ->
  exists l x found,
    trace s' = trace s ++ l /\
    endsWith l (CReadInstance (Key x) (replacement, found, err)) /\
    wasRead x l /\
    canTakeOverPromotedServerAsMaster w x promoted = true.
Proof.
  intros Hrun.
  use_runs Hrun (fun (res : option Instance * bool * option Error) l =>
                   snd (fst res) = true ->
                   exists x found,
                     endsWith l (CReadInstance (Key x) (fst (fst res), found, snd res)) /\
                     wasRead x l /\
                     canTakeOverPromotedServerAsMaster w x promoted = true).
  { unfold SuggestReplacementForPromotedReplica. cbv zeta.
    repeat runs_step; cbn [fst snd]; try discriminate; intros _; picked;
      match goal with
      | Hk : Key ?x = ?k |- context [CReadInstance ?k (_, ?found, _)] =>
          exists x, found; rewrite Hk; conjs; [ends_solve| |assumption]
      end;
      first [ exists (ReadClusterCandidateInstances (ClusterName promoted)); eexists _, _;
              split; [left; reflexivity|eassumption]
            | exists (ReadClusterNeutralPromotionRuleInstances (ClusterName promoted));
              eexists _, _; split; [right; right; left; reflexivity|eassumption] ]. }
  destruct (HR eq_refl) as (x & found & He & Hr & Hc). eauto 8.
Qed.

Lemma X12_suggested_replacement_can_take_over_witness :
  exists replacement err s',
    SuggestReplacementForPromotedReplica Sample.config0 SampleCandidates.candidateTopology
      Sample.unsuccessful Sample.keyM SampleCandidates.promoted None Sample.start
    = Returned (replacement, true, err) s' /\
    exists l x found,
      trace s' = trace Sample.start ++ l /\
      endsWith l (CReadInstance (Key x) (replacement, found, err)) /\
      wasRead x l /\
      canTakeOverPromotedServerAsMaster SampleCandidates.candidateTopology x SampleCandidates.promoted = true.
Proof.
  destruct (SuggestReplacementForPromotedReplica Sample.config0 SampleCandidates.candidateTopology
              Sample.unsuccessful Sample.keyM SampleCandidates.promoted None Sample.start)
    as [| |[[replacement actionRequired] err] s'] eqn:E;
    try (vm_compute in E; discriminate).
  assert (H : actionRequired = true).
  { vm_compute in E. injection E as _ <- _ _. reflexivity. }
  subst actionRequired.
  exists replacement, err, s'. split; [reflexivity|].
  exact (X12_suggested_replacement_can_take_over _ _ _ _ _ _ _ _ _ E).
Defined.

(** X13.  A candidate key that the caller gives is not second-guessed by
    [SuggestReplacementForPromotedReplica]: if it is the key of the promoted
    replica, the promoted replica is kept and no action is required; if
    not, action is required and the replacement is what [inst.ReadInstance]
    answered for that very key. *)
Theorem X13_given_candidate_is_respected (cfg : Config) (w : World) (r : TopologyRecovery)
    (deadKey : InstanceKey) (promoted : Instance) (candidateKey : InstanceKey) (s : St)
    (res : option Instance * bool * option Error) (s' : St) :
  SuggestReplacementForPromotedReplica cfg w r deadKey promoted (Some candidateKey) s
  = Returned res s' ->
  if key_eqb (Key promoted) candidateKey then res = (Some promoted, false, None)
  else
    exists l found,
      trace s' = trace s ++ l /\
      endsWith l (CReadInstance candidateKey (fst (fst res), found, snd res)) /\
      snd (fst res) = true.
Proof.
  intros Hrun.
  use_runs Hrun (fun (res : option Instance * bool * option Error) l =>
                   if key_eqb (Key promoted) candidateKey
                   then res = (Some promoted, false, None)
                   else
                     exists found,
                       endsWith l (CReadInstance candidateKey (fst (fst res), found, snd res)) /\
                       snd (fst res) = true).
  { unfold SuggestReplacementForPromotedReplica. cbv zeta. cbn [isNil andb].
    repeat runs_step; cbn [Equals] in *;
      repeat match goal with
             | H : key_eqb (Key promoted) _ = _ |- _ => rewrite H
             | H : Some _ = Some _ |- _ => injection H as H; subst
             | H : None = Some _ |- _ => discriminate H
             end;
      try reflexivity; try congruence;
      cbn [fst snd]; (eexists; split; [ends_solve|reflexivity]). }
  destruct (key_eqb (Key promoted) candidateKey); [exact HR|].
  destruct HR as (found & He & Ha). eauto 6.
Qed.

Lemma X13_given_candidate_is_respected_witness :
  exists res s',
    SuggestReplacementForPromotedReplica Sample.config0 SampleCandidates.candidateTopology
      Sample.unsuccessful Sample.keyM SampleCandidates.promoted (Some Sample.keyR1) Sample.start
    = Returned res s' /\
    exists l found,
      trace s' = trace Sample.start ++ l /\
      endsWith l (CReadInstance Sample.keyR1 (fst (fst res), found, snd res)) /\
      snd (fst res) = true.
Proof.
  destruct (SuggestReplacementForPromotedReplica Sample.config0 SampleCandidates.candidateTopology
              Sample.unsuccessful Sample.keyM SampleCandidates.promoted (Some Sample.keyR1)
              Sample.start) as [| |res s'] eqn:E;
    try (vm_compute in E; discriminate).
  exists res, s'. split; [reflexivity|].
  exact (X13_given_candidate_is_respected _ _ _ _ _ _ _ _ _ E).
Defined.

(** *** [replacePromotedReplicaWithCandidate] *)

(** X14.  [replacePromotedReplicaWithCandidate] never returns a nil
    instance, and it hands back another instance than the promoted replica
    only in one way: the suggested candidate replicates from the promoted
    replica, [inst.TakeMaster] on it succeeded as the last call, the
    instance returned is the one [inst.TakeMaster] answered, there is no
    error, and relocating the other replicas below it has been postponed.
    In every other case the promoted replica is returned and the recovery
    is left as it was. *)
Theorem X14_replacement_only_by_take_master (cfg : Config) (w : World)
    (r : TopologyRecovery) (deadKey : InstanceKey) (promoted : Instance)
    (candidateKey : option InstanceKey) (s : St)
    (res : option Instance * option Error * TopologyRecovery) (s' : St) :
  replacePromotedReplicaWithCandidate cfg w r deadKey promoted candidateKey s
  = Returned res s' ->
  res = (Some promoted, snd (fst res), r) \/
  exists l candidate taken,
    trace s' = trace s ++ l /\
    key_eqb (MasterKey candidate) (Key promoted) = true /\
    endsWith l (CInst (TakeMaster (Key candidate)
                         match Type_ r with CoMasterRecovery => true | _ => false end)
                  (Some taken, None)) /\
    res = (Some taken, None,
           AddPostponedFunction r (RelocateReplicasBelow promoted taken)).
Proof.
  intros Hrun.
  use_runs Hrun (fun (res : option Instance * option Error * TopologyRecovery) l =>
                   res = (Some promoted, snd (fst res), r) \/
                   exists candidate taken,
                     key_eqb (MasterKey candidate) (Key promoted) = true /\
                     endsWith l (CInst (TakeMaster (Key candidate)
                                          match Type_ r with
                                          | CoMasterRecovery => true
                                          | _ => false
                                          end) (Some taken, None)) /\
                     res = (Some taken, None,
                            AddPostponedFunction r (RelocateReplicasBelow promoted taken))).
  { unfold replacePromotedReplicaWithCandidate.
    runs_auto; try (left; reflexivity).
    all: right; subst; eexists _, _; conjs; [eassumption|ends_solve|reflexivity]. }
  destruct HR as [HR|(candidate & taken & Hm & He & Hres)]; [left; exact HR|].
  right. eauto 8.
Qed.

Lemma X14_replacement_only_by_take_master_witness :
  exists res s',
    replacePromotedReplicaWithCandidate Sample.config0 SampleCandidates.candidateTopology
      Sample.unsuccessful Sample.keyM SampleCandidates.promoted None Sample.start
    = Returned res s' /\
    fst (fst res) = Some (Sample.replica Sample.keyR1 Sample.keyM "dc1") /\
    (res = (Some SampleCandidates.promoted, snd (fst res), Sample.unsuccessful) \/
     exists l candidate taken,
       trace s' = trace Sample.start ++ l /\
       key_eqb (MasterKey candidate) (Key SampleCandidates.promoted) = true /\
       endsWith l (CInst (TakeMaster (Key candidate) false) (Some taken, None)) /\
       res = (Some taken, None,
              AddPostponedFunction Sample.unsuccessful
                (RelocateReplicasBelow SampleCandidates.promoted taken))).
Proof.
  destruct (replacePromotedReplicaWithCandidate Sample.config0 SampleCandidates.candidateTopology
              Sample.unsuccessful Sample.keyM SampleCandidates.promoted None Sample.start)
    as [| |res s'] eqn:E;
    try (vm_compute in E; discriminate).
  exists res, s'. split; [reflexivity|]. split.
  - vm_compute in E. injection E as <- _. reflexivity.
  - exact (X14_replacement_only_by_take_master _ _ _ _ _ _ _ _ _ E).
Defined.

(** ** The recovery record only grows *)

Lemma extends_refl {A} (l : list A) : extends l l.
Proof. exists []. now rewrite app_nil_r. Qed.

Lemma extends_trans {A} (a b c : list A) : extends a b -> extends b c -> extends a c.
Proof. intros [t ->] [u ->]. exists (t ++ u). now rewrite app_assoc. Qed.

Lemma extends_app {A} (l t : list A) : extends l (l ++ t).
Proof. exists t. reflexivity. Qed.

Lemma extends_In {A} (l l' : list A) x : extends l l' -> In x l -> In x l'.
Proof. intros [t ->] H. apply in_or_app. auto. Qed.

Lemma grows_refl r : grows r r.
Proof. split; apply extends_refl. Qed.

Lemma grows_trans a b c : grows a b -> grows b c -> grows a c.
Proof. intros [H1 H2] [H3 H4]. split; eapply extends_trans; eauto. Qed.

Lemma grows_AddError a b e : grows a b -> grows a (AddError b e).
Proof.
  intros H. eapply grows_trans; [exact H|]. destruct e; cbn; [|apply grows_refl].
  split; cbn; [apply extends_app|apply extends_refl].
Qed.

Lemma grows_AddErrors a b es : grows a b -> grows a (AddErrors b es).
Proof.
  unfold AddErrors. revert b.
  induction es as [|e es IH]; intros b H; cbn [fold_left]; [exact H|].
  apply IH. apply grows_AddError. exact H.
Qed.

Lemma grows_AddPostponedFunction a b f : grows a b -> grows a (AddPostponedFunction b f).
Proof.
  intros H. eapply grows_trans; [exact H|].
  split; cbn; [apply extends_refl|apply extends_app].
Qed.

Lemma grows_set_Participating a b m : grows a b -> grows a (set_Participating b m).
Proof. intros H. exact H. Qed.

Lemma grows_set_Type a b t : grows a b -> grows a (set_Type b t).
Proof. intros H. exact H. Qed.

Lemma grows_set_RecoveryType a b t : grows a b -> grows a (set_RecoveryType b t).
Proof. intros H. exact H. Qed.

Lemma grows_set_LostReplicas a b m : grows a b -> grows a (set_LostReplicas b m).
Proof. intros H. exact H. Qed.

Lemma grows_set_Successor a b k alias : grows a b -> grows a (set_Successor b k alias).
Proof. intros H. exact H. Qed.

Lemma grows_set_IsSuccessful a b v : grows a b -> grows a (set_IsSuccessful b v).
Proof. intros H. exact H. Qed.

Lemma grows_addRegroupPostponed a b labels :
  grows a b -> grows a (addRegroupPostponed b labels).
Proof.
  unfold addRegroupPostponed. revert b.
  induction labels as [|l labels IH]; intros b H; cbn [fold_left]; [exact H|].
  apply IH. apply grows_AddPostponedFunction. exact H.
Qed.

Lemma grows_postponeBinlogServers a b i l bls p :
  grows a b -> grows a (postponeBinlogServers i l bls p b).
Proof.
  revert i b. induction l as [|x l IH]; intros i b H; cbn [postponeBinlogServers];
    [exact H|].
  destruct (Nat.leb maxBinlogServersToPromote i); [exact H|].
  apply IH. apply grows_AddPostponedFunction. exact H.
Qed.

Lemma grows_if a (b : bool) x y : grows a x -> grows a y -> grows a (if b then x else y).
Proof. destruct b; auto. Qed.

Lemma grows_resolvedRecord a b successor : grows a b -> grows a (resolvedRecord b successor).
Proof. intros H. destruct successor; exact H. Qed.

Lemma grows_set_AllErrors_app a b t :
  grows a b -> grows a (set_AllErrors b (AllErrors b ++ t)).
Proof.
  intros H. eapply grows_trans; [exact H|].
  split; cbn; [apply extends_app|apply extends_refl].
Qed.

Lemma grows_In a b e : In e (AllErrors a) -> grows a b -> In e (AllErrors b).
Proof. intros H [G _]. eapply extends_In; eauto. Qed.

Lemma In_AddError r e : In e (AllErrors (AddError r (Some e))).
Proof. cbn. apply in_or_app. right. left. reflexivity. Qed.

Create HintDb growth.

#[export] Hint Resolve grows_refl grows_AddError grows_AddErrors grows_AddPostponedFunction
  grows_set_Participating grows_set_Type grows_set_RecoveryType grows_set_LostReplicas
  grows_set_Successor grows_set_IsSuccessful grows_addRegroupPostponed
  grows_postponeBinlogServers grows_if grows_resolvedRecord grows_set_AllErrors_app : growth.

(** What is known of later records is brought back to the first one. *)
Ltac grows_chain :=
  repeat
    match goal with
    | H : grows ?x ?t |- context [grows ?r _] =>
        lazymatch x with r => fail | _ => idtac end;
        let H' := fresh "Hgrows" in
        assert (H' : grows r t)
          by (eapply grows_trans; [|exact H]; eauto 12 with growth);
        clear H
    end.

Ltac grows_done :=
  cbn beta iota; try exact I;
  try (unfold recordOf in *; cbn [snd fst] in *; pair_inv; grows_chain;
       solve [eauto 12 with growth]).

Ltac growing := repeat ensures_step; grows_done.

Section Growth.

Variable cfg : Config.
Variable w : World.

Lemma replacePromotedReplicaWithCandidate_grows r deadKey promoted candidateKey :
  ensures anyCall (fun x => grows r (recordOf x))
    (replacePromotedReplicaWithCandidate cfg w r deadKey promoted candidateKey).
Proof.
  unfold replacePromotedReplicaWithCandidate.
  eapply ensures_bind;
    [eapply relax_anyCall; apply SuggestReplacementForPromotedReplica_frame|].
  intros [[c a] e] _. growing.
Qed.

Lemma recoverDeadMasterInBinlogServerTopology_grows r :
  ensures anyCall (fun x => grows r (recordOf x))
    (recoverDeadMasterInBinlogServerTopology w r).
Proof.
  unfold recoverDeadMasterInBinlogServerTopology. repeat ensures_step; grows_done.
  eapply ensures_bind with (Q1 := anyTrue).
  - eapply relax_anyCall.
    repeat (apply onReplica_frame; [intros; exact I|intros]).
    apply ensures_ret. exact I.
  - intros [p' e'] _. growing.
Qed.

Hint Resolve relax_anyCall replacePromotedReplicaWithCandidate_grows
  recoverDeadMasterInBinlogServerTopology_grows : frames.

Lemma recoverDeadMaster_records r candidateKey skip :
  ensures anyCall
    (fun x => grows r (recordOf x) /\
              forall e, snd (fst x) = Some e -> In e (AllErrors (recordOf x)))
    (recoverDeadMaster cfg w r candidateKey skip).
Proof.
  unfold recoverDeadMaster. repeat ensures_step.
  all: cbn beta iota; unfold recordOf in *; cbn [snd fst] in *; pair_inv; grows_chain.
  all: split; [solve [eauto 12 with growth]|].
  all: intros e' He'; try discriminate He'.
  all: try (injection He' as He'); try rewrite He'; try subst.
  all: try (eapply grows_In; [apply In_AddError | solve [eauto 12 with growth]]).
Qed.

Lemma resolveRecovery_grows r p :
  ensures anyCall (fun x => grows r (recordOf x)) (resolveRecovery w r p).
Proof. unfold resolveRecovery. destruct p; growing. Qed.

Lemma relocateReplicasToCandidateSibling_grows k candidate st :
  ensures anyCall (fun st' => grows (im_recovery st) (im_recovery st'))
    (relocateReplicasToCandidateSibling w k candidate st).
Proof. unfold relocateReplicasToCandidateSibling. growing. Qed.

Lemma regroupUnderLocalReplica_grows k st :
  ensures anyCall (fun st' => grows (im_recovery st) (im_recovery st'))
    (regroupUnderLocalReplica w k st).
Proof. unfold regroupUnderLocalReplica. growing. Qed.

Lemma relocateUp_grows a st :
  ensures anyCall (fun st' => grows (im_recovery st) (im_recovery st'))
    (relocateUp w a st).
Proof. unfold relocateUp. growing. Qed.

Hint Resolve resolveRecovery_grows relocateReplicasToCandidateSibling_grows
  regroupUnderLocalReplica_grows relocateUp_grows : frames.

Ltac records_done :=
  cbn beta iota; unfold recordOf in *; cbn [snd fst im_recovery] in *; pair_inv;
  grows_chain;
  (split; [solve [eauto 12 with growth]|]);
  let e := fresh "e" in
  let He := fresh "He" in
  intros e He; try discriminate He;
  try (injection He as He); try rewrite He; try subst;
  try (eapply grows_In; [apply In_AddError | solve [eauto 12 with growth]]).

Lemma RecoverDeadIntermediateMaster_records r skip :
  ensures anyCall
    (fun x => grows r (recordOf x) /\
              forall e, snd (fst x) = Some e -> In e (AllErrors (recordOf x)))
    (RecoverDeadIntermediateMaster cfg w r skip).
Proof. unfold RecoverDeadIntermediateMaster. repeat ensures_step; records_done. Qed.

Lemma RecoverDeadCoMaster_records r skip :
  ensures anyCall
    (fun x => grows r (recordOf x) /\
              forall e, snd (fst x) = Some e ->
                        In e (AllErrors (recordOf x)) \/
                        DelayMasterPromotionIfSQLThreadNotUpToDate cfg = true)
    (RecoverDeadCoMaster cfg w r skip).
Proof.
  unfold RecoverDeadCoMaster. repeat ensures_step.
  all: cbn beta iota; unfold recordOf in *; cbn [snd fst] in *; pair_inv; grows_chain.
  all: split; [solve [eauto 12 with growth]|].
  all: intros e' He'; try discriminate He'.
  all: try (injection He' as He'); try rewrite He'; try subst.
  all: first [ left; eapply grows_In; [apply In_AddError | solve [eauto 12 with growth]]
             | right; reflexivity
             | idtac ].
Qed.

End Growth.

(** X15.  [recoverDeadMaster] only adds to the errors and to the postponed
    functions of the recovery it is given, and the error it returns is
    among the errors of the recovery it hands back. *)
Theorem X15_dead_master_error_is_recorded (cfg : Config) (w : World)
    (r : TopologyRecovery) (candidateKey : option InstanceKey) (skip : bool) (s : St)
    (promoted : option Instance) (lost : list Instance) (err : option Error)
    (r' : TopologyRecovery) (s' : St) :
  recoverDeadMaster cfg w r candidateKey skip s = Returned (promoted, lost, err, r') s' ->
  grows r r' /\ forall e, err = Some e -> In e (AllErrors r').
Proof.
  intros Hrun.
  destruct (recoverDeadMaster_records cfg w r candidateKey skip _ _ _ Hrun)
    as (l & _ & H & _).
  exact H.
Qed.

Lemma X15_dead_master_error_is_recorded_witness :
  exists lost r' s',
    recoverDeadMaster (Sample.hooks ["pre-hook"%string] []) SampleHooks.failingHooks
      Sample.unsuccessful None false Sample.start
    = Returned (None, lost, Some "exit status 1"%string, r') s' /\
    grows Sample.unsuccessful r' /\ In "exit status 1"%string (AllErrors r').
Proof.
  destruct (recoverDeadMaster (Sample.hooks ["pre-hook"%string] []) SampleHooks.failingHooks
              Sample.unsuccessful None false Sample.start)
    as [| |[[[promoted lost] err] r'] s'] eqn:E;
    try (vm_compute in E; discriminate).
  assert (H : promoted = None /\ err = Some "exit status 1"%string).
  { vm_compute in E. injection E as <- _ <- _ _. split; reflexivity. }
  destruct H as [-> ->].
  destruct (X15_dead_master_error_is_recorded _ _ _ _ _ _ _ _ _ _ _ E) as [Hg He].
  exists lost, r', s'. conjs; auto.
Defined.

(** X16.  [RecoverDeadIntermediateMaster] only adds to the errors and to
    the postponed functions of the recovery it is given, and the error it
    returns is among the errors of the recovery it hands back. *)
Theorem X16_intermediate_master_error_is_recorded (cfg : Config) (w : World)
    (r : TopologyRecovery) (skip : bool) (s : St)
    (successor : option Instance) (err : option Error)
    (r' : TopologyRecovery) (s' : St) :
  RecoverDeadIntermediateMaster cfg w r skip s = Returned (successor, err, r') s' ->
  grows r r' /\ forall e, err = Some e -> In e (AllErrors r').
Proof.
  intros Hrun.
  destruct (RecoverDeadIntermediateMaster_records cfg w r skip _ _ _ Hrun)
    as (l & _ & H & _).
  exact H.
Qed.

Lemma X16_intermediate_master_error_is_recorded_witness :
  exists r' s',
    RecoverDeadIntermediateMaster (Sample.hooks ["pre-hook"%string] [])
      SampleHooks.failingHooks Sample.unsuccessful false Sample.start
    = Returned (None, Some "exit status 1"%string, r') s' /\
    grows Sample.unsuccessful r' /\ In "exit status 1"%string (AllErrors r').
Proof.
  destruct (RecoverDeadIntermediateMaster (Sample.hooks ["pre-hook"%string] [])
              SampleHooks.failingHooks Sample.unsuccessful false Sample.start)
    as [| |[[successor err] r'] s'] eqn:E;
    try (vm_compute in E; discriminate).
  assert (H : successor = None /\ err = Some "exit status 1"%string).
  { vm_compute in E. injection E as <- <- _ _. split; reflexivity. }
  destruct H as [-> ->].
  destruct (X16_intermediate_master_error_is_recorded _ _ _ _ _ _ _ _ _ E) as [Hg He].
  exists r', s'. conjs; auto.
Defined.

(** X17.  [RecoverDeadCoMaster] only adds to the errors and to the
    postponed functions of the recovery it is given.  The error it returns
    is among the errors of the recovery it hands back, except under
    [DelayMasterPromotionIfSQLThreadNotUpToDate], where the error of the
    wait is returned without being recorded. *)
Theorem X17_co_master_error_is_recorded (cfg : Config) (w : World)
    (r : TopologyRecovery) (skip : bool) (s : St)
    (promoted : option Instance) (lost : list Instance) (err : option Error)
    (r' : TopologyRecovery) (s' : St) :
  RecoverDeadCoMaster cfg w r skip s = Returned (promoted, lost, err, r') s' ->
  grows r r' /\
  (DelayMasterPromotionIfSQLThreadNotUpToDate cfg = false ->
   forall e, err = Some e -> In e (AllErrors r')).
Proof.
  intros Hrun.
  destruct (RecoverDeadCoMaster_records cfg w r skip _ _ _ Hrun)
    as (l & _ & [Hg He] & _).
  split; [exact Hg|]. intros Hd e Herr.
  destruct (He e Herr) as [H|H]; [exact H|congruence].
Qed.

Lemma X17_co_master_error_is_recorded_witness :
  exists e r' s',
    RecoverDeadCoMaster Sample.config0 Sample.quiet Sample.unsuccessful false Sample.start
    = Returned (None, [], Some e, r') s' /\
    grows Sample.unsuccessful r' /\ In e (AllErrors r').
Proof.
  destruct (RecoverDeadCoMaster Sample.config0 Sample.quiet Sample.unsuccessful false
              Sample.start)
    as [| |[[[promoted lost] [e|]] r'] s'] eqn:E;
    try (vm_compute in E; discriminate).
  assert (H : promoted = None /\ lost = []).
  { vm_compute in E. injection E as <- <- _ _ _. split; reflexivity. }
  destruct H as [-> ->].
  destruct (X17_co_master_error_is_recorded _ _ _ _ _ _ _ _ _ _ E) as [Hg He].
  exists e, r', s'. conjs; auto.
Defined.

(** ** Operator-driven paths *)

Section AnyCall.

Variable cfg : Config.
Variable w : World.

Hint Resolve relax_anyCall : frames.

Lemma applyCheckAndRecoverFunction_any f a cand force skip :
  ensures anyCall anyTrue (applyCheckAndRecoverFunction cfg w f a cand force skip).
Proof.
  destruct f; cbn [applyCheckAndRecoverFunction];
    try (eapply ensures_any; eauto with frames; fail).
  unfold checkAndRecoverGenericProblem. apply ensures_ret. exact I.
Qed.

Hint Resolve applyCheckAndRecoverFunction_any : frames.

Lemma executeCheckAndRecoverFunction_any a cand force skip :
  ensures anyCall anyTrue (executeCheckAndRecoverFunction cfg w a cand force skip).
Proof. unfold executeCheckAndRecoverFunction. frame. Qed.

End AnyCall.

(** What [forcedResult] makes of the result of a forced recovery. *)
Lemma forcedResult_shape x :
  match fst (forcedResult x) with
  | Some r => snd (forcedResult x) = None /\ SuccessorKey r <> None /\ x = (true, Some r, None)
  | None => snd (forcedResult x) <> None
  end.
Proof.
  destruct x as [[attempted [r|]] [e|]]; cbn; try discriminate;
    destruct attempted; cbn; try discriminate.
  destruct (SuccessorKey r) eqn:E; cbn; [|discriminate].
  conjs; auto. rewrite E. discriminate.
Qed.

Lemma forcedResult_forcedShape x : forcedShape (forcedResult x).
Proof.
  unfold forcedShape. pose proof (forcedResult_shape x) as H.
  destruct (fst (forcedResult x)); tauto.
Qed.

(** X18.  [ForceMasterFailover] hands back either a recovery or an error,
    never both and never neither, and a recovery it hands back has a
    successor. *)
Theorem X18_force_master_failover_result (cfg : Config) (w : World) (clusterName : string)
    (s : St) (res : option TopologyRecovery * option Error) (s' : St) :
  ForceMasterFailover cfg w clusterName s = Returned res s' ->
  forcedShape res.
Proof.
  intros Hrun.
  use_runs Hrun (fun (res : option TopologyRecovery * option Error) (l : Trace) =>
                   forcedShape res).
  { unfold ForceMasterFailover, ForceExecuteRecovery.
    repeat first
      [ runs_step
      | lazymatch goal with
        | |- runs (bind (forceAnalysisEntry _ _ _ _ _) _) _ =>
            eapply ensures_then; [apply forceAnalysisEntry_frame|cbn beta; intros ? ? ? ?]
        | |- runs (bind (executeCheckAndRecoverFunction _ _ _ _ _ _) _) _ =>
            eapply ensures_then;
            [apply executeCheckAndRecoverFunction_any|cbn beta; intros ? ? ? ?]
        end ];
      try apply forcedResult_forcedShape; unfold forcedShape; cbn; discriminate. }
  exact HR.
Qed.

Lemma X18_force_master_failover_result_witness :
  exists r s',
    ForceMasterFailover Sample.config0 SampleForce.forceTopology "cluster1" Sample.start
    = Returned (Some r, None) s' /\
    forcedShape (Some r, None) /\ SuccessorKey r = Some Sample.keyR1.
Proof.
  destruct (ForceMasterFailover Sample.config0 SampleForce.forceTopology "cluster1" Sample.start)
    as [| |[[r|] [e|]] s'] eqn:E;
    try (vm_compute in E; discriminate).
  exists r, s'. split; [reflexivity|]. split.
  - exact (X18_force_master_failover_result _ _ _ _ _ _ E).
  - vm_compute in E. injection E as <- _. reflexivity.
Defined.

(** X19.  [ForceMasterTakeover] first reads the writeable master of the
    cluster.  It hands back a recovery only if exactly one master was read
    without error and the destination replicates from it directly; the
    recovery then has a successor and there is no error.  Otherwise it
    hands back an error, and when the read did not give one master with the
    destination directly below it, the read is the only call it makes. *)
Theorem X19_force_master_takeover_direct_child (cfg : Config) (w : World)
    (clusterName : string) (destination : Instance) (s : St)
    (res : option TopologyRecovery * option Error) (s' : St) :
  ForceMasterTakeover cfg w clusterName destination s = Returned res s' ->
  let answer := readOp w (trace s) (ReadClusterWriteableMaster clusterName) in
  let directChild :=
    exists m, answer = ([m], None) /\ key_eqb (MasterKey destination) (Key m) = true in
  exists l,
    trace s' = trace s ++ CRead (ReadClusterWriteableMaster clusterName) answer :: l /\
    forcedShape res /\
    (fst res <> None -> directChild) /\
    (~ directChild -> l = []).
Proof.
  intros Hrun answer directChild.
  unfold ForceMasterTakeover, read_ in Hrun. unfold bind at 1, call in Hrun.
  cbv zeta in Hrun. fold answer in Hrun.
  set (s1 := mkSt _ _) in Hrun.
  assert (Hnot : forall e, s' = s1 -> res = (None, Some e) ->
                           exists l, trace s' = trace s ++ CRead (ReadClusterWriteableMaster
                                                                 clusterName) answer :: l /\
                                     forcedShape res /\
                                     (fst res <> None -> directChild) /\
                                     (~ directChild -> l = [])).
  { intros e -> ->. exists []. conjs; auto.
    - unfold forcedShape. cbn. discriminate.
    - cbn. congruence. }
  destruct answer as [[|m [|m2 ms]] [e|]] eqn:Ea; cbn beta iota in Hrun;
    try (injection Hrun as <- <-; eapply Hnot; reflexivity).
  unfold Equals in Hrun.
  destruct (key_eqb (MasterKey destination) (Key m)) eqn:Ek; cbn [negb] in Hrun;
    cbv iota in Hrun;
    [|injection Hrun as <- <-; eapply Hnot; reflexivity].
  clear Hnot.
  use_runs Hrun (fun (res : option TopologyRecovery * option Error) (l : Trace) =>
                   forcedShape res).
  { unfold ForceExecuteRecovery.
    repeat first
      [ runs_step
      | lazymatch goal with
        | |- runs (bind (forceAnalysisEntry _ _ _ _ _) _) _ =>
            eapply ensures_then; [apply forceAnalysisEntry_frame|cbn beta; intros ? ? ? ?]
        | |- runs (bind (executeCheckAndRecoverFunction _ _ _ _ _ _) _) _ =>
            eapply ensures_then;
            [apply executeCheckAndRecoverFunction_any|cbn beta; intros ? ? ? ?]
        end ];
      try apply forcedResult_forcedShape; unfold forcedShape; cbn; discriminate. }
  exists l. conjs.
  - rewrite Ht. subst s1. cbn [trace]. now rewrite <- app_assoc.
  - exact HR.
  - intros _. exists m. auto.
  - intros Hn. exfalso. apply Hn. exists m. auto.
Qed.

Lemma X19_force_master_takeover_direct_child_witness :
  exists e s',
    ForceMasterTakeover Sample.config0 SampleForce.forceTopology "cluster1"
      (Sample.replica Sample.keyS Sample.keyIM "dc1") Sample.start
    = Returned (None, Some e) s' /\
    trace s' = [CRead (ReadClusterWriteableMaster "cluster1") ([SampleForce.master], None)].
Proof.
  destruct (ForceMasterTakeover Sample.config0 SampleForce.forceTopology "cluster1"
              (Sample.replica Sample.keyS Sample.keyIM "dc1") Sample.start)
    as [| |[[r|] [e|]] s'] eqn:E;
    try (vm_compute in E; discriminate).
  exists e, s'. split; [reflexivity|].
  destruct (X19_force_master_takeover_direct_child _ _ _ _ _ _ _ E)
    as (l & Ht & _ & _ & Hl).
  rewrite Ht, Hl; [reflexivity|].
  intros (m & Hm & Hk). vm_compute in Hm. injection Hm as <-. vm_compute in Hk.
  discriminate Hk.
Defined.

(** ** What an executor reports and what it registered *)

Lemma UID_AddError r e : UID (AddError r e) = UID r.
Proof. destruct e; reflexivity. Qed.

Lemma AnalysisEntry_AddError r e : AnalysisEntry (AddError r e) = AnalysisEntry r.
Proof. destruct e; reflexivity. Qed.

Lemma UID_resolvedRecord r p : UID (resolvedRecord r p) = UID r.
Proof. destruct p; reflexivity. Qed.

Lemma AnalysisEntry_resolvedRecord r p :
  AnalysisEntry (resolvedRecord r p) = AnalysisEntry r.
Proof. destruct p; reflexivity. Qed.

Lemma sameOutcome_keeps r r' :
  sameOutcome r r' -> UID r' = UID r /\ AnalysisEntry r' = AnalysisEntry r.
Proof. intros H. split; apply H. Qed.

(** The identity of a recovery record: its UID and its analysis entry. *)
Ltac identity_done :=
  unfold recordOf in *; cbn [snd fst im_recovery] in *; pair_inv;
  repeat match goal with
         | H : sameOutcome _ _ |- _ => apply sameOutcome_keeps in H; destruct H as [? ?]
         | H : _ /\ _ |- _ => destruct H as [? ?]
         end;
  subst;
  cbn [UID AnalysisEntry set_Type set_Successor set_LostReplicas set_IsSuccessful
         set_Participating] in *;
  rewrite ?UID_AddError, ?AnalysisEntry_AddError, ?UID_resolvedRecord,
    ?AnalysisEntry_resolvedRecord in *;
  cbn [UID AnalysisEntry set_Type set_Successor set_LostReplicas set_IsSuccessful
         set_Participating] in *;
  try (split; congruence); try congruence.

Section Identity.

Variable cfg : Config.
Variable w : World.

Lemma resolveRecovery_record r p :
  ensures anyCall (fun x => recordOf x = resolvedRecord r p) (resolveRecovery w r p).
Proof.
  eapply runs_weaken; [apply resolveRecovery_runs|].
  cbn beta. intros x l [Hx _]. split; [exact Hx|].
  apply Forall_forall. intros; exact I.
Qed.

Hint Resolve resolveRecovery_record relax_anyCall : frames.

Lemma RecoverDeadIntermediateMaster_identity r skip :
  ensures anyCall
    (fun x => UID (recordOf x) = UID r /\ AnalysisEntry (recordOf x) = AnalysisEntry r)
    (RecoverDeadIntermediateMaster cfg w r skip).
Proof.
  unfold RecoverDeadIntermediateMaster. repeat ensures_step; identity_done.
Qed.

End Identity.

(** What the dead-master and intermediate-master executors and the
    generic function report. *)
Lemma attempted_runs cfg w f a cand force skip :
  f <> FnDeadCoMaster ->
  runs (applyCheckAndRecoverFunction cfg w f a cand force skip)
    (fun res l =>
       if fst (fst res) then
         exists r0 r l',
           l = CWriteRecovery r0 :: l' /\ snd (fst res) = Some r /\
           UID r = UID r0 /\ AnalysisEntry r = a /\ AnalysisEntry r0 = a
       else snd (fst res) = None /\ l = []).
Proof.
  intros Hf.
  destruct f; try congruence; cbn [applyCheckAndRecoverFunction];
    unfold checkAndRecoverDeadMaster, checkAndRecoverDeadIntermediateMaster,
      checkAndRecoverGenericProblem.
  all: repeat first
         [ lazymatch goal with
           | |- runs (bind (AttemptRecoveryRegistration _ _ _ _ _) _) _ =>
               eapply runs_bind; [apply AttemptRecoveryRegistration_runs|];
               cbn beta; intros [[?r0|] ?e] ?l;
               cbn [fst snd]; intros (_ & ?Hreg)
           | |- runs (bind (resolveRecovery _ _ _) _) _ =>
               eapply ensures_then; [apply resolveRecovery_record|];
               cbn beta; intros ? ? ? ?
           | |- runs (bind (RecoverDeadIntermediateMaster _ _ _ _) _) _ =>
               eapply ensures_then; [apply RecoverDeadIntermediateMaster_identity|];
               cbn beta; intros ? ? ? ?
           end
         | runs_step
         | runs_hint ].
  all: cbn [fst snd]; try (split; [reflexivity|]; subst; reflexivity).
  all: destruct Hreg as (_ & Ha & _ & _ & l' & -> & _).
  all: exists r0; eexists _, _; split; [cbn [app]; reflexivity|].
  all: split; [reflexivity|]; identity_done; conjs; congruence.
Qed.

(** X20.  What [checkAndRecoverDeadMaster],
    [checkAndRecoverDeadIntermediateMaster] and
    [checkAndRecoverGenericProblem] report and what they did go together: a
    run that reports "not attempted" hands back no recovery and has called
    nothing at all; a run that reports "attempted" began by writing the
    registration of a recovery of this analysis, and hands back a recovery
    of the same UID and analysis. *)
Theorem X20_attempted_iff_registered (cfg : Config) (w : World)
    (f : CheckAndRecoverFunction) (a : ReplicationAnalysis) (cand : option InstanceKey)
    (force skip : bool) (s : St) (attempted : bool) (rec : option TopologyRecovery)
    (err : option Error) (s' : St) :
  f <> FnDeadCoMaster ->
  applyCheckAndRecoverFunction cfg w f a cand force skip s
  = Returned (attempted, rec, err) s' ->
  exists l,
    trace s' = trace s ++ l /\
    if attempted then
      exists r0 r l',
        l = CWriteRecovery r0 :: l' /\ rec = Some r /\
        UID r = UID r0 /\ AnalysisEntry r = a /\ AnalysisEntry r0 = a
    else rec = None /\ l = [].
Proof.
  intros Hf Hrun.
  destruct (attempted_runs cfg w f a cand force skip Hf _ _ _ Hrun) as (l & Ht & H).
  exists l. split; [exact Ht|exact H].
Qed.

Lemma X20_attempted_iff_registered_witness :
  exists rec err s',
    applyCheckAndRecoverFunction Sample.config0 Sample.quiet FnDeadMaster
      Sample.deadMaster None false false Sample.start = Returned (true, rec, err) s' /\
    exists l r0 r l',
      trace s' = trace Sample.start ++ l /\
      l = CWriteRecovery r0 :: l' /\ rec = Some r /\
      UID r = UID r0 /\ AnalysisEntry r = Sample.deadMaster.
Proof.
  destruct (applyCheckAndRecoverFunction Sample.config0 Sample.quiet FnDeadMaster
              Sample.deadMaster None false false Sample.start)
    as [| |[[attempted rec] err] s'] eqn:E;
    try (vm_compute in E; discriminate).
  assert (H : attempted = true) by (vm_compute in E; injection E as <- _ _ _; reflexivity).
  subst attempted.
  destruct (X20_attempted_iff_registered Sample.config0 Sample.quiet FnDeadMaster
              Sample.deadMaster None false false Sample.start true rec err s'
              ltac:(discriminate) E) as (l & Ht & r0 & r & l' & Hl & Hrec & Hu & Ha & _).
  exists rec, err, s'. split; [reflexivity|].
  exists l, r0, r, l'. conjs; auto.
Defined.

Lemma co_master_attempted_runs cfg w a cand force skip :
  runs (checkAndRecoverDeadCoMaster cfg w a cand force skip)
    (fun res l =>
       if fst (fst res) then
         exists r0 r l',
           l = CWriteRecovery r0 :: l' /\ snd (fst res) = Some r /\
           UID r = UID r0 /\ AnalysisEntry r = a
       else
         snd (fst res) = None /\
         (l = [] \/
          FailMasterPromotionIfSQLThreadNotUpToDate cfg = true /\
          exists r0 l' c rr,
            l = CWriteRecovery r0 :: l' ++ [c] /\ resolutionOf c = Some rr /\
            IsSuccessful rr = true /\ SuccessorKey rr <> None /\ UID rr = UID r0)).
Proof.
  unfold checkAndRecoverDeadCoMaster.
  repeat first
    [ lazymatch goal with
      | |- runs (bind (AttemptRecoveryRegistration _ _ _ _ _) _) _ =>
          eapply runs_bind; [apply AttemptRecoveryRegistration_runs|];
          cbn beta; intros [[?r0|] ?e] ?l;
          cbn [fst snd]; intros (_ & ?Hreg)
      | |- runs (bind (resolveRecovery _ _ _) _) _ =>
          eapply runs_bind; [apply resolveRecovery_runs|];
          cbn beta; intros [?e ?rr] ?l; cbn [fst snd]; intros (?Hrr & ?c & -> & ?Hc)
      end
    | runs_step
    | runs_hint ].
  all: cbn [fst snd]; try (split; [reflexivity|]; left; subst; reflexivity).
  all: destruct Hreg as (_ & Ha & _ & _ & l' & -> & _).
  all: try (exists r0; eexists _, _; split; [cbn [app]; reflexivity|];
            split; [reflexivity|]; identity_done; conjs; congruence).
  split; [reflexivity|]. right.
  apply andb_prop in Heqb0. destruct Heqb0 as [Hfail _]. split; [exact Hfail|].
  exists r0, (l' ++ CEffect (CounterInc "recover.dead_co_master.start") :: l1), c, rr.
  split.
  { cbn [app]. rewrite ?app_nil_r. f_equal. rewrite <- app_assoc. reflexivity. }
  apply sameOutcome_keeps in H. unfold recordOf in H. cbn [snd] in H.
  destruct H as [Hu _]. subst rr. cbn. conjs; auto. discriminate.
Qed.

(** X21.  [checkAndRecoverDeadCoMaster] also reports "attempted" only
    after it has written the registration of a recovery, whose UID and
    analysis the recovery it hands back has.  When it reports "not
    attempted" it hands back no recovery, and either it has called nothing,
    or [FailMasterPromotionIfSQLThreadNotUpToDate] is set and it has
    registered the recovery and, last of all, resolved it as successful
    with a successor. *)
Theorem X21_co_master_not_attempted_after_resolution (cfg : Config) (w : World)
    (a : ReplicationAnalysis) (cand : option InstanceKey)
    (force skip : bool) (s : St) (attempted : bool) (rec : option TopologyRecovery)
    (err : option Error) (s' : St) :
  checkAndRecoverDeadCoMaster cfg w a cand force skip s
  = Returned (attempted, rec, err) s' ->
  exists l,
    trace s' = trace s ++ l /\
    if attempted then
      exists r0 r l',
        l = CWriteRecovery r0 :: l' /\ rec = Some r /\
        UID r = UID r0 /\ AnalysisEntry r = a
    else
      rec = None /\
      (l = [] \/
       FailMasterPromotionIfSQLThreadNotUpToDate cfg = true /\
       exists r0 l' c rr,
         l = CWriteRecovery r0 :: l' ++ [c] /\ resolutionOf c = Some rr /\
         IsSuccessful rr = true /\ SuccessorKey rr <> None /\ UID rr = UID r0).
Proof.
  intros Hrun.
  destruct (co_master_attempted_runs cfg w a cand force skip _ _ _ Hrun) as (l & Ht & H).
  exists l. split; [exact Ht|exact H].
Qed.


Lemma X21_co_master_not_attempted_after_resolution_witness :
  exists err s',
    checkAndRecoverDeadCoMaster (Sample.knobs false true false false)
      SampleCoMaster.coMasterTopology SampleCoMaster.deadCoMaster None false false Sample.start
    = Returned (false, None, err) s' /\
    exists l r0 l' c rr,
      trace s' = trace Sample.start ++ l /\
      l = CWriteRecovery r0 :: l' ++ [c] /\ resolutionOf c = Some rr /\
      IsSuccessful rr = true /\ SuccessorKey rr <> None /\ UID rr = UID r0.
Proof.
  destruct (checkAndRecoverDeadCoMaster (Sample.knobs false true false false)
              SampleCoMaster.coMasterTopology SampleCoMaster.deadCoMaster None false false Sample.start)
    as [| |[[attempted rec] err] s'] eqn:E;
    try (vm_compute in E; discriminate).
  assert (H : attempted = false /\ rec = None).
  { vm_compute in E. injection E as <- <- _ _. split; reflexivity. }
  destruct H as [-> ->].
  destruct (X21_co_master_not_attempted_after_resolution _ _ _ _ _ _ _ _ _ _ _ E)
    as (l & Ht & _ & [Hl|(_ & r0 & l' & c & rr & H)]).
  - exfalso. subst l. vm_compute in E. injection E as _ Es. subst s'.
    cbn in Ht. discriminate Ht.
  - exists err, s'. split; [reflexivity|]. exists l, r0, l', c, rr. split; [exact Ht|exact H].
Defined.

(** *** [GracefulMasterTakeover] *)

Ltac forced_step :=
  lazymatch goal with
  | |- runs (bind (executeCheckAndRecoverFunction _ _ _ _ _ _) _) _ =>
      eapply ensures_then;
      [apply executeCheckAndRecoverFunction_any|cbn beta; intros ? ? ? ?]
  end.

(** X22.  [GracefulMasterTakeover] hands back a recovery only together
    with the coordinates of the promoted master, and only a recovery that
    has a successor; when it hands back no recovery it hands back no
    coordinates, and an error. *)
Theorem X22_graceful_takeover_result (cfg : Config) (w : World) (clusterName : string)
    (designatedKey : option InstanceKey) (s : St)
    (res : option TopologyRecovery * option BinlogCoordinates * option Error) (s' : St) :
  GracefulMasterTakeover cfg w clusterName designatedKey s = Returned res s' ->
  gracefulShape res.
Proof.
  intros Hrun.
  use_runs Hrun (fun (res : option TopologyRecovery * option BinlogCoordinates
                            * option Error) (l : Trace) => gracefulShape res).
  { unfold GracefulMasterTakeover, afterGracefulRecovery, ForceExecuteRecovery,
      graceful_fail.
    repeat first [runs_step | forced_step | runs_hint];
      unfold gracefulShape; cbn [fst snd]; try (split; [reflexivity|discriminate]).
    all: split; [congruence|discriminate]. }
  exact HR.
Qed.

Lemma X22_graceful_takeover_result_witness :
  exists r coordinates s',
    GracefulMasterTakeover Sample.config0 SampleForce.forceTopology "cluster1" None Sample.start
    = Returned (Some r, coordinates, None) s' /\
    gracefulShape (Some r, coordinates, None) /\ SuccessorKey r = Some Sample.keyR1.
Proof.
  destruct (GracefulMasterTakeover Sample.config0 SampleForce.forceTopology "cluster1" None
              Sample.start)
    as [| |[[[r|] coordinates] [e|]] s'] eqn:E;
    try (vm_compute in E; discriminate).
  exists r, coordinates, s'. split; [reflexivity|]. split.
  - exact (X22_graceful_takeover_result _ _ _ _ _ _ _ E).
  - vm_compute in E. injection E as <- _ _. reflexivity.
Defined.

Lemma hookOf_noWritable d c : hookOf d c -> noWritable c.
Proof. destruct c; cbn; intros H; try contradiction; reflexivity. Qed.

Lemma executeProcesses_noWritable cfg w processes description r failOnError :
  ensures noWritable anyTrue (executeProcesses cfg w processes description r failOnError).
Proof.
  eapply ensures_relax; [apply executeProcesses_hookOf|apply hookOf_noWritable].
Qed.

Section NoWritable.

Variable cfg : Config.
Variable w : World.

Hint Resolve executeProcesses_noWritable : frames.

Lemma getCheckAndRecoverFunction_noWritable code k :
  ensures noWritable anyTrue (getCheckAndRecoverFunction w code k).
Proof. unfold getCheckAndRecoverFunction. frame. Qed.

Lemma runEmergentOperations_noWritable a :
  ensures noWritable anyTrue (runEmergentOperations a).
Proof. unfold runEmergentOperations. frame. Qed.

Lemma checkAndExecuteFailureDetectionProcesses_noWritable a skip :
  ensures noWritable anyTrue (checkAndExecuteFailureDetectionProcesses cfg w a skip).
Proof. unfold checkAndExecuteFailureDetectionProcesses. frame. Qed.

Lemma forceAnalysisEntry_noWritable clusterName code hint k :
  ensures noWritable anyTrue (forceAnalysisEntry w clusterName code hint k).
Proof. unfold forceAnalysisEntry. frame. Qed.

(** An executor has registered a recovery, or has done nothing and
    reports "not attempted". *)
Lemma executor_registers f a cand force skip :
  runs (applyCheckAndRecoverFunction cfg w f a cand force skip)
    (fun res l => hasRegistration l \/ (fst (fst res) = false /\ l = [])).
Proof.
  assert (Hdec : f = FnDeadCoMaster \/ f <> FnDeadCoMaster)
    by (destruct f; auto; right; discriminate).
  destruct Hdec as [->|Hf].
  - eapply runs_weaken; [apply co_master_attempted_runs|].
    cbn beta. intros [[attempted rec] err] l. cbn [fst snd].
    destruct attempted.
    + intros (r0 & r & l' & -> & _). left. exists r0. left. reflexivity.
    + intros (_ & [->|(_ & r0 & l' & c & rr & -> & _)]); [right; auto|].
      left. exists r0. left. reflexivity.
  - eapply runs_weaken; [apply attempted_runs; exact Hf|].
    cbn beta. intros [[attempted rec] err] l. cbn [fst snd].
    destruct attempted.
    + intros (r0 & r & l' & -> & _). left. exists r0. left. reflexivity.
    + intros (_ & ->). right. auto.
Qed.

End NoWritable.

Lemma hasRegistration_app_l l1 l2 : hasRegistration l1 -> hasRegistration (l1 ++ l2).
Proof. intros [r H]. exists r. apply in_or_app. auto. Qed.

Lemma hasRegistration_app_r l1 l2 : hasRegistration l2 -> hasRegistration (l1 ++ l2).
Proof. intros [r H]. exists r. apply in_or_app. auto. Qed.

Lemma hasRegistration_cons c l : hasRegistration l -> hasRegistration (c :: l).
Proof. intros [r H]. exists r. right. exact H. Qed.

Ltac registered :=
  repeat first
    [ assumption
    | apply hasRegistration_cons
    | apply hasRegistration_app_l; assumption
    | apply hasRegistration_app_r ].

Ltac writable_solve :=
  repeat first
    [ apply Forall_nil
    | apply Forall_cons; [reflexivity|]
    | apply Forall_app; split
    | assumption ].

(** The dispatcher has registered a recovery, or reports "not attempted"
    and has set nothing writable. *)
Lemma dispatch_registers cfg w a cand force skip :
  runs (executeCheckAndRecoverFunction cfg w a cand force skip)
    (fun res l => hasRegistration l \/ (fst (fst res) = false /\ Forall noWritable l)).
Proof.
  unfold executeCheckAndRecoverFunction.
  repeat first
    [ lazymatch goal with
      | |- runs (bind (getCheckAndRecoverFunction _ _ _) _) _ =>
          eapply ensures_then; [apply getCheckAndRecoverFunction_noWritable|];
          cbn beta; intros ? ? ? ?
      | |- runs (bind (runEmergentOperations _) _) _ =>
          eapply ensures_then; [apply runEmergentOperations_noWritable|];
          cbn beta; intros ? ? ? ?
      | |- runs (bind (checkAndExecuteFailureDetectionProcesses _ _ _ _) _) _ =>
          eapply ensures_then;
          [apply checkAndExecuteFailureDetectionProcesses_noWritable|];
          cbn beta; intros ? ? ? ?
      | |- runs (bind (applyCheckAndRecoverFunction _ _ _ _ _ _ _) _) _ =>
          eapply runs_bind; [apply executor_registers|];
          cbn beta; intros [[?attempted ?rec] ?err] ?l; cbn [fst snd];
          intros [?Hreg|[-> ->]]
      end
    | runs_step
    | runs_hint ].
  all: cbn [fst snd negb] in *; try discriminate.
  all: try (right; split; [reflexivity|writable_solve]; fail).
  all: try (left; registered; fail).
Qed.

Lemma graceful_registers cfg w clusterName designatedKey :
  runs (GracefulMasterTakeover cfg w clusterName designatedKey)
    (fun res l => hasRegistration l \/ Forall noWritable l).
Proof.
  unfold GracefulMasterTakeover, afterGracefulRecovery, ForceExecuteRecovery,
    graceful_fail.
  repeat first
    [ lazymatch goal with
      | |- runs (bind (forceAnalysisEntry _ _ _ _ _) _) _ =>
          eapply ensures_then; [apply forceAnalysisEntry_noWritable|];
          cbn beta; intros ? ? ? ?
      | |- runs (bind (executeProcesses _ _ _ "PreGracefulTakeoverProcesses" _ _) _) _ =>
          eapply ensures_then; [apply executeProcesses_noWritable|];
          cbn beta; intros ? ? ? ?
      | |- runs (bind (executeCheckAndRecoverFunction _ _ _ _ _ _) _) _ =>
          eapply runs_bind; [apply dispatch_registers|];
          cbn beta; intros [[?attempted ?rec] ?err] ?l; cbn [fst snd];
          intros [?Hreg|[-> ?Hl]]
      end
    | runs_step
    | runs_hint ].
  all: cbn [fst snd negb] in *; try discriminate.
  all: try (right; writable_solve; fail).
  all: try (left; registered; fail).
Qed.

(** X23.  [GracefulMasterTakeover] sets an instance writable only in a run
    in which a recovery was registered.  In a run in which none was (the
    forced recovery was not attempted, as on a raft follower or during the
    emergency grace period of the master), a master that was set read-only
    is not set writable again. *)
Theorem X23_graceful_takeover_undoes_only_after_registration (cfg : Config) (w : World)
    (clusterName : string) (designatedKey : option InstanceKey) (s : St)
    (res : option TopologyRecovery * option BinlogCoordinates * option Error) (s' : St) :
  GracefulMasterTakeover cfg w clusterName designatedKey s = Returned res s' ->
  exists l,
    trace s' = trace s ++ l /\
    ((exists c, In c l /\ setsWritable c = true) -> hasRegistration l).
Proof.
  intros Hrun.
  destruct (graceful_registers cfg w clusterName designatedKey _ _ _ Hrun)
    as (l & Ht & [H|H]).
  - exists l. split; [exact Ht|]. intros _. exact H.
  - exists l. split; [exact Ht|]. intros (c & Hin & Hc).
    rewrite Forall_forall in H. apply H in Hin. unfold noWritable in Hin. congruence.
Qed.

Lemma X23_graceful_takeover_undoes_only_after_registration_witness :
  exists e s',
    GracefulMasterTakeover Sample.config0 (SampleNodes.raftNode SampleForce.forceTopology false)
      "cluster1" None Sample.start = Returned (None, None, Some e) s' /\
    (exists answer, In (CInst (SetReadOnly Sample.keyM true) answer) (trace s')) /\
    ~ (exists c, In c (trace s') /\ setsWritable c = true).
Proof.
  destruct (GracefulMasterTakeover Sample.config0
              (SampleNodes.raftNode SampleForce.forceTopology false) "cluster1" None Sample.start)
    as [| |[[[r|] coordinates] [e|]] s'] eqn:E;
    try (vm_compute in E; discriminate).
  destruct (X23_graceful_takeover_undoes_only_after_registration _ _ _ _ _ _ _ E)
    as (l & Ht & H).
  assert (Hc : coordinates = None) by (vm_compute in E; injection E as <- _ _; reflexivity).
  subst coordinates.
  exists e, s'. split; [reflexivity|].
  cbn [Sample.start trace app] in Ht. rewrite Ht.
  vm_compute in E. injection E as _ Es. rewrite <- Es in Ht. cbn [trace] in Ht.
  split.
  - rewrite <- Ht. eexists. in_solve.
  - intros Hw. apply H in Hw. destruct Hw as [r Hin]. rewrite <- Ht in Hin.
    cbn in Hin.
    repeat match goal with
           | H : _ \/ _ |- _ => destruct H as [H|H]; [discriminate H|]
           end.
    exact Hin.
Defined.

Lemma designated_found (l : list Instance) k acc d :
  fold_left (fun acc directReplica =>
               if Equals (Key directReplica) (Some k) then Some directReplica else acc)
    l acc = Some d ->
  acc = Some d \/ (In d l /\ key_eqb (Key d) k = true).
Proof.
  revert acc. induction l as [|x l IH]; intros acc H; cbn [fold_left] in H.
  - left. exact H.
  - apply IH in H. destruct H as [H|[Hin Hk]].
    + unfold Equals in H. destruct (key_eqb (Key x) k) eqn:Ek.
      * injection H as <-. right. split; [left; reflexivity|exact Ek].
      * left. exact H.
    + right. split; [right; exact Hin|exact Hk].
Qed.

Lemma graceful_designated cfg w clusterName designatedKey :
  runs (GracefulMasterTakeover cfg w clusterName designatedKey)
    (fun res l =>
       fst (fst res) <> None ->
       exists m replicas d l',
         l = CRead (ReadClusterMaster clusterName) ([m], None)
             :: CRead (ReadReplicaInstances (Key m)) (replicas, None) :: l' /\
         In d replicas /\
         IsBannedFromBeingCandidateReplica w d = false /\
         HasReasonableMaintenanceReplicationLag d = true /\
         match designatedKey with
         | Some k => if keyIsValid w k then key_eqb (Key d) k = true else replicas = [d]
         | None => replicas = [d]
         end).
Proof.
  unfold GracefulMasterTakeover, afterGracefulRecovery, ForceExecuteRecovery,
    graceful_fail.
  repeat first [runs_step | forced_step | runs_hint].
  all: cbn [fst snd]; try (intros Hne; exfalso; apply Hne; reflexivity).
  all: intros _; subst;
    repeat match goal with
           | H : negb _ = false |- _ => apply negb_false_iff in H
           end.
  all: match goal with
       | Hd : _ = inl (Some ?d) |- _ =>
           eexists _, _, d, _; split; [reflexivity|];
           destruct designatedKey as [k|]; [destruct (keyIsValid w k) eqn:Ev|];
           cbv beta iota in Hd
       end.
  all: try match goal with
           | Hd : match fold_left ?f ?l ?acc with _ => _ end = _ |- _ =>
               destruct (fold_left f l acc) as [found|] eqn:Ef; [|discriminate Hd];
               injection Hd as ->;
               apply designated_found in Ef; destruct Ef as [Ef|[Hin Hk]];
               [discriminate Ef|]
           end.
  all: try match goal with
           | Hd : inl (Some _) = inl (Some _) |- _ => injection Hd as ->
           end.
  all: try discriminate.
  all: conjs; auto; try (left; reflexivity).
Qed.

(** X24.  [GracefulMasterTakeover] hands back a recovery only for a
    designated instance that its checks accepted: the cluster had exactly
    one master, read first; the designated instance is one of the replicas
    read below that master, is not banned from promotion and has a
    reasonable replication lag; it is the replica of the given key when a
    valid key is given, and the only replica of the master otherwise. *)
Theorem X24_graceful_takeover_designated_instance (cfg : Config) (w : World)
    (clusterName : string) (designatedKey : option InstanceKey) (s : St)
    (r : TopologyRecovery) (coordinates : option BinlogCoordinates)
    (err : option Error) (s' : St) :
  GracefulMasterTakeover cfg w clusterName designatedKey s
  = Returned (Some r, coordinates, err) s' ->
  exists m replicas d l,
    trace s' = trace s
               ++ CRead (ReadClusterMaster clusterName) ([m], None)
                  :: CRead (ReadReplicaInstances (Key m)) (replicas, None) :: l /\
    In d replicas /\
    IsBannedFromBeingCandidateReplica w d = false /\
    HasReasonableMaintenanceReplicationLag d = true /\
    match designatedKey with
    | Some k => if keyIsValid w k then key_eqb (Key d) k = true else replicas = [d]
    | None => replicas = [d]
    end.
Proof.
  intros Hrun.
  destruct (graceful_designated cfg w clusterName designatedKey _ _ _ Hrun)
    as (l & Ht & H).
  cbn [fst snd] in H.
  destruct H as (m & replicas & d & l' & Hl & Hrest); [discriminate|].
  exists m, replicas, d, l'. split; [rewrite Ht, Hl; reflexivity|exact Hrest].
Qed.

Lemma X24_graceful_takeover_designated_instance_witness :
  exists r coordinates err s' m replicas d l,
    GracefulMasterTakeover Sample.config0 SampleForce.forceTopology "cluster1"
      (Some Sample.keyR1) Sample.start = Returned (Some r, coordinates, err) s' /\
    trace s' = trace Sample.start
               ++ CRead (ReadClusterMaster "cluster1") ([m], None)
                  :: CRead (ReadReplicaInstances (Key m)) (replicas, None) :: l /\
    In d replicas /\ key_eqb (Key d) Sample.keyR1 = true.
Proof.
  destruct (GracefulMasterTakeover Sample.config0 SampleForce.forceTopology "cluster1"
              (Some Sample.keyR1) Sample.start)
    as [| |[[[r|] coordinates] err] s'] eqn:E;
    try (vm_compute in E; discriminate).
  destruct (X24_graceful_takeover_designated_instance _ _ _ _ _ _ _ _ _ E)
    as (m & replicas & d & l & Ht & Hin & _ & _ & Hk).
  exists r, coordinates, err, s', m, replicas, d, l. conjs; auto.
Defined.

(** ** Forcing a failover during the emergency grace period *)

Lemma forceAnalysisEntry_forces w clusterName code hint k :
  ensures plain
    (fun x => snd x = None ->
              Analysis_ (fst x) = code /\ AnalyzedInstanceKey (fst x) = k /\
              CommandHint (fst x) = hint)
    (forceAnalysisEntry w clusterName code hint k).
Proof.
  unfold forceAnalysisEntry. repeat ensures_step; cbn [fst snd]; intros; try discriminate.
  conjs; reflexivity.
Qed.

(** The dispatcher on a dead master whose emergency grace period runs. *)
Lemma dispatch_in_grace_period cfg w a cand force skip :
  Analysis_ a = Analysis.DeadMaster ->
  (forall t, isInEmergencyOperationGracefulPeriod w t (AnalyzedInstanceKey a) = true) ->
  runs (executeCheckAndRecoverFunction cfg w a cand force skip)
    (fun res l => fst (fst res) = false /\ snd (fst res) = None /\ Forall leavesTable l).
Proof.
  intros Hcode Hgrace. unfold executeCheckAndRecoverFunction, getCheckAndRecoverFunction.
  rewrite Hcode. cbn [codeIn existsb]. change (String.eqb Analysis.DeadMaster
                                                 Analysis.DeadMaster) with true.
  cbn [orb]. apply runs_bind_assoc. apply runs_bind_ask_world. intros t.
  rewrite Hgrace. apply runs_bind_ret.
  cbn [applyCheckAndRecoverFunction]; unfold checkAndRecoverGenericProblem;
    runs_auto; cbn [fst snd negb]; conjs; auto; table_solve.
Qed.

(** X25.  A master failover forced during the emergency grace period of
    the master does not fail over: [ForceMasterFailover] forces the
    dead-master analysis on the master it read, [getCheckAndRecoverFunction]
    still routes it to the generic function, and the run hands back no
    recovery but an error, having neither registered nor resolved a
    recovery. *)
Theorem X25_forced_failover_in_grace_period (cfg : Config) (w : World)
    (clusterName : string) (m : Instance) (s : St)
    (res : option TopologyRecovery * option Error) (s' : St) :
  readOp w (trace s) (ReadClusterMaster clusterName) = ([m], None) ->
  (forall t, isInEmergencyOperationGracefulPeriod w t (Key m) = true) ->
  ForceMasterFailover cfg w clusterName s = Returned res s' ->
  fst res = None /\ snd res <> None /\
  exists l, trace s' = trace s ++ l /\ Forall leavesTable l.
Proof.
  intros Hread Hgrace Hrun.
  unfold ForceMasterFailover, read_ in Hrun. unfold bind at 1, call in Hrun.
  cbv zeta in Hrun. rewrite Hread in Hrun. cbv beta iota in Hrun.
  set (s1 := mkSt _ _) in Hrun.
  use_runs Hrun (fun (res : option TopologyRecovery * option Error) (l : Trace) =>
                   fst res = None /\ snd res <> None /\ Forall leavesTable l).
  { unfold ForceExecuteRecovery.
    eapply ensures_then; [apply forceAnalysisEntry_forces|].
    cbn beta. intros [a [e|]] l1 Ha Hl1; cbn [fst snd] in Ha.
    - apply runs_ret. cbn. conjs; auto; [discriminate|].
      rewrite app_nil_r. apply Forall_plain_leavesTable. exact Hl1.
    - destruct (Ha eq_refl) as (Hcode & Hkey & _).
      eapply runs_bind.
      + apply dispatch_in_grace_period; [exact Hcode|]. rewrite Hkey. exact Hgrace.
      + cbn beta. intros [[attempted rec] err] l2 (Hatt & Hrec & Hl2).
        cbn [fst snd] in Hatt, Hrec. subst attempted rec.
        apply runs_ret. destruct err as [e|]; cbn; conjs; auto; try discriminate;
          rewrite app_nil_r; apply Forall_app; split; auto;
          apply Forall_plain_leavesTable; exact Hl1. }
  destruct HR as (H1 & H2 & H3). conjs; auto.
  exists (CRead (ReadClusterMaster clusterName) ([m], None) :: l). split.
  - rewrite Ht. subst s1. cbn [trace]. now rewrite <- app_assoc.
  - apply Forall_cons; [split; reflexivity|exact H3].
Qed.

Lemma X25_forced_failover_in_grace_period_witness :
  exists s',
    ForceMasterFailover Sample.config0 (SampleGrace.inGracePeriod SampleForce.forceTopology)
      "cluster1" Sample.start
    = Returned (None, Some "Unexpected error: recovery not attempted. This should not happen"%string)
        s' /\
    exists l, trace s' = trace Sample.start ++ l /\ Forall leavesTable l.
Proof.
  destruct (ForceMasterFailover Sample.config0 (SampleGrace.inGracePeriod SampleForce.forceTopology)
              "cluster1" Sample.start) as [| |res s'] eqn:E;
    try (vm_compute in E; discriminate).
  destruct (X25_forced_failover_in_grace_period Sample.config0
              (SampleGrace.inGracePeriod SampleForce.forceTopology) "cluster1" SampleForce.master
              Sample.start res s' eq_refl (fun _ => eq_refl) E) as (_ & _ & H).
  exists s'. split; [|exact H].
  vm_compute in E. injection E as <- <-. reflexivity.
Defined.

(** ** The pre-failover hooks as a veto *)

Lemma runProcesses_veto cfg w processes description r :
  runs (runProcesses cfg w processes description r true None)
    (fun err l => Forall (hookOf description) l /\
                  (err = None -> Forall (fun c => failedHook c = false) l)).
Proof.
  induction processes as [|c rest IH]; cbn [runProcesses].
  - apply runs_ret. split; [constructor|]. intros _. constructor.
  - unfold CommandRun_. apply runs_bind_call. intros [e|].
    + apply runs_ret. split; [repeat constructor|]. discriminate.
    + eapply runs_weaken; [exact IH|]. cbn beta. intros err l [Hh Hs]. split.
      * constructor; [reflexivity|exact Hh].
      * intros He. constructor; [reflexivity|auto].
Qed.

Lemma executeProcesses_veto cfg w processes description r :
  runs (executeProcesses cfg w processes description r true)
    (fun err l => Forall (hookOf description) l /\
                  (err = None -> Forall (fun c => failedHook c = false) l)).
Proof.
  unfold executeProcesses. apply runs_bind_emit. destruct processes as [|c rest].
  - apply runs_ret. split; [repeat constructor|]. intros _. repeat constructor.
  - eapply runs_weaken; [apply runProcesses_veto|]. cbn beta. intros err l [Hh Hs]. split.
    + constructor; [reflexivity|exact Hh].
    + intros He. constructor; [reflexivity|auto].
Qed.

Lemma noHook_not_failed c : noHook c -> failedHook c = false.
Proof. destruct c; cbn; intros H; try reflexivity; discriminate H. Qed.

Lemma no_failed_hook l :
  Forall (fun c => failedHook c = false) l -> ~ (exists c, In c l /\ failedHook c = true).
Proof.
  intros H (c & Hin & Hc). rewrite Forall_forall in H. apply H in Hin. congruence.
Qed.

Lemma runs_of_ensures {A} (P : Call -> Prop) (m : M A) (R : A -> Trace -> Prop) :
  ensures P anyTrue m -> (forall a l, Forall P l -> R a l) -> runs m R.
Proof.
  intros H HR. eapply runs_weaken; [exact H|]. cbn beta. intros a l [_ Hl]. auto.
Qed.

Section Veto.

Variable cfg : Config.
Variable w : World.

Hint Resolve beginDowntimeAll_noHook replacePromotedReplicaWithCandidate_noHook
  recoverDeadMasterInBinlogServerTopology_noHook : frames.

Lemma recoverDeadMaster_veto r candidateKey skip :
  runs (recoverDeadMaster cfg w r candidateKey skip)
    (fun res l =>
       (exists c, In c l /\ failedHook c = true) ->
       Forall (hookOf "PreFailoverProcesses") l /\
       fst (fst (fst res)) = None /\ snd (fst (fst res)) = [] /\ snd (fst res) <> None).
Proof.
  destruct skip.
  { eapply runs_weaken; [apply recoverDeadMaster_noHook|]. cbn beta.
    intros res l [_ Hl] Hex. exfalso. revert Hex. apply no_failed_hook.
    eapply Forall_impl; [|exact Hl]. exact noHook_not_failed. }
  unfold recoverDeadMaster. cbn [negb]. cbv zeta.
  eapply runs_bind; [apply executeProcesses_veto|].
  cbn beta. intros [e|] l1 [Hh Hs].
  - apply runs_ret. intros _. rewrite app_nil_r. cbn. conjs; auto. discriminate.
  - specialize (Hs eq_refl). cbv beta iota.
    eapply runs_of_ensures with (P := noHook); [quiet|].
    intros res l2 Hl2 Hex. exfalso. revert Hex. apply no_failed_hook.
    apply Forall_app. split; [exact Hs|].
    eapply Forall_impl; [|exact Hl2]. exact noHook_not_failed.
Qed.

End Veto.

(** X26.  The pre-failover hooks are a veto on [recoverDeadMaster]: in a
    run in which a hook command failed, nothing but the hooks of
    [PreFailoverProcesses] was called (no regroup, no downtime, no
    replacement), no replica is promoted, no replica is lost, and an error
    is returned. *)
Theorem X26_failed_pre_hook_stops_dead_master_recovery (cfg : Config) (w : World)
    (r : TopologyRecovery) (candidateKey : option InstanceKey) (skip : bool) (s : St)
    (promoted : option Instance) (lost : list Instance) (err : option Error)
    (r' : TopologyRecovery) (s' : St) (l : Trace) (c : Call) :
  recoverDeadMaster cfg w r candidateKey skip s = Returned (promoted, lost, err, r') s' ->
  trace s' = trace s ++ l ->
  In c l -> failedHook c = true ->
  Forall (hookOf "PreFailoverProcesses") l /\
  promoted = None /\ lost = [] /\ err <> None.
Proof.
  intros Hrun Ht Hin Hc.
  destruct (recoverDeadMaster_veto cfg w r candidateKey skip _ _ _ Hrun) as (l0 & Ht0 & H).
  assert (l0 = l) by (rewrite Ht0 in Ht; apply app_inv_head in Ht; exact Ht).
  subst l0. cbn [fst snd] in H. apply H. exists c. auto.
Qed.

Lemma X26_failed_pre_hook_stops_dead_master_recovery_witness :
  exists lost err r' s',
    recoverDeadMaster (Sample.hooks ["pre-hook"%string] []) SampleHooks.failingHooks
      Sample.unsuccessful None false Sample.start = Returned (None, lost, err, r') s' /\
    Forall (hookOf "PreFailoverProcesses") (trace s') /\ lost = [] /\ err <> None.
Proof.
  destruct (recoverDeadMaster (Sample.hooks ["pre-hook"%string] []) SampleHooks.failingHooks
              Sample.unsuccessful None false Sample.start)
    as [| |[[[promoted lost] err] r'] s'] eqn:E;
    try (vm_compute in E; discriminate).
  assert (Ht : trace s' = [CHookBatch "PreFailoverProcesses" 1;
                           CCommandRun "PreFailoverProcesses" "pre-hook"
                             (Some "exit status 1"%string)]).
  { vm_compute in E. injection E as _ _ _ _ <-. reflexivity. }
  destruct (X26_failed_pre_hook_stops_dead_master_recovery _ _ _ _ _ _ _ _ _ _ _
              (trace s') (CCommandRun "PreFailoverProcesses" "pre-hook"
                            (Some "exit status 1"%string)) E eq_refl)
    as (Hl & -> & Hlost & Herr).
  - rewrite Ht. right. left. reflexivity.
  - reflexivity.
  - exists lost, err, r', s'. conjs; auto.
Defined.

(** ** Announcing the new master *)

Lemma hookOf_silent d c : hookOf d c -> silent c.
Proof. destruct c; cbn; intros H; try contradiction; reflexivity. Qed.

Lemma executeProcesses_silent cfg w processes description r failOnError :
  ensures silent anyTrue (executeProcesses cfg w processes description r failOnError).
Proof.
  eapply ensures_relax; [apply executeProcesses_hookOf|apply hookOf_silent].
Qed.

Section Silent.

Variable cfg : Config.
Variable w : World.

Hint Resolve executeProcesses_silent : frames.

Lemma beginDowntimeAll_silent l : ensures silent anyTrue (beginDowntimeAll l).
Proof.
  induction l as [|x l IH]; cbn [beginDowntimeAll]; [apply ensures_ret; exact I|].
  frame.
Qed.

Lemma SuggestReplacementForPromotedReplica_silent r deadKey promoted candidateKey :
  ensures silent anyTrue
    (SuggestReplacementForPromotedReplica cfg w r deadKey promoted candidateKey).
Proof. unfold SuggestReplacementForPromotedReplica. frame. Qed.

Hint Resolve beginDowntimeAll_silent SuggestReplacementForPromotedReplica_silent : frames.

Lemma replacePromotedReplicaWithCandidate_silent r deadKey promoted candidateKey :
  ensures silent (fun x => sameOutcome r (recordOf x))
    (replacePromotedReplicaWithCandidate cfg w r deadKey promoted candidateKey).
Proof. unfold replacePromotedReplicaWithCandidate. frame. Qed.

Lemma onReplica_silent op p k (Q : _ -> Prop) :
  (forall a : option Instance * option Error, snd a <> None -> Q a) ->
  (forall p', ensures silent Q (k p')) ->
  ensures silent Q (onReplica w op p k).
Proof.
  intros HQ Hk. unfold onReplica. repeat ensures_step; auto.
  apply HQ. cbn. discriminate.
Qed.

Lemma recoverDeadMasterInBinlogServerTopology_silent r :
  ensures silent (fun x => sameOutcome r (recordOf x))
    (recoverDeadMasterInBinlogServerTopology w r).
Proof.
  unfold recoverDeadMasterInBinlogServerTopology. repeat ensures_step; frame_done.
  eapply ensures_bind with (Q1 := anyTrue).
  - repeat (apply onReplica_silent; [intros; exact I|intros]).
    apply ensures_ret. exact I.
  - intros [p' e'] _. frame.
Qed.

Hint Resolve replacePromotedReplicaWithCandidate_silent
  recoverDeadMasterInBinlogServerTopology_silent : frames.

Lemma recoverDeadMaster_silent r candidateKey skip :
  ensures silent (fun x => sameOutcome r (recordOf x))
    (recoverDeadMaster cfg w r candidateKey skip).
Proof. unfold recoverDeadMaster. repeat ensures_step; frame_done. Qed.

Lemma overrideMasterPromotion_silent a promoted err :
  ensures silent anyTrue (overrideMasterPromotion cfg w a promoted err).
Proof. unfold overrideMasterPromotion. frame. Qed.

End Silent.

Lemma applyMasterPromotion_announces cfg w a promoted r skip :
  runs (applyMasterPromotion cfg w a promoted r skip)
    (fun r' l =>
       sameOutcome r r' /\
       In (CEffect (DistributePairs
                      (GetClusterMasterKVPairs w (ClusterAlias (ClusterDetails a))
                         (Key promoted)))) l /\
       In (CEffect (SetGeneralAttribute (ClusterDomain (ClusterDetails a))
                      (StringCode (Key promoted)))) l).
Proof.
  unfold applyMasterPromotion. cbv zeta.
  repeat first [runs_step | runs_hint].
  all: conjs; [eauto 12 with frames|in_solve|in_solve].
Qed.

Lemma runs_and {A} (m : M A) (R1 R2 : A -> Trace -> Prop) :
  runs m R1 -> runs m R2 -> runs m (fun a l => R1 a l /\ R2 a l).
Proof.
  intros H1 H2 s a s' E.
  destruct (H1 _ _ _ E) as (l1 & T1 & HR1). destruct (H2 _ _ _ E) as (l2 & T2 & HR2).
  assert (l2 = l1) by (rewrite T1 in T2; apply app_inv_head in T2; auto).
  subst l2. eauto.
Qed.

Lemma AttemptRecoveryRegistration_silent cfg w a failIfActive failIfRecent :
  ensures silent anyTrue (AttemptRecoveryRegistration cfg w a failIfActive failIfRecent).
Proof. unfold AttemptRecoveryRegistration. frame. Qed.

Lemma resolution_silent c r : resolutionOf c = Some r -> silent c.
Proof. destruct c; cbn; intros H; try discriminate; reflexivity. Qed.

Ltac silent_solve :=
  repeat first
    [ apply Forall_nil
    | apply Forall_cons; [first [reflexivity | eapply resolution_silent; eassumption]|]
    | apply Forall_app; split
    | assumption ].

Lemma dead_master_announces cfg w a cand force skip :
  runs (checkAndRecoverDeadMaster cfg w a cand force skip)
    (fun res l =>
       match snd (fst res) with
       | Some r =>
           match SuccessorKey r with
           | Some k =>
               In (CEffect (DistributePairs
                              (GetClusterMasterKVPairs w (ClusterAlias (ClusterDetails a))
                                 k))) l /\
               In (CEffect (SetGeneralAttribute (ClusterDomain (ClusterDetails a))
                              (StringCode k))) l
           | None => Forall silent l
           end
       | None => Forall silent l
       end).
Proof.
  unfold checkAndRecoverDeadMaster.
  repeat first
    [ lazymatch goal with
      | |- runs (bind (AttemptRecoveryRegistration _ _ _ _ _) _) _ =>
          eapply runs_bind;
          [apply runs_and;
           [apply AttemptRecoveryRegistration_runs|apply AttemptRecoveryRegistration_silent]|];
          cbn beta; intros [[?r0|] ?e] ?l;
          cbn [fst snd]; intros [(_ & ?Hreg) [_ ?Hsilent]]
      | |- runs (bind (recoverDeadMaster _ _ _ _ _) _) _ =>
          eapply ensures_then; [apply recoverDeadMaster_silent|];
          cbn beta; intros ? ? ? ?
      | |- runs (bind (overrideMasterPromotion _ _ _ _ _) _) _ =>
          eapply ensures_then; [apply overrideMasterPromotion_silent|];
          cbn beta; intros ? ? ? ?
      | |- runs (bind (resolveRecovery _ _ _) _) _ =>
          eapply runs_bind; [apply resolveRecovery_runs|];
          cbn beta; intros [?e ?rr] ?l; cbn [fst snd]; intros (?Hrr & ?c & -> & ?Hc)
      | |- runs (bind (applyMasterPromotion _ _ _ _ _ _) _) _ =>
          eapply runs_bind; [apply applyMasterPromotion_announces|];
          cbn beta; intros ?r3 ?l (?Hsame & ?Hkv & ?Hattr)
      end
    | runs_step ].
  all: cbn [fst snd]; try (silent_solve; fail).
  - apply sameOutcome_SuccessorKey in Hsame. rewrite Hsame, Hrr. cbn.
    split; in_solve.
  - unfold recordOf in *. cbn [snd] in *.
    destruct Hreg as (Hnone & _).
    match goal with
    | H : sameOutcome r0 _ |- _ => apply sameOutcome_SuccessorKey in H; rename H into Hkeep
    end.
    rewrite Hrr. cbn. rewrite Hkeep, Hnone. silent_solve.
Qed.

(** X27.  [checkAndRecoverDeadMaster] announces a new master only for a
    successor: when the recovery it hands back has a successor, the
    key-value pairs of the cluster master have been distributed and the
    domain attribute of the cluster set for the key of that successor; in
    every other run no key-value pair, cluster alias or domain attribute has
    been written. *)
Theorem X27_new_master_announced_only_for_successor (cfg : Config) (w : World)
    (a : ReplicationAnalysis) (cand : option InstanceKey) (force skip : bool) (s : St)
    (attempted : bool) (rec : option TopologyRecovery) (err : option Error) (s' : St) :
  checkAndRecoverDeadMaster cfg w a cand force skip s = Returned (attempted, rec, err) s' ->
  exists l,
    trace s' = trace s ++ l /\
    match rec with
    | Some r =>
        match SuccessorKey r with
        | Some k =>
            In (CEffect (DistributePairs
                           (GetClusterMasterKVPairs w (ClusterAlias (ClusterDetails a)) k)))
              l /\
            In (CEffect (SetGeneralAttribute (ClusterDomain (ClusterDetails a))
                           (StringCode k))) l
        | None => Forall silent l
        end
    | None => Forall silent l
    end.
Proof.
  intros Hrun.
  destruct (dead_master_announces cfg w a cand force skip _ _ _ Hrun) as (l & Ht & H).
  exists l. split; [exact Ht|exact H].
Qed.

Lemma X27_new_master_announced_only_for_successor_witness :
  exists r err s' l,
    checkAndRecoverDeadMaster Sample.config0
      (Sample.gtidTopology (Sample.replica Sample.keyR1 Sample.keyM "dc1"))
      Sample.deadMaster None false false Sample.start = Returned (true, Some r, err) s' /\
    trace s' = trace Sample.start ++ l /\
    SuccessorKey r = Some Sample.keyR1 /\
    In (CEffect (DistributePairs [("mysql/master/alias1"%string, "r1.dc1:3306"%string)])) l.
Proof.
  destruct (checkAndRecoverDeadMaster Sample.config0
              (Sample.gtidTopology (Sample.replica Sample.keyR1 Sample.keyM "dc1"))
              Sample.deadMaster None false false Sample.start)
    as [| |[[attempted [r|]] err] s'] eqn:E;
    try (vm_compute in E; discriminate).
  assert (H : attempted = true /\ SuccessorKey r = Some Sample.keyR1).
  { vm_compute in E. injection E as <- <- _ _. split; reflexivity. }
  destruct H as [-> Hk].
  destruct (X27_new_master_announced_only_for_successor _ _ _ _ _ _ _ _ _ _ _ E)
    as (l & Ht & H).
  rewrite Hk in H. destruct H as [Hkv _].
  exists r, err, s', l. conjs; auto.
Defined.

(** ** Downtime after a dead master *)

Lemma beginDowntimeAll_runs replicas :
  runs (beginDowntimeAll replicas)
    (fun _ l => forall x, In x replicas -> In (CEffect (BeginDowntime (Key x))) l).
Proof.
  induction replicas as [|y rest IH]; cbn [beginDowntimeAll].
  - apply runs_ret. intros x [].
  - unfold effect_. apply runs_bind_emit. eapply runs_weaken; [exact IH|].
    cbn beta. intros _ l H x [<-|Hx]; [left; reflexivity|right; auto].
Qed.

Lemma recoverDeadMaster_downtime cfg w r candidateKey skip :
  runs (recoverDeadMaster cfg w r candidateKey skip)
    (fun res l =>
       (forall x, In x (snd (fst (fst res))) -> In (CEffect (BeginDowntime (Key x))) l) /\
       (snd (fst res) <> None /\ Forall (hookOf "PreFailoverProcesses") l \/
        In (CEffect (BeginDowntime (AnalyzedInstanceKey (AnalysisEntry r)))) l /\
        In (CEffect (AcknowledgeInstanceFailureDetection
                       (AnalyzedInstanceKey (AnalysisEntry r)))) l)).
Proof.
  unfold recoverDeadMaster. cbv zeta.
  repeat first
    [ lazymatch goal with
      | |- runs (bind (executeProcesses _ _ _ _ _ _) _) _ =>
          eapply ensures_then; [apply executeProcesses_hookOf|];
          cbn beta; intros ? ? ? ?
      | |- runs (bind (beginDowntimeAll _) _) _ =>
          eapply runs_bind; [apply beginDowntimeAll_runs|];
          cbn beta; intros [] ?l ?Hdown
      end
    | runs_step
    | runs_hint ].
  all: cbn [fst snd AnalysisEntry set_Type] in *.
  all: split;
    [ intros x Hx; first [contradiction | apply Hdown in Hx; in_solve]
    | first [ left; split; [discriminate|rewrite app_nil_r; assumption]
            | right; split; in_solve ] ].
Qed.

(** X28.  [recoverDeadMaster] begins downtime on every replica it reports
    as lost; and unless it returns with an error after nothing but the
    pre-failover hooks, it has begun downtime on the failed instance and
    acknowledged the detection of its failure. *)
Theorem X28_lost_replicas_are_downtimed (cfg : Config) (w : World)
    (r : TopologyRecovery) (candidateKey : option InstanceKey) (skip : bool) (s : St)
    (promoted : option Instance) (lost : list Instance) (err : option Error)
    (r' : TopologyRecovery) (s' : St) :
  recoverDeadMaster cfg w r candidateKey skip s = Returned (promoted, lost, err, r') s' ->
  exists l,
    trace s' = trace s ++ l /\
    (forall x, In x lost -> In (CEffect (BeginDowntime (Key x))) l) /\
    (err <> None /\ Forall (hookOf "PreFailoverProcesses") l \/
     In (CEffect (BeginDowntime (AnalyzedInstanceKey (AnalysisEntry r)))) l /\
     In (CEffect (AcknowledgeInstanceFailureDetection
                    (AnalyzedInstanceKey (AnalysisEntry r)))) l).
Proof.
  intros Hrun.
  destruct (recoverDeadMaster_downtime cfg w r candidateKey skip _ _ _ Hrun)
    as (l & Ht & H).
  exists l. split; [exact Ht|exact H].
Qed.

Lemma X28_lost_replicas_are_downtimed_witness :
  exists promoted err r' s' l,
    recoverDeadMaster Sample.config0 SampleLoss.lossyTopology Sample.unsuccessful None false
      Sample.start = Returned (promoted, [SampleLoss.lost], err, r') s' /\
    trace s' = trace Sample.start ++ l /\
    In (CEffect (BeginDowntime Sample.keyR2)) l /\
    In (CEffect (BeginDowntime Sample.keyM)) l.
Proof.
  destruct (recoverDeadMaster Sample.config0 SampleLoss.lossyTopology Sample.unsuccessful None
              false Sample.start)
    as [| |[[[promoted lost] err] r'] s'] eqn:E;
    try (vm_compute in E; discriminate).
  assert (Hlost : lost = [SampleLoss.lost] /\ err = None).
  { vm_compute in E. injection E as _ <- <- _ _. split; reflexivity. }
  destruct Hlost as [-> ->].
  destruct (X28_lost_replicas_are_downtimed _ _ _ _ _ _ _ _ _ _ _ E)
    as (l & Ht & Hdown & [[Herr _]|[Hk _]]); [congruence|].
  exists promoted, None, r', s', l. conjs; auto.
  apply (Hdown SampleLoss.lost). left. reflexivity.
Defined.
